(** * KrakenSDR receiver: a shallow embedding of [krakenSDR_receiver.py]

    The class [ReceiverRTLSDR] is embedded as a record [Receiver] (the
    attributes of [self]) together with a record [World] that holds everything
    outside the object: the bytes the DAQ still has to deliver on the data
    socket, the outcome the environment gives to every external call, the
    queue shared with the user interface, the command threads that have been
    started and a trace of the external calls made so far.  Methods are
    functions in a state-and-exception monad [Eff]. *)

From Stdlib Require Import List ZArith NArith Lia Bool String Ascii.
From Stdlib.Strings Require Import Byte.
From Stdlib Require Import QArith Qround.
Import ListNotations.

Local Open Scope Z_scope.

Abbreviation length := List.length (only parsing).

(** ** Bytes, [bytearray], [struct.pack] *)

Definition bytes := list byte.

Definition byte_of_Z (z : Z) : byte :=
  match Byte.of_N (Z.to_N (z mod 256)) with
  | Some b => b
  | None => x00
  end.

(** Little-endian encoding on [n] bytes, the native layout of [pack] on the
    machines the DAQ chain runs on. *)
Fixpoint le_bytes (n : nat) (v : Z) : bytes :=
  match n with
  | O => []
  | S k => byte_of_Z v :: le_bytes k (v / 256)
  end.

(** [str.encode()] of an ASCII literal. *)
Definition encode (s : string) : bytes := list_byte_of_string s.

(** Exceptions; all of them are subclasses of [Exception]. *)
Inductive exn :=
| OSError
| ValueError
| StructError
| AttributeError
| UnicodeDecodeError
| RuntimeError.

Inductive result (A : Type) :=
| Ok (a : A)
| Err (e : exn).
Arguments Ok {A} a.
Arguments Err {A} e.

(** [bytearray(n)]: [n] zero bytes, [ValueError] on a negative count. *)
Definition bytearray (n : Z) : result bytes :=
  if n <? 0 then Err ValueError else Ok (repeat x00 (Z.to_nat n)).

(** [pack("Q", v)] *)
Definition pack_Q (v : Z) : result bytes :=
  if (0 <=? v) && (v <? 2 ^ 64) then Ok (le_bytes 8 v) else Err StructError.

(** [pack("I" * m, *vs)] where [vs] has [m] entries. *)
Fixpoint pack_I (vs : list Z) : result bytes :=
  match vs with
  | [] => Ok []
  | v :: rest =>
      if (0 <=? v) && (v <? 2 ^ 32) then
        match pack_I rest with
        | Ok bs => Ok (le_bytes 4 v ++ bs)
        | Err e => Err e
        end
      else Err StructError
  end.

(** [int(x)] on a finite number: truncation towards zero. *)
Definition py_int (x : Q) : Z :=
  if Qle_bool 0 x then Qfloor x else Qceiling x.

(** ** numpy arrays and Python values *)

Inductive dtype := float64 | complex64.

Definition itemsize (d : dtype) : nat :=
  match d with float64 => 8%nat | complex64 => 8%nat end.

(** An array object: [arr_id] is the identity of the object ([id(a)]),
    [arr_data] its raw buffer. *)
Record ndarray := {
  arr_id : nat;
  arr_dtype : dtype;
  arr_shape : list N;
  arr_data : bytes
}.

Inductive pyval :=
| PyNone
| PyInt (z : Z)
| PyArr (a : ndarray).

Definition truthy (v : pyval) : bool :=
  match v with
  | PyNone => false
  | PyInt z => negb (z =? 0)
  | PyArr _ => true
  end.

Definition shape_eqb (s1 s2 : list N) : bool :=
  if list_eq_dec N.eq_dec s1 s2 then true else false.

(** ** The IQ header

    Only the attributes the receiver reads are kept.  The class itself lives
    in [iq_header.py]; its decoder is a parameter of the model below. *)
Record IQHeader := {
  header_size : N;
  active_ant_chs : N;
  cpi_length : N;
  sample_bit_depth : N
}.

(** Payload size as computed by [receive_iq_frame]:
    [cpi_length * active_ant_chs * 2 * int(sample_bit_depth / 8)].
    The true division of an unsigned 32-bit field by 8 is exact in double
    precision, and [int] truncates the quotient. *)
Definition incoming_payload_size_eth (h : IQHeader) : N :=
  (cpi_length h * active_ant_chs h * 2 *
     Z.to_N (py_int (Qmake (Z.of_N (sample_bit_depth h)) 8)))%N.

(** Payload size as computed by [get_iq_online]:
    [cpi_length * active_ant_chs * 2 * (sample_bit_depth // 8)]. *)
Definition incoming_payload_size_shmem (h : IQHeader) : N :=
  (cpi_length h * active_ant_chs h * 2 * (sample_bit_depth h / 8))%N.

(** ** The receiver object *)

Record Receiver := {
  daq_center_freq : Z;
  daq_rx_gain : Z;
  daq_agc : bool;
  data_interface : string;
  receiver_connection_status : bool;
  port : Z;
  rec_ip_addr : string;
  socket_inst : nat;
  receiverBufferSize : Z;
  ctr_iface_socket : nat;
  ctr_iface_port : Z;
  iq_frame_bytes : option bytes;
  iq_samples : pyval;
  iq_header : IQHeader;
  M : N
}.

Definition set_daq_center_freq (v : Z) (r : Receiver) : Receiver :=
  {| daq_center_freq := v; daq_rx_gain := daq_rx_gain r; daq_agc := daq_agc r;
     data_interface := data_interface r;
     receiver_connection_status := receiver_connection_status r;
     port := port r; rec_ip_addr := rec_ip_addr r; socket_inst := socket_inst r;
     receiverBufferSize := receiverBufferSize r;
     ctr_iface_socket := ctr_iface_socket r; ctr_iface_port := ctr_iface_port r;
     iq_frame_bytes := iq_frame_bytes r; iq_samples := iq_samples r;
     iq_header := iq_header r; M := M r |}.

Definition set_daq_rx_gain (v : Z) (r : Receiver) : Receiver :=
  {| daq_center_freq := daq_center_freq r; daq_rx_gain := v; daq_agc := daq_agc r;
     data_interface := data_interface r;
     receiver_connection_status := receiver_connection_status r;
     port := port r; rec_ip_addr := rec_ip_addr r; socket_inst := socket_inst r;
     receiverBufferSize := receiverBufferSize r;
     ctr_iface_socket := ctr_iface_socket r; ctr_iface_port := ctr_iface_port r;
     iq_frame_bytes := iq_frame_bytes r; iq_samples := iq_samples r;
     iq_header := iq_header r; M := M r |}.

Definition set_daq_agc (v : bool) (r : Receiver) : Receiver :=
  {| daq_center_freq := daq_center_freq r; daq_rx_gain := daq_rx_gain r; daq_agc := v;
     data_interface := data_interface r;
     receiver_connection_status := receiver_connection_status r;
     port := port r; rec_ip_addr := rec_ip_addr r; socket_inst := socket_inst r;
     receiverBufferSize := receiverBufferSize r;
     ctr_iface_socket := ctr_iface_socket r; ctr_iface_port := ctr_iface_port r;
     iq_frame_bytes := iq_frame_bytes r; iq_samples := iq_samples r;
     iq_header := iq_header r; M := M r |}.

Definition set_receiver_connection_status (v : bool) (r : Receiver) : Receiver :=
  {| daq_center_freq := daq_center_freq r; daq_rx_gain := daq_rx_gain r;
     daq_agc := daq_agc r; data_interface := data_interface r;
     receiver_connection_status := v;
     port := port r; rec_ip_addr := rec_ip_addr r; socket_inst := socket_inst r;
     receiverBufferSize := receiverBufferSize r;
     ctr_iface_socket := ctr_iface_socket r; ctr_iface_port := ctr_iface_port r;
     iq_frame_bytes := iq_frame_bytes r; iq_samples := iq_samples r;
     iq_header := iq_header r; M := M r |}.

Definition set_socket_inst (v : nat) (r : Receiver) : Receiver :=
  {| daq_center_freq := daq_center_freq r; daq_rx_gain := daq_rx_gain r;
     daq_agc := daq_agc r; data_interface := data_interface r;
     receiver_connection_status := receiver_connection_status r;
     port := port r; rec_ip_addr := rec_ip_addr r; socket_inst := v;
     receiverBufferSize := receiverBufferSize r;
     ctr_iface_socket := ctr_iface_socket r; ctr_iface_port := ctr_iface_port r;
     iq_frame_bytes := iq_frame_bytes r; iq_samples := iq_samples r;
     iq_header := iq_header r; M := M r |}.

Definition set_ctr_iface_socket (v : nat) (r : Receiver) : Receiver :=
  {| daq_center_freq := daq_center_freq r; daq_rx_gain := daq_rx_gain r;
     daq_agc := daq_agc r; data_interface := data_interface r;
     receiver_connection_status := receiver_connection_status r;
     port := port r; rec_ip_addr := rec_ip_addr r; socket_inst := socket_inst r;
     receiverBufferSize := receiverBufferSize r;
     ctr_iface_socket := v; ctr_iface_port := ctr_iface_port r;
     iq_frame_bytes := iq_frame_bytes r; iq_samples := iq_samples r;
     iq_header := iq_header r; M := M r |}.

Definition set_iq_frame_bytes (v : option bytes) (r : Receiver) : Receiver :=
  {| daq_center_freq := daq_center_freq r; daq_rx_gain := daq_rx_gain r;
     daq_agc := daq_agc r; data_interface := data_interface r;
     receiver_connection_status := receiver_connection_status r;
     port := port r; rec_ip_addr := rec_ip_addr r; socket_inst := socket_inst r;
     receiverBufferSize := receiverBufferSize r;
     ctr_iface_socket := ctr_iface_socket r; ctr_iface_port := ctr_iface_port r;
     iq_frame_bytes := v; iq_samples := iq_samples r;
     iq_header := iq_header r; M := M r |}.

Definition set_iq_samples (v : pyval) (r : Receiver) : Receiver :=
  {| daq_center_freq := daq_center_freq r; daq_rx_gain := daq_rx_gain r;
     daq_agc := daq_agc r; data_interface := data_interface r;
     receiver_connection_status := receiver_connection_status r;
     port := port r; rec_ip_addr := rec_ip_addr r; socket_inst := socket_inst r;
     receiverBufferSize := receiverBufferSize r;
     ctr_iface_socket := ctr_iface_socket r; ctr_iface_port := ctr_iface_port r;
     iq_frame_bytes := iq_frame_bytes r; iq_samples := v;
     iq_header := iq_header r; M := M r |}.

Definition set_iq_header (v : IQHeader) (r : Receiver) : Receiver :=
  {| daq_center_freq := daq_center_freq r; daq_rx_gain := daq_rx_gain r;
     daq_agc := daq_agc r; data_interface := data_interface r;
     receiver_connection_status := receiver_connection_status r;
     port := port r; rec_ip_addr := rec_ip_addr r; socket_inst := socket_inst r;
     receiverBufferSize := receiverBufferSize r;
     ctr_iface_socket := ctr_iface_socket r; ctr_iface_port := ctr_iface_port r;
     iq_frame_bytes := iq_frame_bytes r; iq_samples := iq_samples r;
     iq_header := v; M := M r |}.

Definition set_M (v : N) (r : Receiver) : Receiver :=
  {| daq_center_freq := daq_center_freq r; daq_rx_gain := daq_rx_gain r;
     daq_agc := daq_agc r; data_interface := data_interface r;
     receiver_connection_status := receiver_connection_status r;
     port := port r; rec_ip_addr := rec_ip_addr r; socket_inst := socket_inst r;
     receiverBufferSize := receiverBufferSize r;
     ctr_iface_socket := ctr_iface_socket r; ctr_iface_port := ctr_iface_port r;
     iq_frame_bytes := iq_frame_bytes r; iq_samples := iq_samples r;
     iq_header := iq_header r; M := v |}.

(** ** The world outside the object *)

(** What one [recv_into] on the data socket does: deliver at most [cap] bytes
    of what the DAQ has written ([Deliver 0] is a closed peer: the read
    returns no byte), or raise. *)
Inductive read_plan :=
| Deliver (cap : nat)
| ReadError (e : exn).

Inductive loglevel := Debug | Info | Error | Critical.

(** External calls that succeeded, in program order. *)
Inductive effect :=
| SockNew (id : nat)
| SockConnect (id : nat) (host : string) (p : Z)
| SockSendAll (id : nat) (data : bytes)
| SockSend (id : nat) (data : bytes)
| SockRecv (id : nat) (got : bytes)
| SockClose (id : nat)
| FileWrite (name : string)
| ShmWait (ret : Z)
| ShmBuffer (idx : Z)
| ShmReady (idx : Z)
| ShmDestroy
| LockAcquire
| LockRelease
| Log (lvl : loglevel).

(** The script of the environment: what the [k]-th read of the data socket
    does, whether the [k]-th fallible external call raises, what the [k]-th
    [wait_buff_free] returns, what the shared-memory slots hold at that
    acquisition, and what the firmware replies to the [k]-th command. *)
Record Env := {
  recv_plan : nat -> read_plan;
  fault_plan : nat -> option exn;
  shm_signal : nat -> Z;
  shm_slot : nat -> Z -> bytes;
  shm_init_ok : bool;
  ctr_reply : nat -> bytes
}.

Definition set_recv_plan (p : nat -> read_plan) (e : Env) : Env :=
  {| recv_plan := p; fault_plan := fault_plan e; shm_signal := shm_signal e;
     shm_slot := shm_slot e; shm_init_ok := shm_init_ok e;
     ctr_reply := ctr_reply e |}.

Definition packet := list (list string).

Record World := {
  env : Env;
  inbox : bytes;          (* bytes written by the DAQ, not yet read *)
  n_reads : nat;          (* reads of the data socket so far *)
  n_calls : nat;          (* fallible external calls so far *)
  n_waits : nat;          (* wait_buff_free calls so far *)
  n_cmds : nat;           (* replies read on the control socket so far *)
  next_obj : nat;         (* identity of the next object created *)
  lock_held : bool;       (* ctr_iface_thread_lock *)
  que : list packet;      (* data_que *)
  threads : list bytes;   (* argument of every started command thread *)
  trace : list effect
}.

Definition set_inbox (v : bytes) (w : World) : World :=
  {| env := env w; inbox := v; n_reads := n_reads w; n_calls := n_calls w;
     n_waits := n_waits w; n_cmds := n_cmds w; next_obj := next_obj w;
     lock_held := lock_held w; que := que w; threads := threads w;
     trace := trace w |}.

Definition set_n_reads (v : nat) (w : World) : World :=
  {| env := env w; inbox := inbox w; n_reads := v; n_calls := n_calls w;
     n_waits := n_waits w; n_cmds := n_cmds w; next_obj := next_obj w;
     lock_held := lock_held w; que := que w; threads := threads w;
     trace := trace w |}.

Definition set_n_calls (v : nat) (w : World) : World :=
  {| env := env w; inbox := inbox w; n_reads := n_reads w; n_calls := v;
     n_waits := n_waits w; n_cmds := n_cmds w; next_obj := next_obj w;
     lock_held := lock_held w; que := que w; threads := threads w;
     trace := trace w |}.

Definition set_n_waits (v : nat) (w : World) : World :=
  {| env := env w; inbox := inbox w; n_reads := n_reads w; n_calls := n_calls w;
     n_waits := v; n_cmds := n_cmds w; next_obj := next_obj w;
     lock_held := lock_held w; que := que w; threads := threads w;
     trace := trace w |}.

Definition set_n_cmds (v : nat) (w : World) : World :=
  {| env := env w; inbox := inbox w; n_reads := n_reads w; n_calls := n_calls w;
     n_waits := n_waits w; n_cmds := v; next_obj := next_obj w;
     lock_held := lock_held w; que := que w; threads := threads w;
     trace := trace w |}.

Definition set_next_obj (v : nat) (w : World) : World :=
  {| env := env w; inbox := inbox w; n_reads := n_reads w; n_calls := n_calls w;
     n_waits := n_waits w; n_cmds := n_cmds w; next_obj := v;
     lock_held := lock_held w; que := que w; threads := threads w;
     trace := trace w |}.

Definition set_lock_held (v : bool) (w : World) : World :=
  {| env := env w; inbox := inbox w; n_reads := n_reads w; n_calls := n_calls w;
     n_waits := n_waits w; n_cmds := n_cmds w; next_obj := next_obj w;
     lock_held := v; que := que w; threads := threads w;
     trace := trace w |}.

Definition set_que (v : list packet) (w : World) : World :=
  {| env := env w; inbox := inbox w; n_reads := n_reads w; n_calls := n_calls w;
     n_waits := n_waits w; n_cmds := n_cmds w; next_obj := next_obj w;
     lock_held := lock_held w; que := v; threads := threads w;
     trace := trace w |}.

Definition set_threads (v : list bytes) (w : World) : World :=
  {| env := env w; inbox := inbox w; n_reads := n_reads w; n_calls := n_calls w;
     n_waits := n_waits w; n_cmds := n_cmds w; next_obj := next_obj w;
     lock_held := lock_held w; que := que w; threads := v;
     trace := trace w |}.

Definition set_trace (v : list effect) (w : World) : World :=
  {| env := env w; inbox := inbox w; n_reads := n_reads w; n_calls := n_calls w;
     n_waits := n_waits w; n_cmds := n_cmds w; next_obj := next_obj w;
     lock_held := lock_held w; que := que w; threads := threads w;
     trace := v |}.

Definition set_env (v : Env) (w : World) : World :=
  {| env := v; inbox := inbox w; n_reads := n_reads w; n_calls := n_calls w;
     n_waits := n_waits w; n_cmds := n_cmds w; next_obj := next_obj w;
     lock_held := lock_held w; que := que w; threads := threads w;
     trace := trace w |}.

Record State := {
  self : Receiver;
  world : World
}.

(** The same state with the data socket behaving as [p] from its [k]-th
    read on. *)
Definition with_transport (p : nat -> read_plan) (k : nat) (s : State) : State :=
  {| self := self s;
     world := set_n_reads k (set_env (set_recv_plan p (env (world s))) (world s)) |}.

(** A transport that hands over at most [c] bytes per read. *)
Definition chunked (c : nat) : nat -> read_plan := fun _ => Deliver c.

(** ** The monad of methods *)

(** A call returns a value, raises, does not return within the fuel given to
    its loops, or blocks on the command lock. *)
Inductive outcome (A : Type) :=
| Normal (a : A)
| Raised (e : exn)
| OutOfFuel
| Blocked.
Arguments Normal {A} a.
Arguments Raised {A} e.
Arguments OutOfFuel {A}.
Arguments Blocked {A}.

Definition Eff (A : Type) : Type := State -> outcome A * State.

Definition ret {A} (a : A) : Eff A := fun s => (Normal a, s).

Definition bind {A B} (m : Eff A) (k : A -> Eff B) : Eff B :=
  fun s =>
    match m s with
    | (Normal a, s') => k a s'
    | (Raised e, s') => (Raised e, s')
    | (OutOfFuel, s') => (OutOfFuel, s')
    | (Blocked, s') => (Blocked, s')
    end.

Notation "x <- c1 ;; c2" := (bind c1 (fun x => c2))
  (at level 61, c1 at next level, right associativity).
Notation "c1 ;; c2" := (bind c1 (fun _ => c2))
  (at level 61, right associativity).

Definition raise {A} (e : exn) : Eff A := fun s => (Raised e, s).

(** [try: body  except Exception as error: handler] *)
Definition try_except {A} (body : Eff A) (handler : exn -> Eff A) : Eff A :=
  fun s =>
    match body s with
    | (Raised e, s') => handler e s'
    | r => r
    end.

Definition lift {A} (r : result A) : Eff A :=
  match r with
  | Ok a => ret a
  | Err e => raise e
  end.

Definition reads {A} (f : Receiver -> A) : Eff A :=
  fun s => (Normal (f (self s)), s).

Definition modify (f : Receiver -> Receiver) : Eff unit :=
  fun s => (Normal tt, {| self := f (self s); world := world s |}).

Definition reads_world {A} (f : World -> A) : Eff A :=
  fun s => (Normal (f (world s)), s).

Definition modify_world (f : World -> World) : Eff unit :=
  fun s => (Normal tt, {| self := self s; world := f (world s) |}).

Definition emit (ev : effect) : Eff unit :=
  modify_world (fun w => set_trace (trace w ++ [ev]) w).

Definition log (lvl : loglevel) : Eff unit := emit (Log lvl).

(** A fallible external call: the environment decides whether it raises;
    when it does not, the call is recorded. *)
Definition external (ev : effect) : Eff unit :=
  k <- reads_world n_calls ;;
  f <- reads_world (fun w => fault_plan (env w) k) ;;
  modify_world (set_n_calls (S k)) ;;
  match f with
  | Some e => raise e
  | None => emit ev
  end.

(** Creation of an object: its identity is new. *)
Definition new_object : Eff nat :=
  i <- reads_world next_obj ;;
  modify_world (set_next_obj (S i)) ;;
  ret i.

(** [socket.socket()] *)
Definition new_socket : Eff nat :=
  i <- new_object ;;
  emit (SockNew i) ;;
  ret i.

Definition sock_connect (s : nat) (host : string) (p : Z) : Eff unit :=
  external (SockConnect s host p).

Definition sock_sendall (s : nat) (data : bytes) : Eff unit :=
  external (SockSendAll s data).

Definition sock_send (s : nat) (data : bytes) : Eff unit :=
  external (SockSend s data).

Definition sock_close (s : nat) : Eff unit :=
  external (SockClose s).

(** [data_que.put(packet)] on an unbounded queue. *)
Definition que_put (p : packet) : Eff unit :=
  modify_world (fun w => set_que (que w ++ [p]) w).

(** [_thread.start_new_thread(self.ctr_iface_communication, (msg_bytes,))] *)
Definition start_new_thread (msg_bytes : bytes) : Eff unit :=
  k <- reads_world n_calls ;;
  f <- reads_world (fun w => fault_plan (env w) k) ;;
  modify_world (set_n_calls (S k)) ;;
  match f with
  | Some e => raise e
  | None => modify_world (fun w => set_threads (threads w ++ [msg_bytes]) w)
  end.

(** [sock.recv_into(view, nbytes)] on the data socket, where [viewlen] is the
    length of [view]: [ValueError] when the view is too small for the
    request, a request of 0 means the length of the view. *)
Definition recv_into (viewlen nbytes : nat) : Eff bytes :=
  if (viewlen <? nbytes)%nat then raise ValueError
  else
    k <- reads_world n_reads ;;
    p <- reads_world (fun w => recv_plan (env w) k) ;;
    modify_world (set_n_reads (S k)) ;;
    match p with
    | ReadError e => raise e
    | Deliver cap =>
        let want := if (nbytes =? 0)%nat then viewlen else nbytes in
        pending <- reads_world inbox ;;
        let got := firstn (Nat.min cap want) pending in
        modify_world (set_inbox (skipn (length got) pending)) ;;
        ret got
    end.

(** [sock.recv(bufsize)] on the control socket. *)
Definition sock_recv (s : nat) (bufsize : nat) : Eff bytes :=
  k <- reads_world n_cmds ;;
  reply <- reads_world (fun w => firstn bufsize (ctr_reply (env w) k)) ;;
  modify_world (set_n_cmds (S k)) ;;
  external (SockRecv s reply) ;;
  ret reply.

(** Writing [data] into a buffer at offset [off] (a [memoryview] slice of a
    [bytearray] shares its storage). *)
Definition blit (buf : bytes) (off : nat) (data : bytes) : bytes :=
  firstn off buf ++ data ++ skipn (off + length data) buf.

(** [np.frombuffer(b, dtype=np.complex64)] *)
Definition np_frombuffer (b : bytes) : Eff ndarray :=
  if (length b mod 8 =? 0)%nat then
    i <- new_object ;;
    ret {| arr_id := i; arr_dtype := complex64;
           arr_shape := [N.of_nat (length b / 8)]; arr_data := b |}
  else raise ValueError.

(** [a.reshape(shape)]: a new array object over the same data. *)
Definition np_reshape (a : ndarray) (shape : list N) : Eff ndarray :=
  if (fold_right N.mul 1 shape =? fold_right N.mul 1 (arr_shape a))%N then
    i <- new_object ;;
    ret {| arr_id := i; arr_dtype := arr_dtype a;
           arr_shape := shape; arr_data := arr_data a |}
  else raise ValueError.

(** [np.empty(shape, dtype=np.complex64)] *)
Definition np_empty (shape : list N) : Eff ndarray :=
  i <- new_object ;;
  ret {| arr_id := i; arr_dtype := complex64; arr_shape := shape;
         arr_data := repeat x00 (8 * N.to_nat (fold_right N.mul 1%N shape)) |}.

(** [np.copyto(dst, src)] for arrays of one shape: [dst] keeps its identity. *)
Definition np_copyto (dst src : ndarray) : ndarray :=
  {| arr_id := arr_id dst; arr_dtype := arr_dtype dst;
     arr_shape := arr_shape dst; arr_data := arr_data src |}.

Definition bytes_eqb (a b : bytes) : bool :=
  if list_eq_dec byte_eq_dec a b then true else false.

(** ** The methods of [ReceiverRTLSDR] *)

Section Methods.

(** Names the module imports and whose definitions are elsewhere:
    [AUTO_GAIN_VALUE] of [variables], [IQHeader.decode_header] (it updates
    the header object from the raw bytes, or raises), the size
    [sys.getsizeof] reports for an empty [bytes] object, and whether a byte
    string decodes as UTF-8. *)
Variable AUTO_GAIN_VALUE : Z.
Variable decode_header : IQHeader -> bytes -> result IQHeader.
Variable bytes_object_overhead : nat.
Variable utf8_decodable : bytes -> bool.

(** [sys.getsizeof(b)] for a [bytes] object. *)
Definition sys_getsizeof (b : bytes) : Z :=
  Z.of_nat (bytes_object_overhead + length b).

(** The local [receiver_buffer_size = 2**18]. *)
Definition receiver_buffer_size : nat := N.to_nat (2 ^ 18).

(** The two reception loops of [receive_iq_frame]:
<<
    while total_received_bytes < need:
        recv_bytes_count = self.socket_inst.recv_into(view, request)
        view = view[recv_bytes_count:]
        total_received_bytes += recv_bytes_count
>>
    [buf] is the bytearray, [off] the offset of [view] in it.  The header
    loop requests [header_size - total_received_bytes], the payload loop
    [receiver_buffer_size]. *)
Fixpoint recv_loop (fuel : nat) (request : nat -> nat) (need : nat)
    (buf : bytes) (off total : nat) : Eff bytes :=
  if (total <? need)%nat then
    match fuel with
    | O => fun s => (OutOfFuel, s)
    | S fuel' =>
        got <- recv_into (length buf - off) (request total) ;;
        recv_loop fuel' request need (blit buf off got)
          (off + length got) (total + length got)
    end
  else ret buf.

(** [save_iq_samples_to_text]: one file is opened and written. *)
Definition save_iq_samples_to_text (filename : string) : Eff unit :=
  external (FileWrite filename).

(** The part of [receive_iq_frame] after the payload loop. *)
Definition store_iq_frame (h : IQHeader) (iq_header_bytes iq_data_bytes : bytes)
    (total_bytes_to_receive : nat) : Eff pyval :=
  log Debug ;;
  flat <- np_frombuffer (firstn total_bytes_to_receive iq_data_bytes) ;;
  a <- np_reshape flat [active_ant_chs h; cpi_length h] ;;
  modify (set_iq_samples (PyArr a)) ;;
  save_iq_samples_to_text "iq_samples.txt" ;;
  modify (set_iq_frame_bytes (Some (iq_header_bytes ++ iq_data_bytes))) ;;
  reads iq_samples.

(** The part of [receive_iq_frame] after the header loop. *)
Definition receive_iq_payload (fuel : nat) (iq_header_bytes : bytes) : Eff pyval :=
  h0 <- reads iq_header ;;
  h <- lift (decode_header h0 iq_header_bytes) ;;
  modify (set_iq_header h) ;;
  let incoming_payload_size := incoming_payload_size_eth h in
  if (0 <? incoming_payload_size)%N then
    let total_bytes_to_receive := N.to_nat incoming_payload_size in
    log Debug ;;
    iq_data_bytes <-
      recv_loop fuel (fun _ => receiver_buffer_size) total_bytes_to_receive
        (repeat x00 (total_bytes_to_receive + receiver_buffer_size)) 0 0 ;;
    store_iq_frame h iq_header_bytes iq_data_bytes total_bytes_to_receive
  else ret (PyInt 0).

Definition receive_iq_frame (fuel : nat) : Eff pyval :=
  hs <- reads (fun r => N.to_nat (header_size (iq_header r))) ;;
  log Debug ;;
  iq_header_bytes <-
    recv_loop fuel (fun total => (hs - total)%nat) hs (repeat x00 hs) 0 0 ;;
  receive_iq_payload fuel iq_header_bytes.

(** The body of every command method after the message is assembled. *)
Definition spawn_command (msg_bytes : bytes) : Eff unit :=
  try_except (start_new_thread msg_bytes)
    (fun _ => log Error ;; log Error).

Definition ctr_iface_init : Eff unit :=
  st <- reads receiver_connection_status ;;
  if st then
    pad <- lift (bytearray 124) ;;
    spawn_command (encode "INIT" ++ pad)
  else ret tt.

Definition ctr_iface_communication (msg_bytes : bytes) : Eff unit :=
  held <- reads_world lock_held ;;
  if held then (fun s => (Blocked, s))
  else
    modify_world (set_lock_held true) ;;
    emit LockAcquire ;;
    log Debug ;;
    c <- reads ctr_iface_socket ;;
    sock_send c msg_bytes ;;
    reply_msg_bytes <- sock_recv c 128 ;;
    log Debug ;;
    modify_world (set_lock_held false) ;;
    emit LockRelease ;;
    let status := firstn 4 reply_msg_bytes in
    if utf8_decodable status then
      if bytes_eqb status (encode "FNSD") then
        log Info ;;
        que_put [["config-ok"%string]]
      else log Error
    else raise UnicodeDecodeError.

Definition set_center_freq (center_freq : Q) : Eff unit :=
  st <- reads receiver_connection_status ;;
  if st then
    modify (set_daq_center_freq (py_int center_freq)) ;;
    freq_bytes <- lift (pack_Q (py_int center_freq)) ;;
    pad <- lift (bytearray 116) ;;
    spawn_command (encode "FREQ" ++ freq_bytes ++ pad)
  else ret tt.

Definition set_if_agc : Eff unit :=
  st <- reads receiver_connection_status ;;
  if st then
    modify (set_daq_rx_gain AUTO_GAIN_VALUE) ;;
    modify (set_daq_agc true) ;;
    let cmd := encode "AGC " in
    pad <- lift (bytearray (128 - sys_getsizeof cmd)) ;;
    spawn_command (cmd ++ pad)
  else ret tt.

Definition set_if_gain (gain : Z) : Eff unit :=
  if gain =? AUTO_GAIN_VALUE then set_if_agc
  else
    st <- reads receiver_connection_status ;;
    if st then
      modify (set_daq_rx_gain gain) ;;
      modify (set_daq_agc false) ;;
      m <- reads M ;;
      let gain_list := repeat (gain * 10) (N.to_nat m) in
      gain_bytes <- lift (pack_I gain_list) ;;
      pad <- lift (bytearray (128 - (Z.of_N m + 1) * 4)) ;;
      spawn_command (encode "GAIN" ++ gain_bytes ++ pad)
    else ret tt.

(** First half of the [try] block of [eth_connect]: the data connection
    (Ethernet interface only) and the control connection. *)
Definition eth_connect_open (fuel : nat) : Eff unit :=
  iface <- reads data_interface ;;
  ip <- reads rec_ip_addr ;;
  (if String.eqb iface "eth" then
     s <- reads socket_inst ;;
     p <- reads port ;;
     sock_connect s ip p ;;
     sock_sendall s (encode "streaming") ;;
     receive_iq_frame fuel ;;
     h <- reads iq_header ;;
     modify (set_M (active_ant_chs h))
   else ret tt) ;;
  c <- reads ctr_iface_socket ;;
  cp <- reads ctr_iface_port ;;
  sock_connect c ip cp ;;
  modify (set_receiver_connection_status true).

(** Second half: [INIT], then the cached frequency and gain are sent again. *)
Definition eth_connect_replay : Eff unit :=
  ctr_iface_init ;;
  log Info ;;
  f <- reads daq_center_freq ;;
  set_center_freq (inject_Z f) ;;
  g <- reads daq_rx_gain ;;
  set_if_gain g.

(** The [try] block of [eth_connect]. *)
Definition eth_connect_try (fuel : nat) : Eff unit :=
  st <- reads receiver_connection_status ;;
  if negb st then
    eth_connect_open fuel ;;
    eth_connect_replay
  else ret tt.

(** The [except] block of [eth_connect]. *)
Definition eth_connect_except : Eff unit :=
  modify (set_receiver_connection_status false) ;;
  log Error ;;
  s <- new_socket ;;
  modify (set_socket_inst s) ;;
  c <- new_socket ;;
  modify (set_ctr_iface_socket c).

Definition eth_connect (fuel : nat) : Eff pyval :=
  early <- try_except (eth_connect_try fuel ;; ret None)
             (fun _ => eth_connect_except ;; ret (Some (PyInt (-1)))) ;;
  match early with
  | Some v => ret v
  | None =>
      log Info ;;
      que_put [["conn-ok"%string]] ;;
      ret PyNone
  end.

(** [self.in_shmem_iface.destory_sm_buffer()] *)
Definition destory_sm_buffer : Eff unit := external ShmDestroy.

(** The [try] block of [eth_close]. *)
Definition eth_close_try : Eff unit :=
  st <- reads receiver_connection_status ;;
  (if st then
     iface <- reads data_interface ;;
     (if String.eqb iface "eth" then
        s <- reads socket_inst ;;
        sock_sendall s (encode "q") ;;
        sock_close s ;;
        s' <- new_socket ;;
        modify (set_socket_inst s')
      else ret tt) ;;
     pad <- lift (bytearray 124) ;;
     let exit_message_bytes := encode "EXIT" ++ pad in
     c <- reads ctr_iface_socket ;;
     sock_send c exit_message_bytes ;;
     sock_close c ;;
     c' <- new_socket ;;
     modify (set_ctr_iface_socket c')
   else ret tt) ;;
  modify (set_receiver_connection_status false) ;;
  que_put [["disconn-ok"%string]].

Definition eth_close : Eff pyval :=
  early <- try_except (eth_close_try ;; ret None)
             (fun _ => log Error ;; ret (Some (PyInt (-1)))) ;;
  match early with
  | Some v => ret v
  | None =>
      iface <- reads data_interface ;;
      (if String.eqb iface "shmem" then destory_sm_buffer else ret tt) ;;
      ret (PyInt 0)
  end.

Definition close : Eff pyval :=
  eth_close ;;
  ret PyNone.

(** [self.in_shmem_iface.wait_buff_free()] *)
Definition wait_buff_free : Eff Z :=
  k <- reads_world n_waits ;;
  i <- reads_world (fun w => shm_signal (env w) k) ;;
  modify_world (set_n_waits (S k)) ;;
  emit (ShmWait i) ;;
  ret i.

(** [self.in_shmem_iface.buffers[i]] for [i] in 0..1 *)
Definition shm_buffer (i : Z) : Eff bytes :=
  k <- reads_world n_waits ;;
  emit (ShmBuffer i) ;;
  reads_world (fun w => shm_slot (env w) k i).

(** [self.in_shmem_iface.send_ctr_buff_ready(i)] *)
Definition send_ctr_buff_ready (i : Z) : Eff unit := external (ShmReady i).

(** [buffer[1024 : 1024 + n].view(dtype=np.complex64).reshape(shape)] *)
Definition shm_payload_view (buffer : bytes) (n : nat) (shape : list N) : Eff ndarray :=
  let window := firstn n (skipn 1024 buffer) in
  if (length window mod 8 =? 0)%nat then
    i <- new_object ;;
    np_reshape {| arr_id := i; arr_dtype := complex64;
                  arr_shape := [N.of_nat (length window / 8)];
                  arr_data := window |} shape
  else raise ValueError.

(** The shared-memory branch of [get_iq_online] once a slot is granted. *)
Definition read_shm_frame (active_buff_index : Z) : Eff pyval :=
  buffer <- shm_buffer active_buff_index ;;
  let iq_header_bytes := firstn 1024 buffer in
  h0 <- reads iq_header ;;
  h <- lift (decode_header h0 iq_header_bytes) ;;
  modify (set_iq_header h) ;;
  m <- reads M ;;
  (if (m =? 0)%N then modify (set_M (active_ant_chs h)) else ret tt) ;;
  let incoming_payload_size := incoming_payload_size_shmem h in
  let shape := [active_ant_chs h; cpi_length h] in
  iq_samples_in <- shm_payload_view buffer (N.to_nat incoming_payload_size) shape ;;
  cur <- reads iq_samples ;;
  dst <- match cur with
         | PyArr a =>
             if negb (shape_eqb (arr_shape a) shape) then
               fresh <- np_empty shape ;;
               modify (set_iq_samples (PyArr fresh)) ;;
               ret fresh
             else ret a
         | _ => raise AttributeError
         end ;;
  modify (set_iq_samples (PyArr (np_copyto dst iq_samples_in))) ;;
  send_ctr_buff_ready active_buff_index ;;
  ret PyNone.

Definition get_iq_online (fuel : nat) : Eff pyval :=
  st <- reads receiver_connection_status ;;
  fail <- (if negb st then eth_connect fuel else ret PyNone) ;;
  if truthy fail then ret (PyInt (-1))
  else
    iface <- reads data_interface ;;
    if String.eqb iface "eth" then
      s <- reads socket_inst ;;
      sock_sendall s (encode "IQDownload") ;;
      v <- receive_iq_frame fuel ;;
      modify (set_iq_samples v) ;;
      ret PyNone
    else if String.eqb iface "shmem" then
      active_buff_index <- wait_buff_free ;;
      if (active_buff_index <? 0) || (1 <? active_buff_index) then
        log Info ;;
        ret (PyInt (-1))
      else read_shm_frame active_buff_index
    else ret PyNone.

(** [__init__]: the object as the constructor leaves it, given the initial
    header object [IQHeader()]. *)
Definition init_data_iface (data_interface : string) : Eff Z :=
  if String.eqb data_interface "shmem" then
    ok <- reads_world (fun w => shm_init_ok (env w)) ;;
    if negb ok then
      log Critical ;;
      destory_sm_buffer ;;
      ret (-1)
    else ret 0
  else ret 0.

Definition ReceiverRTLSDR_init (header0 : IQHeader) (iface : string)
    (w : World) : outcome unit * State :=
  (s <- new_socket ;;
   modify (set_socket_inst s) ;;
   init_data_iface iface ;;
   c <- new_socket ;;
   modify (set_ctr_iface_socket c) ;;
   a <- new_object ;;
   modify (set_iq_samples
             (PyArr {| arr_id := a; arr_dtype := float64;
                       arr_shape := [0%N]; arr_data := [] |})))
    {| self := {| daq_center_freq := 100; daq_rx_gain := 0; daq_agc := false;
                  data_interface := iface;
                  receiver_connection_status := false;
                  port := 5000; rec_ip_addr := "127.0.0.1";
                  socket_inst := 0; receiverBufferSize := 2 ^ 18;
                  ctr_iface_socket := 0; ctr_iface_port := 5001;
                  iq_frame_bytes := None; iq_samples := PyNone;
                  iq_header := header0; M := 0 |};
       world := w |}.

End Methods.

(** ** Concrete instances for the worked examples *)

(** [sys.getsizeof(b'')] on 64-bit CPython. *)
Definition cpython64_bytes_overhead : nat := 33.

Module Sample.

(** A value for [AUTO_GAIN_VALUE]. *)
Definition AUTO_GAIN_VALUE : Z := -100.

(** A four-byte header layout (channels, samples per channel, bit depth,
    one reserved byte) standing for the layout of [iq_header.py]. *)
Definition decode_header (h0 : IQHeader) (b : bytes) : result IQHeader :=
  match b with
  | [chs; cpi; depth; _] =>
      Ok {| header_size := header_size h0;
            active_ant_chs := Byte.to_N chs;
            cpi_length := Byte.to_N cpi;
            sample_bit_depth := Byte.to_N depth |}
  | _ => Err StructError
  end.

Definition header0 : IQHeader :=
  {| header_size := 4; active_ant_chs := 0; cpi_length := 0;
     sample_bit_depth := 0 |}.

Definition between (lo hi : N) (x : byte) : bool :=
  (lo <=? Byte.to_N x)%N && (Byte.to_N x <=? hi)%N.

(** Whether [bytes.decode()] accepts a byte string: well-formed UTF-8, that
    is shortest forms only, no surrogate and nothing above U+10FFFF. *)
Fixpoint utf8_decodable (b : bytes) : bool :=
  match b with
  | [] => true
  | x :: r =>
      if between 0 127 x then utf8_decodable r
      else if between 194 223 x then
        match r with
        | c1 :: r1 => between 128 191 c1 && utf8_decodable r1
        | _ => false
        end
      else if between 224 239 x then
        match r with
        | c1 :: c2 :: r2 =>
            between (if between 224 224 x then 160 else 128)
              (if between 237 237 x then 159 else 191) c1
            && between 128 191 c2 && utf8_decodable r2
        | _ => false
        end
      else if between 240 244 x then
        match r with
        | c1 :: c2 :: c3 :: r3 =>
            between (if between 240 240 x then 144 else 128)
              (if between 244 244 x then 143 else 191) c1
            && between 128 191 c2 && between 128 191 c3 && utf8_decodable r3
        | _ => false
        end
      else false
  end.

(** An environment in which nothing fails: one byte per read, slot 0 is
    granted, the firmware acknowledges with [FNSD]. *)
Definition quiet : Env :=
  {| recv_plan := chunked 1;
     fault_plan := fun _ => None;
     shm_signal := fun _ => 0;
     shm_slot := fun _ _ => [];
     shm_init_ok := true;
     ctr_reply := fun _ => encode "FNSD" |}.

Definition failing_at (k : nat) (e : Env) : Env :=
  {| recv_plan := recv_plan e;
     fault_plan := fun i => if (i =? k)%nat then Some OSError else fault_plan e i;
     shm_signal := shm_signal e;
     shm_slot := shm_slot e;
     shm_init_ok := shm_init_ok e;
     ctr_reply := ctr_reply e |}.

Definition terminating (e : Env) : Env :=
  {| recv_plan := recv_plan e;
     fault_plan := fault_plan e;
     shm_signal := fun _ => -1;
     shm_slot := shm_slot e;
     shm_init_ok := shm_init_ok e;
     ctr_reply := ctr_reply e |}.

Definition world0 (e : Env) (data : bytes) : World :=
  {| env := e; inbox := data; n_reads := 0; n_calls := 0; n_waits := 0;
     n_cmds := 0; next_obj := 0; lock_held := false; que := [];
     threads := []; trace := [] |}.

(** The object right after construction. *)
Definition created (iface : string) (e : Env) (data : bytes) : State :=
  snd (ReceiverRTLSDR_init header0 iface (world0 e data)).

(** The same object with the connection flag set and [m] channels known. *)
Definition connected (iface : string) (e : Env) (data : bytes) (m : N) : State :=
  let s := created iface e data in
  {| self := set_M m (set_receiver_connection_status true (self s));
     world := world s |}.

(** One frame: a header announcing 1 channel of 1 sample of 32 bits, and
    its 8 payload bytes. *)
Definition frame1 : bytes :=
  [x01; x01; x20; x00] ++ [x0a; x0b; x0c; x0d; x01; x02; x03; x04].

End Sample.

(** ** Vocabulary of the properties *)

(** [steady s s']: going from [s] to [s'] put nothing on the queue and did
    not reuse an object identity. *)
Definition steady (s s' : State) : Prop :=
  que (world s') = que (world s)
  /\ (next_obj (world s) <= next_obj (world s'))%nat.

Definition Steady {A} (m : Eff A) : Prop := forall s, steady s (snd (m s)).

(** A transport on which every read hands over at least one byte. *)
Definition delivering (p : nat -> read_plan) : Prop :=
  forall k, exists c, p k = Deliver c /\ (1 <= c)%nat.

(** The same state with [f] applied to the world. *)
Definition on_world (f : World -> World) (s : State) : State :=
  {| self := self s; world := f (world s) |}.

(** A change of the world that only concerns the transport of the data
    socket: how reads are served and how many were made. *)
Definition transport_only (f : World -> World) : Prop :=
  (forall w, fault_plan (env (f w)) = fault_plan (env w))
  /\ (forall w, n_calls (f w) = n_calls w)
  /\ (forall w, next_obj (f w) = next_obj w)
  /\ (forall w, trace (f w) = trace w)
  /\ (forall w k, f (set_n_calls k w) = set_n_calls k (f w))
  /\ (forall w k, f (set_next_obj k w) = set_next_obj k (f w))
  /\ (forall w t, f (set_trace t w) = set_trace t (f w)).

(** What one frame is, as a function of its bytes: the header [h] decoded
    from [hb] is stored, and unless the payload is empty the payload [pb]
    (followed by the unused tail of the reception buffer) is turned into
    the sample array. *)
Definition frame_of_bytes (h : IQHeader) (hb pb : bytes) (s : State)
    : outcome pyval * State :=
  if (0 <? incoming_payload_size_eth h)%N then
    store_iq_frame h hb (pb ++ repeat x00 receiver_buffer_size) (length pb)
      {| self := set_iq_header h (self s);
         world := set_trace (trace (world s) ++ [Log Debug; Log Debug])
                    (set_inbox [] (world s)) |}
  else
    (Normal (PyInt 0),
     {| self := set_iq_header h (self s);
        world := set_trace (trace (world s) ++ [Log Debug])
                   (set_inbox [] (world s)) |}).

(** Value of a byte string read as a little-endian number, as the DAQ
    reads the arguments of a command. *)
Fixpoint le_value (b : bytes) : Z :=
  match b with
  | [] => 0
  | x :: rest => Z.of_N (Byte.to_N x) + 256 * le_value rest
  end.

(** The two socket attributes hold two different objects that exist. *)
Definition sockets_distinct (s : State) : Prop :=
  (socket_inst (self s) < next_obj (world s))%nat
  /\ (ctr_iface_socket (self s) < next_obj (world s))%nat
  /\ socket_inst (self s) <> ctr_iface_socket (self s).

(** [sockets_kept s s']: going from [s] to [s'] rebound neither socket
    attribute and did not reuse an object identity. *)
Definition sockets_kept (s s' : State) : Prop :=
  socket_inst (self s') = socket_inst (self s)
  /\ ctr_iface_socket (self s') = ctr_iface_socket (self s)
  /\ (next_obj (world s) <= next_obj (world s'))%nat.

(** A method keeps the relation [R] between the state it starts from and
    the state it leaves, however it ends. *)
Definition Keeps (R : State -> State -> Prop) {A} (m : Eff A) : Prop :=
  forall s, R s (snd (m s)).

(** [sockets_distinct] holds after whenever it held before. *)
Definition keeps_sockets_distinct (s s' : State) : Prop :=
  sockets_distinct s -> sockets_distinct s'.

(** The calls on the slots of the shared memory: reading a slot and
    handing it back to the DAQ. *)
Definition is_slot_call (ev : effect) : bool :=
  match ev with
  | ShmBuffer _ | ShmReady _ => true
  | _ => false
  end.

Definition slot_calls (t : list effect) : list effect := filter is_slot_call t.

(** [slots_untouched s s']: going from [s] to [s'] made no call on a slot
    and left the kind of data interface as it was. *)
Definition slots_untouched (s s' : State) : Prop :=
  data_interface (self s') = data_interface (self s)
  /\ slot_calls (trace (world s')) = slot_calls (trace (world s)).

(** [header_kept s s']: going from [s] to [s'] left the header object as
    it was. *)
Definition header_kept (s s' : State) : Prop :=
  iq_header (self s') = iq_header (self s).

(** More instances for the worked examples. *)
Module Sample2.

(** A header layout over a long header: channels, samples per channel and
    bit depth in the first three bytes. *)
Definition decode_header (h0 : IQHeader) (b : bytes) : result IQHeader :=
  match b with
  | chs :: cpi :: depth :: _ =>
      Ok {| header_size := header_size h0;
            active_ant_chs := Byte.to_N chs;
            cpi_length := Byte.to_N cpi;
            sample_bit_depth := Byte.to_N depth |}
  | _ => Err StructError
  end.

(** A slot holding a 1024-byte header (1 channel, 1 sample, 32 bits) and
    its 8 payload bytes. *)
Definition slot : bytes :=
  [x01; x01; x20] ++ repeat x00 1021
  ++ [x0a; x0b; x0c; x0d; x01; x02; x03; x04].

(** An environment in which nothing fails and both slots hold [slot]. *)
Definition granting : Env :=
  {| recv_plan := chunked 1;
     fault_plan := fun _ => None;
     shm_signal := fun _ => 0;
     shm_slot := fun _ _ => slot;
     shm_init_ok := true;
     ctr_reply := fun _ => encode "FNSD" |}.

(** An environment in which the shared memory cannot be opened. *)
Definition no_shared_memory : Env :=
  {| recv_plan := chunked 1;
     fault_plan := fun _ => None;
     shm_signal := fun _ => 0;
     shm_slot := fun _ _ => [];
     shm_init_ok := false;
     ctr_reply := fun _ => encode "FNSD" |}.

(** A header announcing no sample, and one announcing 16-bit samples. *)
Definition empty_header : bytes := [x01; x00; x20; x00].
Definition header16 : bytes := [x01; x01; x10; x00].

End Sample2.

(** * Properties *)

(** Unfolding of the monadic primitives. *)
Ltac unfold_eff :=
  cbv beta iota zeta delta
    [bind ret raise lift reads modify reads_world modify_world emit log
     external try_except new_object new_socket sock_connect sock_sendall
     sock_send sock_close que_put start_new_thread spawn_command
     destory_sm_buffer save_iq_samples_to_text send_ctr_buff_ready].

(** Unfolding of one method (its parameters are section variables in the
    proofs below). *)
Ltac open_ctr_iface_communication := unfold ctr_iface_communication.
Ltac open_eth_connect := unfold eth_connect.
Ltac open_eth_connect_replay := unfold eth_connect_replay.
Ltac open_eth_connect_try := unfold eth_connect_try.
Ltac open_eth_connect_try_in H := unfold eth_connect_try in H.
Ltac open_get_iq_online := unfold get_iq_online.
Ltac open_read_shm_frame := unfold read_shm_frame.
Ltac open_receive_iq_frame := unfold receive_iq_frame.
Ltac open_receive_iq_payload := unfold receive_iq_payload.
Ltac open_set_if_agc := unfold set_if_agc.
Ltac open_set_if_gain := unfold set_if_gain.

(** ** Command frames *)

Lemma length_le_bytes n v : length (le_bytes n v) = n.
Proof. revert v; induction n; intros; simpl; auto. Qed.

Lemma length_encode_tag :
  length (encode "INIT") = 4%nat /\ length (encode "FREQ") = 4%nat /\
  length (encode "GAIN") = 4%nat /\ length (encode "AGC ") = 4%nat /\
  length (encode "EXIT") = 4%nat.
Proof. repeat split. Qed.

Lemma bytearray_length n b : bytearray n = Ok b -> Z.of_nat (length b) = n.
Proof.
  unfold bytearray. destruct (n <? 0) eqn:E; [discriminate|].
  intros H; injection H as <-. rewrite repeat_length.
  apply Z.ltb_ge in E. lia.
Qed.

Lemma pack_Q_length v b : pack_Q v = Ok b -> length b = 8%nat.
Proof.
  unfold pack_Q. destruct ((0 <=? v) && (v <? 2 ^ 64)); [|discriminate].
  intros H; injection H as <-. reflexivity.
Qed.

Lemma pack_I_length vs : forall b, pack_I vs = Ok b -> length b = (4 * length vs)%nat.
Proof.
  induction vs as [|v vs IH]; intros b H.
  - injection H as <-. reflexivity.
  - cbn [pack_I] in H.
    destruct ((0 <=? v) && (v <? 2 ^ 32)); [|discriminate].
    destruct (pack_I vs) as [bs|e]; [|discriminate].
    injection H as <-. specialize (IH bs eq_refl).
    cbn [length]. lia.
Qed.

(** The frames of [INIT], [EXIT] and [FREQ] are 128 bytes long. *)
Lemma init_exit_frame_length tag pad :
  length (encode tag) = 4%nat -> bytearray 124 = Ok pad ->
  length (encode tag ++ pad) = 128%nat.
Proof.
  intros Ht Hp. apply bytearray_length in Hp. rewrite length_app, Ht. lia.
Qed.

Lemma freq_frame_length v fb pad :
  pack_Q v = Ok fb -> bytearray 116 = Ok pad ->
  length (encode "FREQ" ++ fb ++ pad) = 128%nat.
Proof.
  intros Hq Hp. apply pack_Q_length in Hq. apply bytearray_length in Hp.
  rewrite !length_app, Hq. change (length (encode "FREQ")) with 4%nat. lia.
Qed.

(** Whenever [set_if_gain] manages to assemble a [GAIN] frame, it is 128
    bytes long (with more than 31 channels [bytearray] raises instead). *)
Lemma gain_frame_length gain m gb pad :
  pack_I (repeat (gain * 10) (N.to_nat m)) = Ok gb ->
  bytearray (128 - (Z.of_N m + 1) * 4) = Ok pad ->
  length (encode "GAIN" ++ gb ++ pad) = 128%nat.
Proof.
  intros Hg Hp. apply pack_I_length in Hg. apply bytearray_length in Hp.
  rewrite repeat_length in Hg.
  rewrite !length_app, Hg. change (length (encode "GAIN")) with 4%nat. lia.
Qed.

(** For every size [sys.getsizeof] can report for the four-byte tag, the
    padding of the [AGC ] frame is too short. *)
Lemma agc_frame_length overhead pad :
  bytearray (128 - sys_getsizeof overhead (encode "AGC ")) = Ok pad ->
  (length (encode "AGC " ++ pad) + overhead = 128)%nat.
Proof.
  intros Hp. apply bytearray_length in Hp. unfold sys_getsizeof in Hp.
  rewrite length_app. change (length (encode "AGC ")) with 4%nat in *. lia.
Qed.

(** C1.  With the connection flag set and a thread that starts,
    [set_if_agc] hands exactly one frame to a new command thread, and on
    64-bit CPython that frame is the tag followed by 91 zero bytes: 95 bytes
    in all, not 128. *)
Theorem set_if_agc_frame_is_95_bytes (AUTO_GAIN_VALUE : Z) (s : State) :
  receiver_connection_status (self s) = true ->
  fault_plan (env (world s)) (n_calls (world s)) = None ->
  exists frame,
    threads (world (snd (set_if_agc AUTO_GAIN_VALUE cpython64_bytes_overhead s)))
      = threads (world s) ++ [frame]
    /\ frame = encode "AGC " ++ repeat x00 91
    /\ length frame = 95%nat
    /\ length frame <> 128%nat.
Proof.
  intros Hc Hf. exists (encode "AGC " ++ repeat x00 91).
  unfold set_if_agc. unfold_eff. rewrite Hc.
  change (bytearray (128 - sys_getsizeof cpython64_bytes_overhead (encode "AGC ")))
    with (Ok (repeat x00 91)).
  cbv beta iota. simpl. rewrite Hf. simpl.
  repeat split. discriminate.
Qed.

Lemma set_if_agc_frame_is_95_bytes_witness :
  exists frame,
    threads (world (snd (set_if_agc Sample.AUTO_GAIN_VALUE cpython64_bytes_overhead
                           (Sample.connected "shmem" Sample.quiet [] 5))))
      = [] ++ [frame]
    /\ frame = encode "AGC " ++ repeat x00 91
    /\ length frame = 95%nat
    /\ length frame <> 128%nat.
Proof.
  apply (set_if_agc_frame_is_95_bytes Sample.AUTO_GAIN_VALUE
           (Sample.connected "shmem" Sample.quiet [] 5)); reflexivity.
Defined.

(** ** The command methods *)

Section Commands.

Variable AUTO_GAIN_VALUE : Z.
Variable bytes_object_overhead : nat.
Variable utf8_decodable : bytes -> bool.

Local Abbreviation set_if_agc := (set_if_agc AUTO_GAIN_VALUE bytes_object_overhead).
Local Abbreviation set_if_gain := (set_if_gain AUTO_GAIN_VALUE bytes_object_overhead).
Local Abbreviation ctr_iface_communication := (ctr_iface_communication utf8_decodable).
Local Abbreviation eth_connect_replay :=
  (eth_connect_replay AUTO_GAIN_VALUE bytes_object_overhead).

Lemma spawn_command_self msg s : self (snd (spawn_command msg s)) = self s.
Proof.
  unfold_eff. destruct (fault_plan (env (world s)) (n_calls (world s))); reflexivity.
Qed.

Lemma spawn_command_normal msg s : fst (spawn_command msg s) = Normal tt.
Proof.
  unfold_eff. destruct (fault_plan (env (world s)) (n_calls (world s))); reflexivity.
Qed.

Lemma spawn_command_threads msg s :
  fault_plan (env (world s)) (n_calls (world s)) = None ->
  threads (world (snd (spawn_command msg s))) = threads (world s) ++ [msg].
Proof. intros H. unfold_eff. rewrite H. reflexivity. Qed.

(** A command method called without the connection flag does nothing. *)
Lemma commands_idle_when_disconnected s :
  receiver_connection_status (self s) = false ->
  ctr_iface_init s = (Normal tt, s)
  /\ (forall f, set_center_freq f s = (Normal tt, s))
  /\ set_if_agc s = (Normal tt, s)
  /\ (forall g, set_if_gain g s = (Normal tt, s)).
Proof.
  intros H.
  assert (Ha : set_if_agc s = (Normal tt, s)).
  { open_set_if_agc. unfold_eff. rewrite H. reflexivity. }
  repeat split; auto.
  - unfold ctr_iface_init. unfold_eff. rewrite H. reflexivity.
  - intros f. unfold set_center_freq. unfold_eff. rewrite H. reflexivity.
  - intros g. open_set_if_gain. destruct (g =? AUTO_GAIN_VALUE); auto.
    unfold_eff. rewrite H. reflexivity.
Qed.

Lemma ctr_iface_init_self s : self (snd (ctr_iface_init s)) = self s.
Proof.
  unfold ctr_iface_init. unfold bind at 1. unfold reads at 1.
  destruct (receiver_connection_status (self s)); [|reflexivity].
  change (bytearray 124) with (Ok (repeat x00 124)).
  unfold lift, bind, ret. apply spawn_command_self.
Qed.

Lemma set_center_freq_cache f s :
  receiver_connection_status (self s) = true ->
  self (snd (set_center_freq f s)) = set_daq_center_freq (py_int f) (self s).
Proof.
  intros H. unfold set_center_freq. unfold bind at 1. unfold reads at 1. rewrite H.
  unfold bind at 1. unfold modify at 1. unfold bind at 1.
  destruct (pack_Q (py_int f)) as [fb|e]; [|reflexivity].
  change (bytearray 116) with (Ok (repeat x00 116)).
  unfold lift, bind, ret. rewrite spawn_command_self. reflexivity.
Qed.

Lemma set_if_agc_cache s :
  receiver_connection_status (self s) = true ->
  self (snd (set_if_agc s))
    = set_daq_agc true (set_daq_rx_gain AUTO_GAIN_VALUE (self s)).
Proof.
  intros H. open_set_if_agc. unfold bind at 1. unfold reads at 1. rewrite H.
  unfold bind at 1. unfold modify at 1. unfold bind at 1. unfold modify at 1.
  unfold bind at 1.
  destruct (bytearray (128 - sys_getsizeof bytes_object_overhead (encode "AGC ")))
    as [pad|e]; [|reflexivity].
  unfold lift, ret. rewrite spawn_command_self. reflexivity.
Qed.

Lemma set_if_gain_cache g s :
  receiver_connection_status (self s) = true ->
  g <> AUTO_GAIN_VALUE ->
  self (snd (set_if_gain g s)) = set_daq_agc false (set_daq_rx_gain g (self s)).
Proof.
  intros H Hg. open_set_if_gain.
  apply Z.eqb_neq in Hg. rewrite Hg.
  unfold bind at 1. unfold reads at 1. rewrite H.
  unfold bind at 1. unfold modify at 1. unfold bind at 1. unfold modify at 1.
  unfold bind at 1. unfold reads at 1. unfold bind at 1.
  cbn [self M set_daq_agc set_daq_rx_gain].
  destruct (pack_I (repeat (g * 10) (N.to_nat (M (self s))))) as [gb|e];
    [|reflexivity].
  unfold lift at 1. unfold ret at 1. unfold bind at 1.
  destruct (bytearray (128 - (Z.of_N (M (self s)) + 1) * 4)) as [pad|e];
    [|reflexivity].
  unfold lift, ret. rewrite spawn_command_self. reflexivity.
Qed.

(** The acknowledgement handler leaves the object as it is: it only works
    on the lock, the control socket and the queue. *)
Lemma ctr_iface_communication_self msg s :
  self (snd (ctr_iface_communication msg s)) = self s.
Proof.
  open_ctr_iface_communication; unfold sock_recv. unfold_eff.
  destruct (lock_held (world s)); [reflexivity|]. cbn.
  destruct (fault_plan (env (world s)) (n_calls (world s))); [reflexivity|]. cbn.
  destruct (fault_plan (env (world s)) (S (n_calls (world s)))); [reflexivity|]. cbn.
  destruct (utf8_decodable _); [|reflexivity].
  destruct (bytes_eqb _ _); reflexivity.
Qed.

Lemma set_center_freq_keeps_gain f s :
  daq_rx_gain (self (snd (set_center_freq f s))) = daq_rx_gain (self s).
Proof.
  destruct (receiver_connection_status (self s)) eqn:H.
  - rewrite set_center_freq_cache by assumption. reflexivity.
  - destruct (commands_idle_when_disconnected s H) as (_ & Hf & _).
    rewrite Hf. reflexivity.
Qed.

(** What [eth_connect] sends after [INIT] are the values cached in the
    object at that moment. *)
Lemma eth_connect_replays_cache s :
  eth_connect_replay s
  = (ctr_iface_init ;;
     log Info ;;
     set_center_freq (inject_Z (daq_center_freq (self s))) ;;
     set_if_gain (daq_rx_gain (self s))) s.
Proof.
  open_eth_connect_replay.
  unfold bind at 1. symmetry. unfold bind at 1. symmetry.
  pose proof (ctr_iface_init_self s) as Hi.
  destruct (ctr_iface_init s) as [[[]| | |] s1]; try reflexivity.
  cbn [snd] in Hi.
  unfold bind at 1. symmetry. unfold bind at 1. symmetry.
  unfold log, emit, modify_world.
  unfold bind at 1. unfold reads at 1. cbn [self]. rewrite Hi.
  unfold bind at 1. symmetry. unfold bind at 1. symmetry.
  match goal with
  | |- context [set_center_freq ?f ?t] =>
      pose proof (set_center_freq_keeps_gain f t) as Hg;
      destruct (set_center_freq f t) as [[[]| | |] s3]; try reflexivity
  end.
  cbn [snd self] in Hg.
  unfold bind at 1. unfold reads at 1. rewrite Hg. reflexivity.
Qed.

(** C2 (amended).  With no channel count known ([M = 0]) [set_if_gain] never
    fails with a not-ready error.  Without the connection flag it returns
    and leaves the object and the world as they were, so nothing is sent.
    With the flag set and a gain other than [AUTO_GAIN_VALUE] it returns
    normally, and the thread it starts is given a [GAIN] frame with no gain
    value in it: the tag and 124 zero bytes. *)
Theorem set_if_gain_without_channel_count (s : State) (gain : Z) :
  M (self s) = 0%N ->
  (receiver_connection_status (self s) = false ->
     set_if_gain gain s = (Normal tt, s))
  /\ (receiver_connection_status (self s) = true ->
      gain <> AUTO_GAIN_VALUE ->
      fst (set_if_gain gain s) = Normal tt
      /\ (fault_plan (env (world s)) (n_calls (world s)) = None ->
          threads (world (snd (set_if_gain gain s)))
            = threads (world s) ++ [encode "GAIN" ++ repeat x00 124])).
Proof.
  intros HM. split.
  - intros H. apply commands_idle_when_disconnected. assumption.
  - intros H Hg.
    assert (E : set_if_gain gain s
                = spawn_command (encode "GAIN" ++ repeat x00 124)
                    {| self := set_daq_agc false (set_daq_rx_gain gain (self s));
                       world := world s |}).
    { open_set_if_gain.
      apply Z.eqb_neq in Hg. rewrite Hg.
      unfold bind at 1. unfold reads at 1. rewrite H.
      unfold bind at 1. unfold modify at 1. unfold bind at 1. unfold modify at 1.
      unfold bind at 1. unfold reads at 1.
      cbn [self M set_daq_agc set_daq_rx_gain]. rewrite HM.
      reflexivity. }
    rewrite E. split.
    + apply spawn_command_normal.
    + intros Hf. rewrite spawn_command_threads by exact Hf. reflexivity.
Qed.

(** C10 (amended).  With the connection flag set, every configuration call
    updates the cached configuration at once, whatever happens to the
    command afterwards: [set_center_freq] stores [int(center_freq)];
    [set_if_gain] with a gain other than [AUTO_GAIN_VALUE] stores the gain
    and clears [daq_agc]; [set_if_gain] with [AUTO_GAIN_VALUE] and
    [set_if_agc] store [AUTO_GAIN_VALUE] and set [daq_agc].  The
    acknowledgement handler does not touch the object, and [eth_connect]
    replays the cached frequency and gain. *)
Theorem cached_configuration (s : State) (center_freq : Q) (gain : Z)
    (msg_bytes : bytes) :
  receiver_connection_status (self s) = true ->
  daq_center_freq (self (snd (set_center_freq center_freq s))) = py_int center_freq
  /\ (gain <> AUTO_GAIN_VALUE ->
      daq_rx_gain (self (snd (set_if_gain gain s))) = gain
      /\ daq_agc (self (snd (set_if_gain gain s))) = false)
  /\ (gain = AUTO_GAIN_VALUE ->
      daq_rx_gain (self (snd (set_if_gain gain s))) = AUTO_GAIN_VALUE
      /\ daq_agc (self (snd (set_if_gain gain s))) = true)
  /\ (daq_rx_gain (self (snd (set_if_agc s))) = AUTO_GAIN_VALUE
      /\ daq_agc (self (snd (set_if_agc s))) = true)
  /\ self (snd (ctr_iface_communication msg_bytes s)) = self s
  /\ eth_connect_replay s
     = (ctr_iface_init ;;
        log Info ;;
        set_center_freq (inject_Z (daq_center_freq (self s))) ;;
        set_if_gain (daq_rx_gain (self s))) s.
Proof.
  intros H.
  split; [rewrite set_center_freq_cache by assumption; reflexivity|].
  split; [intros Hg; rewrite set_if_gain_cache by assumption; split; reflexivity|].
  split.
  { intros ->. open_set_if_gain. rewrite Z.eqb_refl.
    rewrite set_if_agc_cache by assumption. split; reflexivity. }
  split; [rewrite set_if_agc_cache by assumption; split; reflexivity|].
  split; [apply ctr_iface_communication_self | apply eth_connect_replays_cache].
Qed.

End Commands.

Lemma set_if_gain_without_channel_count_witness :
  threads (world (snd (set_if_gain Sample.AUTO_GAIN_VALUE cpython64_bytes_overhead 0
                         (Sample.connected "shmem" Sample.quiet [] 0))))
  = [] ++ [encode "GAIN" ++ repeat x00 124].
Proof.
  refine (proj2 (proj2 (set_if_gain_without_channel_count
                          Sample.AUTO_GAIN_VALUE cpython64_bytes_overhead
                          (Sample.connected "shmem" Sample.quiet [] 0) 0 _) _ _) _);
    try reflexivity.
  discriminate.
Defined.

(** C2, as stated, fails: a connected client that knows no channel count
    returns normally from [set_if_gain(0)] and a frame goes to a command
    thread. *)
Lemma set_if_gain_sends_without_channel_count :
  let s := Sample.connected "shmem" Sample.quiet [] 0 in
  let r := set_if_gain Sample.AUTO_GAIN_VALUE cpython64_bytes_overhead 0 s in
  M (self s) = 0%N
  /\ fst r = Normal tt
  /\ threads (world s) = []
  /\ threads (world (snd r)) = [encode "GAIN" ++ repeat x00 124]
  /\ ~ ((exists e, fst r = Raised e)
        /\ threads (world (snd r)) = threads (world s)).
Proof.
  cbv zeta. repeat split.
  intros [[e He] _]. vm_compute in He. discriminate.
Qed.

Lemma cached_configuration_witness :
  daq_center_freq
    (self (snd (set_center_freq (867000001 # 2)
                  (Sample.connected "shmem" Sample.quiet [] 5)))) = 433500000
  /\ daq_rx_gain
       (self (snd (set_if_gain Sample.AUTO_GAIN_VALUE cpython64_bytes_overhead 14
                     (Sample.connected "shmem" Sample.quiet [] 5)))) = 14
  /\ daq_agc
       (self (snd (set_if_gain Sample.AUTO_GAIN_VALUE cpython64_bytes_overhead 14
                     (Sample.connected "shmem" Sample.quiet [] 5)))) = false.
Proof.
  pose proof (cached_configuration Sample.AUTO_GAIN_VALUE cpython64_bytes_overhead
                Sample.utf8_decodable
                (Sample.connected "shmem" Sample.quiet [] 5)
                (867000001 # 2) 14 [] eq_refl) as (Hf & Hg & _).
  split; [exact Hf | apply Hg; discriminate].
Defined.

(** C10, as stated, fails for the gain that stands for automatic gain:
    [set_if_gain(AUTO_GAIN_VALUE)] sets [daq_agc] instead of clearing it. *)
Lemma set_if_gain_auto_sets_agc :
  let s := Sample.connected "shmem" Sample.quiet [] 5 in
  let s' := snd (set_if_gain Sample.AUTO_GAIN_VALUE cpython64_bytes_overhead
                   Sample.AUTO_GAIN_VALUE s) in
  receiver_connection_status (self s) = true
  /\ daq_rx_gain (self s') = Sample.AUTO_GAIN_VALUE
  /\ daq_agc (self s') = true
  /\ daq_agc (self s') <> false.
Proof. cbv zeta. repeat split. discriminate. Qed.

(** ** Closing *)

(** C3.  When the flag is set and the first socket operation of the close
    sequence raises ([sendall] of the exit token on the data socket, or
    [send] of the [EXIT] frame on another interface), [eth_close] logs the
    error and returns -1 with the connection flag still set and nothing put
    on the queue. *)
Theorem eth_close_failure_stays_connected (s : State) (e : exn) :
  receiver_connection_status (self s) = true ->
  fault_plan (env (world s)) (n_calls (world s)) = Some e ->
  fst (eth_close s) = Normal (PyInt (-1))
  /\ receiver_connection_status (self (snd (eth_close s))) = true
  /\ que (world (snd (eth_close s))) = que (world s)
  /\ trace (world (snd (eth_close s))) = trace (world s) ++ [Log Error].
Proof.
  intros Hc Hf.
  assert (E : eth_close s
              = (Normal (PyInt (-1)),
                 {| self := self s;
                    world := set_trace (trace (world s) ++ [Log Error])
                               (set_n_calls (S (n_calls (world s))) (world s)) |})).
  { unfold eth_close, eth_close_try. unfold_eff. rewrite Hc.
    destruct (String.eqb (data_interface (self s)) "eth");
      cbn; rewrite Hf; reflexivity. }
  rewrite E. cbn. rewrite Hc. auto.
Qed.

Lemma eth_close_failure_stays_connected_witness :
  fst (eth_close (Sample.connected "eth" (Sample.failing_at 0 Sample.quiet) [] 5))
    = Normal (PyInt (-1))
  /\ receiver_connection_status
       (self (snd (eth_close
                     (Sample.connected "eth" (Sample.failing_at 0 Sample.quiet) [] 5))))
     = true.
Proof.
  pose proof (eth_close_failure_stays_connected
                (Sample.connected "eth" (Sample.failing_at 0 Sample.quiet) [] 5)
                OSError eq_refl eq_refl) as (H1 & H2 & _).
  split; assumption.
Defined.

(** When no operation raises, the close sequence does end disconnected with
    [disconn-ok] on the queue. *)
Lemma eth_close_try_disconnects (s : State) :
  fst (eth_close_try s) = Normal tt ->
  receiver_connection_status (self (snd (eth_close_try s))) = false
  /\ que (world (snd (eth_close_try s))) = que (world s) ++ [[["disconn-ok"%string]]].
Proof.
  unfold eth_close_try. unfold_eff.
  destruct (receiver_connection_status (self s)); [|cbn; auto].
  destruct (String.eqb (data_interface (self s)) "eth"); cbn;
    repeat match goal with
      | |- context [fault_plan ?e ?k] => destruct (fault_plan e k); cbn
      end; intros H; try discriminate H; auto.
Qed.

(** ** What the connection sequence leaves alone *)

Lemma steady_refl s : steady s s.
Proof. split; auto. Qed.

Lemma steady_trans s1 s2 s3 : steady s1 s2 -> steady s2 s3 -> steady s1 s3.
Proof. intros [H1 H2] [H3 H4]. split; [congruence | lia]. Qed.

Lemma Steady_ret {A} (a : A) : Steady (ret a).
Proof. intros s. apply steady_refl. Qed.

Lemma Steady_raise {A} e : Steady (@raise A e).
Proof. intros s. apply steady_refl. Qed.

Lemma Steady_bind {A B} (m : Eff A) (k : A -> Eff B) :
  Steady m -> (forall a, Steady (k a)) -> Steady (bind m k).
Proof.
  intros Hm Hk s. unfold bind. specialize (Hm s).
  destruct (m s) as [[a| | |] s1]; cbn in *; auto.
  eapply steady_trans; [exact Hm | apply Hk].
Qed.

Lemma Steady_try_except {A} (m : Eff A) (h : exn -> Eff A) :
  Steady m -> (forall e, Steady (h e)) -> Steady (try_except m h).
Proof.
  intros Hm Hh s. unfold try_except. specialize (Hm s).
  destruct (m s) as [[a|e| |] s1]; cbn in *; auto.
  eapply steady_trans; [exact Hm | apply Hh].
Qed.

Lemma Steady_lift {A} (r : result A) : Steady (lift r).
Proof. destruct r; intros s; apply steady_refl. Qed.

Lemma Steady_reads {A} (f : Receiver -> A) : Steady (reads f).
Proof. intros s. apply steady_refl. Qed.

Lemma Steady_modify f : Steady (modify f).
Proof. intros s. split; cbn; auto. Qed.

Lemma Steady_reads_world {A} (f : World -> A) : Steady (reads_world f).
Proof. intros s. apply steady_refl. Qed.

Lemma Steady_modify_world f :
  (forall w, que (f w) = que w /\ (next_obj w <= next_obj (f w))%nat) ->
  Steady (modify_world f).
Proof. intros H s. exact (H (world s)). Qed.

Lemma Steady_stuck {A} (o : outcome A) : Steady (fun s => (o, s)).
Proof. intros s. apply steady_refl. Qed.

Create HintDb steady.
#[local] Hint Resolve Steady_ret Steady_raise Steady_lift Steady_reads
  Steady_modify Steady_reads_world Steady_stuck : steady.

(** One step of a proof that a method is [Steady]. *)
Ltac steady_step :=
  first
    [ solve [auto with steady]
    | apply Steady_bind; [|intros ?]
    | apply Steady_try_except; [|intros ?]
    | apply Steady_modify_world; intros ?; cbn; split; [reflexivity | lia]
    | match goal with
      | |- Steady (if ?b then _ else _) => destruct b
      | |- Steady (match ?x with _ => _ end) => destruct x
      end ].

Ltac steady := repeat steady_step.

Lemma Steady_emit ev : Steady (emit ev).
Proof. unfold emit. steady. Qed.

Lemma Steady_external ev : Steady (external ev).
Proof. pose proof (Steady_emit ev). unfold external. steady. Qed.

Lemma Steady_new_object : Steady new_object.
Proof. intros s. split; cbn; auto. Qed.

Lemma Steady_start_new_thread msg : Steady (start_new_thread msg).
Proof. unfold start_new_thread. steady. Qed.

Lemma Steady_recv_into v n : Steady (recv_into v n).
Proof. unfold recv_into. steady. Qed.

#[local] Hint Resolve Steady_emit Steady_external Steady_new_object
  Steady_start_new_thread Steady_recv_into : steady.

Lemma Steady_recv_loop fuel : forall request need buf off total,
  Steady (recv_loop fuel request need buf off total).
Proof.
  induction fuel as [|fuel IH]; intros; cbn [recv_loop];
    destruct (total <? need)%nat; steady.
Qed.

#[local] Hint Resolve Steady_recv_loop : steady.

(** ** Relations kept by the methods *)

Section Keeping.

Variable R : State -> State -> Prop.
Hypothesis R_refl : forall s, R s s.
Hypothesis R_trans : forall s1 s2 s3, R s1 s2 -> R s2 s3 -> R s1 s3.

Lemma Keeps_ret {A} (a : A) : Keeps R (ret a).
Proof. intros s. apply R_refl. Qed.

Lemma Keeps_raise {A} e : Keeps R (@raise A e).
Proof. intros s. apply R_refl. Qed.

Lemma Keeps_stuck {A} (o : outcome A) : Keeps R (fun s => (o, s)).
Proof. intros s. apply R_refl. Qed.

Lemma Keeps_lift {A} (r : result A) : Keeps R (lift r).
Proof. destruct r; intros s; apply R_refl. Qed.

Lemma Keeps_reads {A} (f : Receiver -> A) : Keeps R (reads f).
Proof. intros s. apply R_refl. Qed.

Lemma Keeps_reads_world {A} (f : World -> A) : Keeps R (reads_world f).
Proof. intros s. apply R_refl. Qed.

Lemma Keeps_bind {A B} (m : Eff A) (k : A -> Eff B) :
  Keeps R m -> (forall a, Keeps R (k a)) -> Keeps R (bind m k).
Proof.
  intros Hm Hk s. unfold bind. specialize (Hm s).
  destruct (m s) as [[a| | |] s1]; cbn in *; auto.
  eapply R_trans; [exact Hm | apply Hk].
Qed.

Lemma Keeps_try_except {A} (m : Eff A) (h : exn -> Eff A) :
  Keeps R m -> (forall e, Keeps R (h e)) -> Keeps R (try_except m h).
Proof.
  intros Hm Hh s. unfold try_except. specialize (Hm s).
  destruct (m s) as [[a|e| |] s1]; cbn in *; auto.
  eapply R_trans; [exact Hm | apply Hh].
Qed.

Lemma Keeps_modify f :
  (forall s, R s {| self := f (self s); world := world s |}) ->
  Keeps R (modify f).
Proof. intros H s. apply H. Qed.

Lemma Keeps_modify_world f :
  (forall s, R s {| self := self s; world := f (world s) |}) ->
  Keeps R (modify_world f).
Proof. intros H s. apply H. Qed.

End Keeping.

(** One step of a proof of [Keeps R m], given reflexivity [Hr] and
    transitivity [Ht] of [R]; facts about the operations that create
    objects are taken from the context. *)
Ltac keeps_step Hr Ht :=
  first
    [ assumption
    | apply (Keeps_ret _ Hr)
    | apply (Keeps_raise _ Hr)
    | apply (Keeps_stuck _ Hr)
    | apply (Keeps_lift _ Hr)
    | apply (Keeps_reads _ Hr)
    | apply (Keeps_reads_world _ Hr)
    | match goal with
      | H : _ |- Keeps _ _ => apply H
      end
    | apply (Keeps_bind _ Ht); [|intros ?]
    | apply (Keeps_try_except _ Ht); [|intros ?]
    | apply Keeps_modify; intros ?; solve [cbn; repeat split; auto]
    | apply Keeps_modify_world; intros ?; solve [cbn; repeat split; auto]
    | match goal with
      | |- Keeps _ (if ?b then _ else _) => destruct b
      | |- Keeps _ (match ?x with _ => _ end) => destruct x
      end ].

Ltac keeps Hr Ht := repeat keeps_step Hr Ht.

Section Connection.

Variable AUTO_GAIN_VALUE : Z.
Variable decode_header : IQHeader -> bytes -> result IQHeader.
Variable bytes_object_overhead : nat.

Local Abbreviation receive_iq_frame := (receive_iq_frame decode_header).
Local Abbreviation eth_connect_try :=
  (eth_connect_try AUTO_GAIN_VALUE decode_header bytes_object_overhead).
Local Abbreviation eth_connect :=
  (eth_connect AUTO_GAIN_VALUE decode_header bytes_object_overhead).
Local Abbreviation get_iq_online :=
  (get_iq_online AUTO_GAIN_VALUE decode_header bytes_object_overhead).

Lemma Steady_receive_iq_frame fuel : Steady (receive_iq_frame fuel).
Proof.
  open_receive_iq_frame; unfold receive_iq_payload, store_iq_frame,
    np_frombuffer, np_reshape, save_iq_samples_to_text, log.
  steady.
Qed.

Lemma Steady_eth_connect_try fuel : Steady (eth_connect_try fuel).
Proof.
  pose proof (Steady_receive_iq_frame fuel).
  open_eth_connect_try; unfold eth_connect_open, eth_connect_replay,
    ctr_iface_init, set_center_freq, set_if_gain, set_if_agc, spawn_command,
    sock_connect, sock_sendall, log.
  steady.
Qed.

(** When the [try] block raises, [eth_connect] runs the handler on the
    state the block left. *)
Lemma eth_connect_on_exception fuel s e :
  fst (eth_connect_try fuel s) = Raised e ->
  eth_connect fuel s
  = (Normal (PyInt (-1)),
     let s1 := snd (eth_connect_try fuel s) in
     let n := next_obj (world s1) in
     {| self := set_ctr_iface_socket (S n)
                  (set_socket_inst n
                     (set_receiver_connection_status false (self s1)));
        world := set_trace
                   (trace (world s1) ++ [Log Error; SockNew n; SockNew (S n)])
                   (set_next_obj (S (S n)) (world s1)) |}).
Proof.
  intros H. open_eth_connect; unfold eth_connect_except.
  unfold bind at 1. unfold try_except. unfold bind at 1.
  destruct (eth_connect_try fuel s) as [o s1].
  cbn [fst snd] in *. subst o. unfold_eff. cbn.
  rewrite <- !app_assoc. reflexivity.
Qed.

(** When the [try] block returns, [eth_connect] logs, reports [conn-ok]
    on the queue and returns [None]. *)
Lemma eth_connect_on_success fuel s :
  fst (eth_connect_try fuel s) = Normal tt ->
  eth_connect fuel s
  = (Normal PyNone,
     let s1 := snd (eth_connect_try fuel s) in
     {| self := self s1;
        world := set_que (que (world s1) ++ [[["conn-ok"%string]]])
                   (set_trace (trace (world s1) ++ [Log Info]) (world s1)) |}).
Proof.
  intros H. open_eth_connect.
  unfold bind at 1. unfold try_except. unfold bind at 1.
  destruct (eth_connect_try fuel s) as [o s1].
  cbn [fst snd] in *. subst o. reflexivity.
Qed.

(** C8 (amended).  Whenever the [try] block of [eth_connect] raises, the
    call returns -1 with the connection flag cleared; both socket
    attributes hold objects created by the handler, different from each
    other and from the two sockets held before the call; nothing was put on
    the queue.  The handler resets nothing else: the channel count, the
    header, the samples, the frame bytes and the cached configuration are
    those the [try] block left when the exception came, and the command
    threads it had started stay started. *)
Theorem eth_connect_rolls_back (fuel : nat) (s : State) (e : exn) :
  (socket_inst (self s) < next_obj (world s))%nat ->
  (ctr_iface_socket (self s) < next_obj (world s))%nat ->
  fst (eth_connect_try fuel s) = Raised e ->
  let s1 := snd (eth_connect_try fuel s) in
  let s' := snd (eth_connect fuel s) in
  fst (eth_connect fuel s) = Normal (PyInt (-1))
  /\ receiver_connection_status (self s') = false
  /\ (exists before,
        trace (world s')
        = before ++ [SockNew (socket_inst (self s'));
                     SockNew (ctr_iface_socket (self s'))])
  /\ socket_inst (self s') <> ctr_iface_socket (self s')
  /\ socket_inst (self s') <> socket_inst (self s)
  /\ socket_inst (self s') <> ctr_iface_socket (self s)
  /\ ctr_iface_socket (self s') <> socket_inst (self s)
  /\ ctr_iface_socket (self s') <> ctr_iface_socket (self s)
  /\ que (world s') = que (world s)
  /\ M (self s') = M (self s1)
  /\ iq_header (self s') = iq_header (self s1)
  /\ iq_samples (self s') = iq_samples (self s1)
  /\ iq_frame_bytes (self s') = iq_frame_bytes (self s1)
  /\ daq_center_freq (self s') = daq_center_freq (self s1)
  /\ daq_rx_gain (self s') = daq_rx_gain (self s1)
  /\ daq_agc (self s') = daq_agc (self s1)
  /\ threads (world s') = threads (world s1).
Proof.
  intros Hs Hc H. cbv zeta.
  rewrite (eth_connect_on_exception fuel s e H).
  destruct (Steady_eth_connect_try fuel s) as [Hq Hn].
  revert Hq Hn. generalize (snd (eth_connect_try fuel s)). intros s1 Hq Hn.
  cbn.
  split; [reflexivity|]. split; [reflexivity|].
  split.
  { eexists (_ ++ [Log Error]). rewrite <- app_assoc. reflexivity. }
  repeat split; try lia. exact Hq.
Qed.

End Connection.

Lemma eth_connect_rolls_back_witness :
  let s := Sample.created "eth" (Sample.failing_at 3 Sample.quiet) Sample.frame1 in
  let s' := snd (eth_connect Sample.AUTO_GAIN_VALUE Sample.decode_header
                   cpython64_bytes_overhead 100 s) in
  fst (eth_connect Sample.AUTO_GAIN_VALUE Sample.decode_header
         cpython64_bytes_overhead 100 s) = Normal (PyInt (-1))
  /\ receiver_connection_status (self s') = false
  /\ socket_inst (self s') <> socket_inst (self s)
  /\ ctr_iface_socket (self s') <> ctr_iface_socket (self s)
  /\ que (world s') = que (world s).
Proof.
  cbv zeta.
  assert (H : fst (eth_connect_try Sample.AUTO_GAIN_VALUE Sample.decode_header
                     cpython64_bytes_overhead 100
                     (Sample.created "eth" (Sample.failing_at 3 Sample.quiet)
                        Sample.frame1)) = Raised OSError)
    by (vm_compute; reflexivity).
  assert (H1 : (socket_inst
                  (self (Sample.created "eth" (Sample.failing_at 3 Sample.quiet)
                           Sample.frame1))
                < next_obj
                    (world (Sample.created "eth" (Sample.failing_at 3 Sample.quiet)
                              Sample.frame1)))%nat)
    by (vm_compute; lia).
  assert (H2 : (ctr_iface_socket
                  (self (Sample.created "eth" (Sample.failing_at 3 Sample.quiet)
                           Sample.frame1))
                < next_obj
                    (world (Sample.created "eth" (Sample.failing_at 3 Sample.quiet)
                              Sample.frame1)))%nat)
    by (vm_compute; lia).
  pose proof (eth_connect_rolls_back Sample.AUTO_GAIN_VALUE Sample.decode_header
                cpython64_bytes_overhead 100 _ OSError H1 H2 H)
    as (R1 & R2 & _ & _ & R3 & _ & _ & R4 & R5 & _).
  exact (conj R1 (conj R2 (conj R3 (conj R4 R5)))).
Defined.

(** C8, as stated, fails.  A connection attempt that breaks at the control
    socket, after the first frame was received, returns -1 and leaves the
    client disconnected, but the channel count, the header, the samples and
    the frame bytes of that frame stay in the object.  And an attempt that
    breaks at the replay of a cached frequency of -1 (cached by an earlier
    [set_center_freq(-1)]) leaves the [INIT] thread it had started. *)
Lemma eth_connect_keeps_partial_state :
  let s := Sample.created "eth" (Sample.failing_at 3 Sample.quiet) Sample.frame1 in
  let r := eth_connect Sample.AUTO_GAIN_VALUE Sample.decode_header
             cpython64_bytes_overhead 100 s in
  let t := snd (eth_close
                  (snd (set_center_freq (-1 # 1)
                          (Sample.connected "shmem" Sample.quiet [] 0)))) in
  let u := eth_connect Sample.AUTO_GAIN_VALUE Sample.decode_header
             cpython64_bytes_overhead 100 t in
  (fst r = Normal (PyInt (-1))
   /\ receiver_connection_status (self (snd r)) = false
   /\ M (self s) = 0%N
   /\ M (self (snd r)) = 1%N
   /\ iq_header (self s) = Sample.header0
   /\ iq_header (self (snd r))
      = {| header_size := 4; active_ant_chs := 1; cpi_length := 1;
           sample_bit_depth := 32 |}
   /\ iq_samples (self (snd r))
      = PyArr {| arr_id := 4; arr_dtype := complex64; arr_shape := [1; 1]%N;
                 arr_data := [x0a; x0b; x0c; x0d; x01; x02; x03; x04] |}
   /\ iq_frame_bytes (self s) = None
   /\ option_map (firstn 12) (iq_frame_bytes (self (snd r)))
      = Some Sample.frame1)
  /\ (fst u = Normal (PyInt (-1))
      /\ receiver_connection_status (self (snd u)) = false
      /\ threads (world t) = []
      /\ threads (world (snd u)) = [encode "INIT" ++ repeat x00 124]).
Proof.
  cbv zeta. split.
  - split; [vm_compute; reflexivity|]. split; [vm_compute; reflexivity|].
    split; [vm_compute; reflexivity|]. split; [vm_compute; reflexivity|].
    split; [vm_compute; reflexivity|]. split; [vm_compute; reflexivity|].
    split; [vm_compute; reflexivity|]. split; [vm_compute; reflexivity|].
    vm_compute. reflexivity.
  - split; [vm_compute; reflexivity|]. split; [vm_compute; reflexivity|].
    split; [vm_compute; reflexivity|]. vm_compute. reflexivity.
Qed.

(** ** Shared-memory acquisition *)

Lemma slots_untouched_refl s : slots_untouched s s.
Proof. split; reflexivity. Qed.

Lemma slots_untouched_trans s1 s2 s3 :
  slots_untouched s1 s2 -> slots_untouched s2 s3 -> slots_untouched s1 s3.
Proof. intros [A B] [C D]. split; congruence. Qed.

Lemma slot_calls_app t ev :
  is_slot_call ev = false -> slot_calls (t ++ [ev]) = slot_calls t.
Proof.
  intros H. unfold slot_calls. rewrite filter_app. cbn [filter]. rewrite H.
  apply app_nil_r.
Qed.

Lemma slots_untouched_emit ev :
  is_slot_call ev = false -> Keeps slots_untouched (emit ev).
Proof. intros H s. split; [reflexivity|]. cbn. apply slot_calls_app, H. Qed.

Lemma slots_untouched_external ev :
  is_slot_call ev = false -> Keeps slots_untouched (external ev).
Proof.
  intros H. pose proof (slots_untouched_emit ev H).
  unfold external. keeps slots_untouched_refl slots_untouched_trans.
Qed.

Lemma slots_untouched_new_object : Keeps slots_untouched new_object.
Proof. intros s. split; reflexivity. Qed.

Lemma slots_untouched_start_new_thread msg :
  Keeps slots_untouched (start_new_thread msg).
Proof. unfold start_new_thread. keeps slots_untouched_refl slots_untouched_trans. Qed.

Lemma slots_untouched_recv_into v n : Keeps slots_untouched (recv_into v n).
Proof. unfold recv_into. keeps slots_untouched_refl slots_untouched_trans. Qed.

Lemma slots_untouched_recv_loop fuel : forall request need buf off total,
  Keeps slots_untouched (recv_loop fuel request need buf off total).
Proof.
  pose proof slots_untouched_recv_into.
  induction fuel as [|fuel IH]; intros; cbn [recv_loop];
    destruct (total <? need)%nat; keeps slots_untouched_refl slots_untouched_trans.
Qed.

Section SharedMemory.

Variable AUTO_GAIN_VALUE : Z.
Variable decode_header : IQHeader -> bytes -> result IQHeader.
Variable bytes_object_overhead : nat.

Local Abbreviation eth_connect_try :=
  (eth_connect_try AUTO_GAIN_VALUE decode_header bytes_object_overhead).
Local Abbreviation eth_connect :=
  (eth_connect AUTO_GAIN_VALUE decode_header bytes_object_overhead).
Local Abbreviation get_iq_online :=
  (get_iq_online AUTO_GAIN_VALUE decode_header bytes_object_overhead).

(** A failed connection attempt makes [get_iq_online] return -1. *)
Lemma get_iq_online_connect_failure fuel s e :
  receiver_connection_status (self s) = false ->
  fst (eth_connect_try fuel s) = Raised e ->
  fst (get_iq_online fuel s) = Normal (PyInt (-1)).
Proof.
  intros Hc H. open_get_iq_online.
  unfold bind at 1. unfold reads at 1. rewrite Hc. cbn [negb].
  unfold bind at 1.
  rewrite (eth_connect_on_exception _ _ _ fuel s e H). reflexivity.
Qed.

(** Connecting, however it ends, makes no call on a slot of the shared
    memory and does not change the kind of data interface. *)
Lemma slots_untouched_eth_connect fuel : Keeps slots_untouched (eth_connect fuel).
Proof.
  pose proof slots_untouched_emit as HM.
  pose proof slots_untouched_external as HE.
  pose proof slots_untouched_new_object as HN.
  pose proof slots_untouched_start_new_thread as HT.
  pose proof slots_untouched_recv_loop as HL.
  open_eth_connect; open_eth_connect_try;
    unfold eth_connect_open, eth_connect_replay, eth_connect_except,
      receive_iq_frame, receive_iq_payload, store_iq_frame, np_frombuffer,
      np_reshape, save_iq_samples_to_text, ctr_iface_init, set_center_freq,
      set_if_gain, set_if_agc, spawn_command, new_socket, sock_connect,
      sock_sendall, que_put, log.
  keeps slots_untouched_refl slots_untouched_trans.
  all: reflexivity.
Qed.

(** C7 (amended).  A shared-buffer acquisition starts in the state [s1]:
    the one [get_iq_online] is called in when the client is connected, the
    one its own successful [eth_connect] leaves otherwise.  When
    [wait_buff_free] then returns an index outside 0..1, [get_iq_online]
    returns -1 and leaves the object as it was in [s1]; the only external
    calls of the acquisition are the wait itself and one log line, and
    over the whole call, the connection included, no slot was read and
    [send_ctr_buff_ready] was not called.  The value -1 is also what it
    returns when the connection attempt fails. *)
Theorem get_iq_online_terminate_signal (fuel : nat) (s s1 : State) (i : Z) :
  data_interface (self s) = "shmem"%string ->
  (receiver_connection_status (self s) = true /\ s1 = s)
  \/ (receiver_connection_status (self s) = false
      /\ eth_connect fuel s = (Normal PyNone, s1)) ->
  shm_signal (env (world s1)) (n_waits (world s1)) = i ->
  i < 0 \/ 1 < i ->
  fst (get_iq_online fuel s) = Normal (PyInt (-1))
  /\ self (snd (get_iq_online fuel s)) = self s1
  /\ trace (world (snd (get_iq_online fuel s)))
     = trace (world s1) ++ [ShmWait i; Log Info]
  /\ slot_calls (trace (world (snd (get_iq_online fuel s))))
     = slot_calls (trace (world s))
  /\ (forall fuel0 s0 e,
        receiver_connection_status (self s0) = false ->
        fst (eth_connect_try fuel0 s0) = Raised e ->
        fst (get_iq_online fuel0 s0) = fst (get_iq_online fuel s)).
Proof.
  intros Hi Hstart Hs Hr.
  assert (H1 : slots_untouched s s1).
  { destruct Hstart as [[_ ->] | [_ Heq]]; [apply slots_untouched_refl|].
    pose proof (slots_untouched_eth_connect fuel s) as K.
    rewrite Heq in K. exact K. }
  destruct H1 as [Hi1 Hsl]. rewrite Hi in Hi1.
  assert (E : get_iq_online fuel s
              = (Normal (PyInt (-1)),
                 {| self := self s1;
                    world := set_trace (trace (world s1) ++ [ShmWait i; Log Info])
                               (set_n_waits (S (n_waits (world s1))) (world s1)) |})).
  { open_get_iq_online. unfold bind at 1. unfold reads at 1.
    destruct Hstart as [[Hc E1] | [Hc Heq]]; rewrite Hc; cbn [negb];
      unfold bind at 1; [subst s1; unfold ret at 1 | rewrite Heq];
      cbn [truthy];
      unfold wait_buff_free; unfold_eff;
      rewrite Hi1; cbn; rewrite Hs;
      (replace ((i <? 0) || (1 <? i)) with true
         by (symmetry; apply orb_true_iff; destruct Hr;
             [left; apply Z.ltb_lt | right; apply Z.ltb_lt]; assumption));
      cbn; rewrite <- app_assoc; reflexivity. }
  rewrite E. cbn [fst snd self world trace set_trace].
  split; [reflexivity|]. split; [reflexivity|]. split; [reflexivity|].
  split.
  { change (trace (world s1) ++ [ShmWait i; Log Info])
      with (trace (world s1) ++ [ShmWait i] ++ [Log Info]).
    rewrite app_assoc, !slot_calls_app by reflexivity. exact Hsl. }
  intros fuel0 s0 e H0 H2. apply (get_iq_online_connect_failure fuel0 s0 e H0 H2).
Qed.

End SharedMemory.

Lemma get_iq_online_terminate_signal_witness :
  let s := Sample.connected "shmem" (Sample.terminating Sample.quiet) [] 5 in
  let r := get_iq_online Sample.AUTO_GAIN_VALUE Sample.decode_header
             cpython64_bytes_overhead 10 s in
  let s0 := Sample.created "shmem" (Sample.terminating Sample.quiet) [] in
  let r0 := get_iq_online Sample.AUTO_GAIN_VALUE Sample.decode_header
              cpython64_bytes_overhead 10 s0 in
  (fst r = Normal (PyInt (-1))
   /\ self (snd r) = self s
   /\ trace (world (snd r)) = trace (world s) ++ [ShmWait (-1); Log Info])
  /\ (fst r0 = Normal (PyInt (-1))
      /\ slot_calls (trace (world (snd r0))) = slot_calls (trace (world s0))).
Proof.
  cbv zeta. split.
  - pose proof (get_iq_online_terminate_signal Sample.AUTO_GAIN_VALUE
                  Sample.decode_header cpython64_bytes_overhead 10
                  (Sample.connected "shmem" (Sample.terminating Sample.quiet) [] 5)
                  _ (-1) eq_refl (or_introl (conj eq_refl eq_refl)) eq_refl
                  (or_introl eq_refl))
      as (R1 & R2 & R3 & _).
    exact (conj R1 (conj R2 R3)).
  - assert (H : eth_connect Sample.AUTO_GAIN_VALUE Sample.decode_header
                  cpython64_bytes_overhead 10
                  (Sample.created "shmem" (Sample.terminating Sample.quiet) [])
                = (Normal PyNone,
                   snd (eth_connect Sample.AUTO_GAIN_VALUE Sample.decode_header
                          cpython64_bytes_overhead 10
                          (Sample.created "shmem"
                             (Sample.terminating Sample.quiet) []))))
      by (vm_compute; reflexivity).
    assert (H1 : shm_signal
                   (env (world
                      (snd (eth_connect Sample.AUTO_GAIN_VALUE Sample.decode_header
                              cpython64_bytes_overhead 10
                              (Sample.created "shmem"
                                 (Sample.terminating Sample.quiet) [])))))
                   (n_waits (world
                      (snd (eth_connect Sample.AUTO_GAIN_VALUE Sample.decode_header
                              cpython64_bytes_overhead 10
                              (Sample.created "shmem"
                                 (Sample.terminating Sample.quiet) [])))))
                 = -1)
      by (vm_compute; reflexivity).
    pose proof (get_iq_online_terminate_signal Sample.AUTO_GAIN_VALUE
                  Sample.decode_header cpython64_bytes_overhead 10
                  (Sample.created "shmem" (Sample.terminating Sample.quiet) [])
                  _ (-1) eq_refl (or_intror (conj eq_refl H)) H1
                  (or_introl eq_refl))
      as (R1 & _ & _ & R4 & _).
    exact (conj R1 R4).
Defined.

(** C7, as stated, fails: the result for the termination signal and the
    result for a failed connection attempt are the same value. *)
Lemma terminated_not_distinct_from_connect_failure :
  let terminated :=
    fst (get_iq_online Sample.AUTO_GAIN_VALUE Sample.decode_header
           cpython64_bytes_overhead 10
           (Sample.connected "shmem" (Sample.terminating Sample.quiet) [] 5)) in
  let connect_failed :=
    fst (get_iq_online Sample.AUTO_GAIN_VALUE Sample.decode_header
           cpython64_bytes_overhead 10
           (Sample.created "shmem" (Sample.failing_at 0 Sample.quiet) [])) in
  terminated = Normal (PyInt (-1))
  /\ connect_failed = Normal (PyInt (-1))
  /\ ~ terminated <> connect_failed.
Proof.
  cbv zeta. split; [vm_compute; reflexivity|]. split; [vm_compute; reflexivity|].
  intros H. apply H. vm_compute. reflexivity.
Qed.

(** ** Payload size *)

Lemma py_int_div8 (d : N) : Z.to_N (py_int (Qmake (Z.of_N d) 8)) = (d / 8)%N.
Proof.
  unfold py_int, Qle_bool, Qfloor, Qceiling. simpl Qnum. simpl Qden.
  replace (0 * 8 <=? Z.of_N d * 1) with true by (symmetry; apply Z.leb_le; lia).
  change (Z.pos 8) with (Z.of_N 8). rewrite <- N2Z.inj_div. apply N2Z.id.
Qed.

(** The two paths compute the same size for every header. *)
Lemma payload_size_paths_agree (h : IQHeader) :
  incoming_payload_size_eth h = incoming_payload_size_shmem h.
Proof.
  unfold incoming_payload_size_eth, incoming_payload_size_shmem.
  now rewrite py_int_div8.
Qed.



(** ** The reception loops *)

Lemma blit_nil buf off : blit buf off [] = buf.
Proof.
  unfold blit. cbn [length app]. rewrite Nat.add_0_r. apply firstn_skipn.
Qed.

Lemma length_blit buf off data :
  (off + length data <= length buf)%nat ->
  length (blit buf off data) = length buf.
Proof.
  intros H. unfold blit. rewrite !length_app, length_firstn, length_skipn. lia.
Qed.

Lemma blit_blit buf off d1 d2 :
  (off <= length buf)%nat ->
  blit (blit buf off d1) (off + length d1) d2 = blit buf off (d1 ++ d2).
Proof.
  intros H. unfold blit.
  assert (Hl : length (firstn off buf) = off) by (rewrite length_firstn; lia).
  rewrite (app_assoc (firstn off buf) d1).
  rewrite firstn_app.
  replace (off + length d1 - length (firstn off buf ++ d1))%nat with 0%nat
    by (rewrite length_app; lia).
  rewrite firstn_all2 by (rewrite length_app; lia).
  cbn [firstn]. rewrite app_nil_r.
  rewrite skipn_app.
  rewrite (skipn_all2 (firstn off buf ++ d1)) by (rewrite length_app; lia).
  cbn [app].
  replace (off + length d1 + length d2 - length (firstn off buf ++ d1))%nat
    with (length d2) by (rewrite length_app; lia).
  rewrite skipn_skipn. rewrite length_app.
  replace (length d2 + (off + length d1))%nat
    with (off + (length d1 + length d2))%nat by lia.
  rewrite <- !app_assoc. reflexivity.
Qed.

(** Writing a whole buffer of zeros from its start. *)
Lemma blit_zeros n extra data :
  length data = n ->
  blit (repeat x00 (n + extra)) 0 data = data ++ repeat x00 extra.
Proof.
  intros H. unfold blit. cbn [firstn app Nat.add]. rewrite H.
  rewrite repeat_app, skipn_app, repeat_length, Nat.sub_diag.
  rewrite skipn_all2 by (rewrite repeat_length; lia). reflexivity.
Qed.

Lemma firstn_skipn_length {A} n (l : list A) :
  firstn n l ++ skipn (length (firstn n l)) l = l.
Proof.
  revert n; induction l as [|x l IH]; intros [|n]; cbn; try reflexivity.
  f_equal. apply IH.
Qed.

Lemma recv_into_deliver s viewlen nbytes c :
  recv_plan (env (world s)) (n_reads (world s)) = Deliver c ->
  (nbytes <= viewlen)%nat ->
  nbytes <> 0%nat ->
  recv_into viewlen nbytes s
  = (Normal (firstn (Nat.min c nbytes) (inbox (world s))),
     {| self := self s;
        world := set_inbox
                   (skipn (length (firstn (Nat.min c nbytes) (inbox (world s))))
                      (inbox (world s)))
                   (set_n_reads (S (n_reads (world s))) (world s)) |}).
Proof.
  intros Hp Hv Hn. unfold recv_into.
  replace (viewlen <? nbytes)%nat with false
    by (symmetry; apply Nat.ltb_ge; exact Hv).
  unfold_eff. rewrite Hp.
  replace (nbytes =? 0)%nat with false
    by (symmetry; apply Nat.eqb_neq; exact Hn).
  reflexivity.
Qed.

(** With enough fuel, a loop that is owed the bytes [data] at the head of
    what is in flight, and that either never asks for more than it is owed
    or finds nothing behind them, ends with these bytes written at the start
    of the free part of its buffer, after at most one read per byte. *)
Lemma recv_loop_exact : forall fuel request need buf total data rest s,
  delivering (recv_plan (env (world s))) ->
  inbox (world s) = data ++ rest ->
  (total + length data = need)%nat ->
  (forall t, t < need -> 1 <= request t <= length buf - t)%nat ->
  (forall t, t < need -> request t <= need - t)%nat \/ rest = [] ->
  (length data <= fuel)%nat ->
  exists r, (r <= length data)%nat /\
    recv_loop fuel request need buf total total s
    = (Normal (blit buf total data),
       {| self := self s;
          world := set_inbox rest
                     (set_n_reads (n_reads (world s) + r) (world s)) |}).
Proof.
  induction fuel as [|fuel IH];
    intros request need buf total data rest s Hp Hi Ht Hr Ho Hf.
  - destruct data; [|cbn in Hf; lia]. cbn [length] in Ht.
    exists 0%nat. split; [lia|]. cbn [recv_loop].
    replace (total <? need)%nat with false by (symmetry; apply Nat.ltb_ge; lia).
    rewrite blit_nil, Nat.add_0_r.
    destruct s as [r [e ib nr nc nw nm no lh q th tr]]. cbn in *. subst ib.
    reflexivity.
  - cbn [recv_loop]. destruct (Nat.ltb_spec total need) as [Hlt|Hge].
    + destruct (Hp (n_reads (world s))) as (c & Hc & Hc1).
      destruct (Hr total Hlt) as [Hr1 Hr2].
      unfold bind.
      rewrite (recv_into_deliver s _ _ c Hc Hr2) by lia.
      rewrite Hi.
      set (k := Nat.min c (request total)).
      set (got := firstn k data).
      assert (Hk : firstn k (data ++ rest) = got
                   /\ skipn (length got) (data ++ rest)
                      = skipn (length got) data ++ rest).
      { unfold got. destruct Ho as [Ho| ->].
        - specialize (Ho total Hlt).
          assert (k <= length data)%nat by (unfold k; lia).
          rewrite firstn_app, skipn_app, length_firstn.
          replace (k - length data)%nat with 0%nat by lia.
          replace (Nat.min k (length data) - length data)%nat with 0%nat by lia.
          cbn [firstn skipn]. rewrite app_nil_r. auto.
        - rewrite !app_nil_r. auto. }
      destruct Hk as [Hk1 Hk2]. rewrite Hk1, Hk2.
      assert (Hg : (1 <= length got <= request total)%nat
                   /\ (length got <= length data)%nat).
      { unfold got, k. rewrite length_firstn. lia. }
      set (s1 := {| self := self s;
                    world := set_inbox (skipn (length got) data ++ rest)
                               (set_n_reads (S (n_reads (world s))) (world s)) |}).
      destruct (IH request need (blit buf total got) (total + length got)%nat
                  (skipn (length got) data) rest s1) as (r & Hr' & E).
      * exact Hp.
      * reflexivity.
      * rewrite length_skipn. lia.
      * intros t Hlt'. rewrite length_blit by lia. apply Hr. exact Hlt'.
      * exact Ho.
      * rewrite length_skipn. lia.
      * exists (S r). rewrite length_skipn in Hr'. split; [lia|].
        rewrite E. rewrite blit_blit by lia.
        assert (Hd : got ++ skipn (length got) data = data)
          by apply firstn_skipn_length.
        rewrite Hd.
        cbn. rewrite Nat.add_succ_r. reflexivity.
    + destruct data as [|b data]; [|cbn in Ht; lia].
      exists 0%nat. split; [cbn; lia|].
      rewrite blit_nil, Nat.add_0_r.
      destruct s as [r [e ib nr nc nw nm no lh q th tr]]. cbn in *. subst ib.
      reflexivity.
Qed.

(** Once the peer has closed (nothing is in flight and reads return no
    byte), a loop that still waits for bytes goes round for as long as it
    is given fuel. *)
Lemma recv_loop_spins : forall fuel request need buf off total s,
  inbox (world s) = [] ->
  (forall k, exists c, recv_plan (env (world s)) k = Deliver c) ->
  (total < need)%nat ->
  (request total <= length buf - off)%nat ->
  fst (recv_loop fuel request need buf off total s) = OutOfFuel.
Proof.
  induction fuel as [|fuel IH]; intros request need buf off total s Hi Hp Ht Hr;
    cbn [recv_loop];
    replace (total <? need)%nat with true by (symmetry; apply Nat.ltb_lt; exact Ht).
  - reflexivity.
  - destruct (Hp (n_reads (world s))) as (c & Hc).
    unfold bind, recv_into.
    replace (length buf - off <? request total)%nat with false
      by (symmetry; apply Nat.ltb_ge; exact Hr).
    unfold_eff. rewrite Hc. cbn [inbox set_n_reads world self]. rewrite Hi.
    rewrite firstn_nil. cbn [length skipn].
    rewrite blit_nil, !Nat.add_0_r. apply IH; auto.
Qed.

Lemma blit_full n data :
  length data = n -> blit (repeat x00 n) 0 data = data.
Proof.
  intros H. unfold blit. cbn [firstn app Nat.add].
  rewrite skipn_all2 by (rewrite repeat_length; lia). apply app_nil_r.
Qed.

Lemma receiver_buffer_size_pos : (1 <= receiver_buffer_size)%nat.
Proof. unfold receiver_buffer_size. lia. Qed.

(** ** Frames *)

Lemma transport_only_reads k : transport_only (set_n_reads k).
Proof. repeat split. Qed.


Lemma store_iq_frame_transport f h hb db n s :
  transport_only f ->
  store_iq_frame h hb db n (on_world f s)
  = (fst (store_iq_frame h hb db n s),
     on_world f (snd (store_iq_frame h hb db n s))).
Proof.
  intros (H1 & H2 & H3 & H4 & H5 & H6 & H7).
  unfold store_iq_frame, np_frombuffer, np_reshape, on_world.
  unfold_eff.
  destruct (length (firstn n db) mod 8 =? 0)%nat;
    [|cbn; repeat first [rewrite H5 | rewrite H6 | rewrite H7];
      cbn; rewrite ?H3, ?H4; reflexivity].
  destruct (_ =? _)%N;
    [|cbn; repeat first [rewrite H5 | rewrite H6 | rewrite H7];
      cbn; rewrite ?H3, ?H4; reflexivity].
  cbn. rewrite H1, H2.
  destruct (fault_plan (env (world s)) (n_calls (world s)));
    cbn; repeat first [rewrite H5 | rewrite H6 | rewrite H7];
    cbn; rewrite ?H2, ?H3, ?H4; reflexivity.
Qed.


Section Frames.

Variable decode_header : IQHeader -> bytes -> result IQHeader.

Local Abbreviation receive_iq_frame := (receive_iq_frame decode_header).
Local Abbreviation receive_iq_payload := (receive_iq_payload decode_header).

(** C4.  With a header still to come and a peer that has closed (nothing
    in flight, every read returns no byte), [receive_iq_frame] neither
    returns nor raises, whatever fuel it is given: the header loop goes
    round for ever. *)
Theorem receive_iq_frame_spins_on_closed_peer (fuel : nat) (s : State) :
  (0 < header_size (iq_header (self s)))%N ->
  inbox (world s) = [] ->
  (forall k, exists c, recv_plan (env (world s)) k = Deliver c) ->
  fst (receive_iq_frame fuel s) = OutOfFuel.
Proof.
  intros Hh Hi Hp. open_receive_iq_frame.
  unfold bind at 1. unfold reads at 1.
  unfold bind at 1. unfold log, emit, modify_world.
  unfold bind at 1.
  match goal with
  | |- context [recv_loop ?f ?r ?n ?b ?o ?t ?st] =>
      pose proof (recv_loop_spins f r n b o t st) as H;
      destruct (recv_loop f r n b o t st) as [o1 s1]
  end.
  cbn [fst] in H. rewrite H; [reflexivity|exact Hi|exact Hp|lia|].
  rewrite repeat_length. lia.
Qed.

(** A read that raises makes [receive_iq_frame] raise the same exception. *)
Lemma receive_iq_frame_read_error (fuel : nat) (s : State) (e : exn) :
  (0 < header_size (iq_header (self s)))%N ->
  recv_plan (env (world s)) (n_reads (world s)) = ReadError e ->
  fst (receive_iq_frame (S fuel) s) = Raised e.
Proof.
  intros Hh Hp. open_receive_iq_frame.
  unfold bind at 1. unfold reads at 1.
  unfold bind at 1. unfold log, emit, modify_world.
  unfold bind at 1. cbn [recv_loop].
  replace (0 <? N.to_nat (header_size (iq_header (self s))))%nat with true
    by (symmetry; apply Nat.ltb_lt; lia).
  unfold bind at 1. unfold recv_into.
  rewrite repeat_length, !Nat.sub_0_r, Nat.ltb_irrefl.
  unfold_eff. cbn [world env n_reads set_trace]. rewrite Hp. reflexivity.
Qed.

(** What [receive_iq_frame] does when one whole frame is in flight and
    every read hands over at least one byte: it ends, and what it returns
    and leaves in the object is [frame_of_bytes]. *)
Lemma receive_iq_frame_exact fuel s hb pb h :
  delivering (recv_plan (env (world s))) ->
  inbox (world s) = hb ++ pb ->
  length hb = N.to_nat (header_size (iq_header (self s))) ->
  decode_header (iq_header (self s)) hb = Ok h ->
  length pb = N.to_nat (incoming_payload_size_eth h) ->
  (length hb <= fuel)%nat ->
  (length pb <= fuel)%nat ->
  exists r, (r <= length hb + length pb)%nat /\
    receive_iq_frame fuel s
    = (fst (frame_of_bytes h hb pb s),
       on_world (set_n_reads (n_reads (world s) + r))
         (snd (frame_of_bytes h hb pb s))).
Proof.
  intros Hp Hi Hh Hd Hl Hf1 Hf2.
  open_receive_iq_frame.
  unfold bind at 1. unfold reads at 1.
  unfold bind at 1. unfold log, emit, modify_world.
  unfold bind at 1.
  set (hs := N.to_nat (header_size (iq_header (self s)))) in *.
  set (s0 := {| self := self s;
                world := set_trace (trace (world s) ++ [Log Debug]) (world s) |}).
  destruct (recv_loop_exact fuel (fun total => (hs - total)%nat) hs
              (repeat x00 hs) 0 hb pb s0) as (r1 & Hr1 & E1).
  { exact Hp. }
  { exact Hi. }
  { cbn. exact Hh. }
  { intros t Ht. rewrite repeat_length. lia. }
  { left. intros t Ht. lia. }
  { exact Hf1. }
  rewrite E1. rewrite (blit_full hs hb Hh).
  open_receive_iq_payload.
  unfold bind at 1. unfold reads at 1. cbn [self s0].
  unfold bind at 1. rewrite Hd. unfold lift at 1. unfold ret at 1.
  unfold bind at 1. unfold modify at 1. cbn [self world].
  unfold frame_of_bytes.
  destruct (0 <? incoming_payload_size_eth h)%N eqn:Hpos.
  - unfold bind at 1. unfold log, emit, modify_world.
    unfold bind at 1.
    set (need := N.to_nat (incoming_payload_size_eth h)) in *.
    match goal with
    | |- context [recv_loop fuel ?rq need ?b 0 0 ?st] =>
        destruct (recv_loop_exact fuel rq need b 0 pb [] st)
          as (r2 & Hr2 & E2)
    end.
    { exact Hp. }
    { cbn. symmetry. apply app_nil_r. }
    { cbn. exact Hl. }
    { intros t Ht. rewrite repeat_length.
      pose proof receiver_buffer_size_pos. lia. }
    { right. reflexivity. }
    { exact Hf2. }
    rewrite E2. rewrite (blit_zeros need receiver_buffer_size pb Hl).
    exists (r1 + r2)%nat. split; [lia|].
    rewrite Hl.
    rewrite <- (store_iq_frame_transport
                  (set_n_reads (n_reads (world s) + (r1 + r2))) h hb _ need _
                  (transport_only_reads _)).
    f_equal. unfold on_world. cbn. rewrite <- app_assoc, Nat.add_assoc.
    reflexivity.
  - assert (pb = []).
    { apply N.ltb_ge in Hpos. destruct pb; [reflexivity|]. cbn in Hl. lia. }
    subst pb. exists r1. split; [lia|]. unfold ret, on_world. cbn.
    reflexivity.
Qed.

(** The header loop takes exactly the header and leaves what follows in
    flight. *)
Lemma receive_iq_frame_header fuel s hb rest :
  delivering (recv_plan (env (world s))) ->
  inbox (world s) = hb ++ rest ->
  length hb = N.to_nat (header_size (iq_header (self s))) ->
  (length hb <= fuel)%nat ->
  exists r, (r <= length hb)%nat /\
    receive_iq_frame fuel s
    = receive_iq_payload fuel hb
        {| self := self s;
           world := set_inbox rest
                      (set_n_reads (n_reads (world s) + r)
                         (set_trace (trace (world s) ++ [Log Debug]) (world s))) |}.
Proof.
  intros Hp Hi Hh Hf.
  open_receive_iq_frame.
  unfold bind at 1. unfold reads at 1.
  unfold bind at 1. unfold log, emit, modify_world.
  unfold bind at 1.
  set (hs := N.to_nat (header_size (iq_header (self s)))) in *.
  set (s0 := {| self := self s;
                world := set_trace (trace (world s) ++ [Log Debug]) (world s) |}).
  destruct (recv_loop_exact fuel (fun total => (hs - total)%nat) hs
              (repeat x00 hs) 0 hb rest s0) as (r1 & Hr1 & E1).
  { exact Hp. }
  { exact Hi. }
  { cbn. exact Hh. }
  { intros t Ht. rewrite repeat_length. lia. }
  { left. intros t Ht. lia. }
  { exact Hf. }
  exists r1. split; [exact Hr1|].
  rewrite E1. rewrite (blit_full hs hb Hh). reflexivity.
Qed.

(** The reception loops and the making of the sample array leave the
    header object alone. *)
Lemma header_kept_refl s : header_kept s s.
Proof. reflexivity. Qed.

Lemma header_kept_trans s1 s2 s3 :
  header_kept s1 s2 -> header_kept s2 s3 -> header_kept s1 s3.
Proof. unfold header_kept. congruence. Qed.

Lemma header_kept_recv_loop fuel : forall request need buf off total,
  Keeps header_kept (recv_loop fuel request need buf off total).
Proof.
  induction fuel as [|fuel IH]; intros; cbn [recv_loop];
    destruct (total <? need)%nat; unfold recv_into;
    keeps header_kept_refl header_kept_trans.
Qed.

Lemma header_kept_store_iq_frame h hb db n :
  Keeps header_kept (store_iq_frame h hb db n).
Proof.
  unfold store_iq_frame, np_frombuffer, np_reshape, save_iq_samples_to_text,
    external, new_object, log, emit.
  keeps header_kept_refl header_kept_trans.
Qed.

(** Once the header bytes [hb] have been decoded to [h], [h] is the header
    of the object, however the reception of the payload ends. *)
Lemma receive_iq_payload_stores_header fuel hb s h :
  decode_header (iq_header (self s)) hb = Ok h ->
  iq_header (self (snd (receive_iq_payload fuel hb s))) = h.
Proof.
  intros Hd. open_receive_iq_payload.
  unfold bind at 1. unfold reads at 1.
  unfold bind at 1. rewrite Hd. unfold lift at 1. unfold ret at 1.
  unfold bind at 1. unfold modify at 1.
  match goal with
  | |- iq_header (self (snd (?tail ?st))) = _ =>
      assert (K : Keeps header_kept tail); [|exact (K st)]
  end.
  pose proof header_kept_recv_loop. pose proof header_kept_store_iq_frame.
  unfold log, emit. keeps header_kept_refl header_kept_trans.
Qed.

Lemma receive_iq_frame_stores_header fuel s hb rest h :
  delivering (recv_plan (env (world s))) ->
  inbox (world s) = hb ++ rest ->
  length hb = N.to_nat (header_size (iq_header (self s))) ->
  decode_header (iq_header (self s)) hb = Ok h ->
  (length hb <= fuel)%nat ->
  iq_header (self (snd (receive_iq_frame fuel s))) = h.
Proof.
  intros Hp Hi Hh Hd Hf.
  destruct (receive_iq_frame_header fuel s hb rest Hp Hi Hh Hf) as (r & _ & E).
  rewrite E. apply receive_iq_payload_stores_header. exact Hd.
Qed.

(** The same happens in the payload loop when the peer closes right after
    a header that announces a payload. *)
Lemma receive_iq_frame_spins_after_header (fuel : nat) (s : State)
    (hb : bytes) (h : IQHeader) :
  delivering (recv_plan (env (world s))) ->
  inbox (world s) = hb ->
  length hb = N.to_nat (header_size (iq_header (self s))) ->
  decode_header (iq_header (self s)) hb = Ok h ->
  (0 < incoming_payload_size_eth h)%N ->
  (length hb <= fuel)%nat ->
  fst (receive_iq_frame fuel s) = OutOfFuel.
Proof.
  intros Hp Hi Hh Hd Hpos Hf.
  open_receive_iq_frame.
  unfold bind at 1. unfold reads at 1.
  unfold bind at 1. unfold log, emit, modify_world.
  unfold bind at 1.
  set (hs := N.to_nat (header_size (iq_header (self s)))) in *.
  set (s0 := {| self := self s;
                world := set_trace (trace (world s) ++ [Log Debug]) (world s) |}).
  destruct (recv_loop_exact fuel (fun total => (hs - total)%nat) hs
              (repeat x00 hs) 0 hb [] s0) as (r1 & Hr1 & E1).
  { exact Hp. }
  { cbn. rewrite app_nil_r. exact Hi. }
  { cbn. exact Hh. }
  { intros t Ht. rewrite repeat_length. lia. }
  { right. reflexivity. }
  { exact Hf. }
  rewrite E1. rewrite (blit_full hs hb Hh).
  open_receive_iq_payload.
  unfold bind at 1. unfold reads at 1. cbn [self s0].
  unfold bind at 1. rewrite Hd. unfold lift at 1. unfold ret at 1.
  unfold bind at 1. unfold modify at 1. cbn [self world].
  replace (0 <? incoming_payload_size_eth h)%N with true
    by (symmetry; apply N.ltb_lt; exact Hpos).
  unfold bind at 1. unfold log, emit, modify_world.
  unfold bind at 1.
  match goal with
  | |- context [recv_loop ?f ?rq ?n ?b ?o ?t ?st] =>
      pose proof (recv_loop_spins f rq n b o t st) as H;
      destruct (recv_loop f rq n b o t st) as [o1 s1]
  end.
  cbn [fst] in H. rewrite H; [reflexivity|reflexivity| | lia |].
  - intros k. destruct (Hp k) as (c & Hc & _). exists c. exact Hc.
  - rewrite repeat_length. lia.
Qed.




Lemma payload_size_32 h :
  sample_bit_depth h = 32%N ->
  N.to_nat (incoming_payload_size_eth h)
  = (8 * N.to_nat (active_ant_chs h * cpi_length h))%nat.
Proof.
  intros H. rewrite payload_size_paths_agree.
  unfold incoming_payload_size_shmem. rewrite H.
  change (32 / 8)%N with 4%N. lia.
Qed.

(** With 32-bit samples and a file that can be written, the samples of the
    frame end up in an array created for this frame. *)
Lemma store_iq_frame_ok h hb pb extra s :
  sample_bit_depth h = 32%N ->
  length pb = N.to_nat (incoming_payload_size_eth h) ->
  fault_plan (env (world s)) (n_calls (world s)) = None ->
  let a := {| arr_id := S (next_obj (world s)); arr_dtype := complex64;
              arr_shape := [active_ant_chs h; cpi_length h];
              arr_data := pb |} in
  fst (store_iq_frame h hb (pb ++ extra) (length pb) s) = Normal (PyArr a)
  /\ iq_samples (self (snd (store_iq_frame h hb (pb ++ extra) (length pb) s)))
     = PyArr a.
Proof.
  intros H32 Hl Hf. cbv zeta.
  rewrite (payload_size_32 h H32) in Hl.
  unfold store_iq_frame, np_frombuffer, np_reshape.
  rewrite firstn_app, Nat.sub_diag, firstn_all. cbn [firstn]. rewrite app_nil_r.
  replace (length pb mod 8 =? 0)%nat with true
    by (symmetry; apply Nat.eqb_eq; rewrite Hl, Nat.mul_comm;
        apply Nat.Div0.mod_mul).
  unfold_eff. cbn [arr_shape fold_right].
  replace (length pb / 8)%nat with (N.to_nat (active_ant_chs h * cpi_length h))
    by (rewrite Hl, Nat.mul_comm, Nat.div_mul; [reflexivity | discriminate]).
  rewrite N2Nat.id.
  replace (active_ant_chs h * (cpi_length h * 1)
           =? active_ant_chs h * cpi_length h * 1)%N with true
    by (symmetry; apply N.eqb_eq; lia).
  cbn. rewrite Hf. cbn. split; reflexivity.
Qed.

(** What [store_iq_frame] leaves for 32-bit samples when the text file
    can be written. *)
Lemma store_iq_frame_state h hb pb extra s :
  sample_bit_depth h = 32%N ->
  length pb = N.to_nat (incoming_payload_size_eth h) ->
  fault_plan (env (world s)) (n_calls (world s)) = None ->
  let a := {| arr_id := S (next_obj (world s)); arr_dtype := complex64;
              arr_shape := [active_ant_chs h; cpi_length h];
              arr_data := pb |} in
  store_iq_frame h hb (pb ++ extra) (length pb) s
  = (Normal (PyArr a),
     {| self := set_iq_frame_bytes (Some (hb ++ pb ++ extra))
                  (set_iq_samples (PyArr a) (self s));
        world := set_trace
                   (trace (world s) ++ [Log Debug; FileWrite "iq_samples.txt"])
                   (set_n_calls (S (n_calls (world s)))
                      (set_next_obj (S (S (next_obj (world s)))) (world s))) |}).
Proof.
  intros H32 Hl Hf. cbv zeta.
  rewrite (payload_size_32 h H32) in Hl.
  unfold store_iq_frame, np_frombuffer, np_reshape.
  rewrite firstn_app, Nat.sub_diag, firstn_all. cbn [firstn]. rewrite app_nil_r.
  replace (length pb mod 8 =? 0)%nat with true
    by (symmetry; apply Nat.eqb_eq; rewrite Hl, Nat.mul_comm;
        apply Nat.Div0.mod_mul).
  unfold_eff. cbn [arr_shape fold_right].
  replace (length pb / 8)%nat with (N.to_nat (active_ant_chs h * cpi_length h))
    by (rewrite Hl, Nat.mul_comm, Nat.div_mul; [reflexivity | discriminate]).
  rewrite N2Nat.id.
  replace (active_ant_chs h * (cpi_length h * 1)
           =? active_ant_chs h * cpi_length h * 1)%N with true
    by (symmetry; apply N.eqb_eq; lia).
  cbn. rewrite Hf. cbn. rewrite <- app_assoc. reflexivity.
Qed.



(** C9.  On the Ethernet path a frame of the shape the sample buffer already
    has is not copied into that buffer: [iq_samples] is bound to an array
    object created for the frame, whose identity differs from that of the
    buffer held before. *)
Theorem receive_iq_frame_rebinds_iq_samples (fuel : nat) (s : State)
    (hb pb : bytes) (h : IQHeader) (a0 : ndarray) :
  delivering (recv_plan (env (world s))) ->
  inbox (world s) = hb ++ pb ->
  length hb = N.to_nat (header_size (iq_header (self s))) ->
  decode_header (iq_header (self s)) hb = Ok h ->
  sample_bit_depth h = 32%N ->
  (0 < active_ant_chs h * cpi_length h)%N ->
  length pb = N.to_nat (incoming_payload_size_eth h) ->
  (length hb <= fuel)%nat ->
  (length pb <= fuel)%nat ->
  fault_plan (env (world s)) (n_calls (world s)) = None ->
  iq_samples (self s) = PyArr a0 ->
  arr_shape a0 = [active_ant_chs h; cpi_length h] ->
  (arr_id a0 < next_obj (world s))%nat ->
  exists a1,
    fst (receive_iq_frame fuel s) = Normal (PyArr a1)
    /\ iq_samples (self (snd (receive_iq_frame fuel s))) = PyArr a1
    /\ arr_shape a1 = arr_shape a0
    /\ arr_data a1 = pb
    /\ arr_id a1 <> arr_id a0.
Proof.
  intros Hp Hi Hh Hd H32 Hpos Hl Hf1 Hf2 Hf Ha Hs Hid.
  destruct (receive_iq_frame_exact fuel s hb pb h) as (r & _ & E);
    try assumption.
  rewrite E. unfold frame_of_bytes.
  replace (0 <? incoming_payload_size_eth h)%N with true
    by (symmetry; apply N.ltb_lt; pose proof (payload_size_32 h H32); lia).
  match goal with
  | |- context [store_iq_frame h hb (pb ++ ?x) (length pb) ?st] =>
      destruct (store_iq_frame_ok h hb pb x st H32 Hl Hf) as [R1 R2]
  end.
  eexists. split; [exact R1|]. split; [exact R2|].
  cbn. rewrite Hs. repeat split. lia.
Qed.

End Frames.

Lemma receive_iq_frame_spins_on_closed_peer_witness :
  fst (receive_iq_frame Sample.decode_header 1000
         (Sample.created "eth" Sample.quiet [])) = OutOfFuel.
Proof.
  apply receive_iq_frame_spins_on_closed_peer.
  - reflexivity.
  - reflexivity.
  - intros k. exists 1%nat. reflexivity.
Defined.


Lemma receive_iq_frame_rebinds_iq_samples_witness :
  let s0 := Sample.created "eth" Sample.quiet (Sample.frame1 ++ Sample.frame1) in
  let s1 := with_transport (chunked 12) 0
              (snd (receive_iq_frame Sample.decode_header 20 s0)) in
  exists a0 a1,
    iq_samples (self s1) = PyArr a0
    /\ iq_samples (self (snd (receive_iq_frame Sample.decode_header 20 s1)))
       = PyArr a1
    /\ arr_shape a1 = arr_shape a0
    /\ arr_id a1 <> arr_id a0.
Proof.
  cbv zeta.
  exists {| arr_id := 4; arr_dtype := complex64; arr_shape := [1; 1]%N;
            arr_data := [x0a; x0b; x0c; x0d; x01; x02; x03; x04] |}.
  destruct (receive_iq_frame_rebinds_iq_samples Sample.decode_header 20
              (with_transport (chunked 12) 0
                 (snd (receive_iq_frame Sample.decode_header 20
                         (Sample.created "eth" Sample.quiet
                            (Sample.frame1 ++ Sample.frame1)))))
              [x01; x01; x20; x00] [x0a; x0b; x0c; x0d; x01; x02; x03; x04]
              {| header_size := 4; active_ant_chs := 1; cpi_length := 1;
                 sample_bit_depth := 32 |}
              {| arr_id := 4; arr_dtype := complex64; arr_shape := [1; 1]%N;
                 arr_data := [x0a; x0b; x0c; x0d; x01; x02; x03; x04] |})
    as (a1 & _ & R2 & R3 & _ & R5).
  - intros k. exists 12%nat. split; [reflexivity | lia].
  - vm_compute. reflexivity.
  - vm_compute. reflexivity.
  - vm_compute. reflexivity.
  - reflexivity.
  - reflexivity.
  - reflexivity.
  - cbn. lia.
  - cbn. lia.
  - vm_compute. reflexivity.
  - vm_compute. reflexivity.
  - reflexivity.
  - vm_compute. lia.
  - exists a1. split; [vm_compute; reflexivity|].
    exact (conj R2 (conj R3 R5)).
Defined.

(** ** The sample buffer on the shared-memory path *)

Section SharedBuffer.

Variable decode_header : IQHeader -> bytes -> result IQHeader.

Local Abbreviation read_shm_frame := (read_shm_frame decode_header).

(** On the shared-memory path the buffer object is kept when it has the
    shape of the frame, and replaced by a new object of that shape
    otherwise; in both cases it ends up holding the samples of the slot. *)
Lemma read_shm_frame_buffer (i : Z) (s : State) (h : IQHeader) (a0 : ndarray) :
  let buffer := shm_slot (env (world s)) (n_waits (world s)) i in
  let shape := [active_ant_chs h; cpi_length h] in
  let window :=
    firstn (N.to_nat (incoming_payload_size_shmem h)) (skipn 1024 buffer) in
  decode_header (iq_header (self s)) (firstn 1024 buffer) = Ok h ->
  sample_bit_depth h = 32%N ->
  length window = N.to_nat (incoming_payload_size_shmem h) ->
  iq_samples (self s) = PyArr a0 ->
  exists a1,
    iq_samples (self (snd (read_shm_frame i s))) = PyArr a1
    /\ arr_shape a1 = shape
    /\ arr_data a1 = window
    /\ (arr_shape a0 = shape -> arr_id a1 = arr_id a0)
    /\ (arr_shape a0 <> shape -> arr_id a1 = (next_obj (world s) + 2)%nat).
Proof.
  cbv zeta. intros Hd H32 Hl Ha.
  assert (Hn : N.to_nat (incoming_payload_size_shmem h)
               = (8 * N.to_nat (active_ant_chs h * cpi_length h))%nat).
  { rewrite <- payload_size_paths_agree. apply payload_size_32. exact H32. }
  open_read_shm_frame; unfold shm_buffer, shm_payload_view, np_reshape,
    np_empty.
  unfold_eff. cbn [self world set_trace n_waits env]. rewrite Hd.
  cbn [self world set_iq_header iq_header M].
  set (window := firstn (N.to_nat (incoming_payload_size_shmem h))
                   (skipn 1024 (shm_slot (env (world s)) (n_waits (world s)) i)))
    in *.
  assert (Hmod : (length window mod 8 =? 0)%nat = true).
  { apply Nat.eqb_eq. rewrite Hl, Hn, Nat.mul_comm. apply Nat.Div0.mod_mul. }
  assert (Hdiv : (length window / 8)%nat
                 = N.to_nat (active_ant_chs h * cpi_length h)).
  { rewrite Hl, Hn, Nat.mul_comm, Nat.div_mul; [reflexivity | discriminate]. }
  assert (Hshape : (active_ant_chs h * (cpi_length h * 1)
                    =? N.of_nat (length window / 8) * 1)%N = true).
  { apply N.eqb_eq. rewrite Hdiv, N2Nat.id. lia. }
  destruct (M (self s) =? 0)%N;
    cbn [self world set_M iq_samples];
    rewrite Hmod; cbn [arr_shape fold_right self world]; rewrite Hshape;
    cbn [self world set_M set_iq_header iq_samples]; rewrite Ha;
    unfold shape_eqb;
    (destruct (list_eq_dec N.eq_dec (arr_shape a0)
                 [active_ant_chs h; cpi_length h]) as [Heq|Hne];
     cbn [negb];
     [ exists (np_copyto a0
                 {| arr_id := S (next_obj (world s)); arr_dtype := complex64;
                    arr_shape := [active_ant_chs h; cpi_length h];
                    arr_data := window |})
     | exists (np_copyto
                 {| arr_id := S (S (next_obj (world s))); arr_dtype := complex64;
                    arr_shape := [active_ant_chs h; cpi_length h];
                    arr_data :=
                      repeat x00
                        (8 * N.to_nat
                               (fold_right N.mul 1%N
                                  [active_ant_chs h; cpi_length h])) |}
                 {| arr_id := S (next_obj (world s)); arr_dtype := complex64;
                    arr_shape := [active_ant_chs h; cpi_length h];
                    arr_data := window |}) ];
     (split;
      [ cbn; destruct (fault_plan (env (world s)) (n_calls (world s)));
        reflexivity
      | cbn; repeat split; try assumption; try tauto; intros; lia ])).
Qed.

End SharedBuffer.

(** * Further properties of the methods *)

(** ** Arguments of the commands *)

Lemma to_N_byte_of_Z z : Z.of_N (Byte.to_N (byte_of_Z z)) = z mod 256.
Proof.
  unfold byte_of_Z.
  assert (Hb : 0 <= z mod 256 < 256) by (apply Z.mod_pos_bound; lia).
  destruct (Byte.of_N (Z.to_N (z mod 256))) as [b|] eqn:E.
  - apply Byte.to_of_N in E. rewrite E. lia.
  - apply Byte.of_N_None_iff in E. lia.
Qed.

(** Reading back what [le_bytes] wrote. *)
Lemma le_value_le_bytes n : forall v, le_value (le_bytes n v) = v mod 256 ^ Z.of_nat n.
Proof.
  induction n as [|n IH]; intros v.
  - cbn. now rewrite Z.mod_1_r.
  - cbn [le_bytes le_value]. rewrite to_N_byte_of_Z, IH.
    rewrite Nat2Z.inj_succ, Z.pow_succ_r by lia.
    rewrite Z.rem_mul_r by lia. reflexivity.
Qed.

Lemma pack_I_repeat v n :
  0 <= v < 2 ^ 32 ->
  pack_I (repeat v n) = Ok (List.concat (repeat (le_bytes 4 v) n)).
Proof.
  intros Hv. induction n as [|n IH]; [reflexivity|].
  cbn [repeat pack_I List.concat].
  replace ((0 <=? v) && (v <? 2 ^ 32)) with true
    by (symmetry; apply andb_true_iff; split;
        [apply Z.leb_le | apply Z.ltb_lt]; lia).
  rewrite IH. reflexivity.
Qed.

Lemma pack_I_out_of_range v n :
  ~ 0 <= v < 2 ^ 32 ->
  pack_I (repeat v (S n)) = Err StructError.
Proof.
  intros Hv. cbn [repeat pack_I].
  replace ((0 <=? v) && (v <? 2 ^ 32)) with false; [reflexivity|].
  symmetry. apply andb_false_iff.
  destruct (Z.leb_spec 0 v); [right; apply Z.ltb_ge; lia | left; reflexivity].
Qed.

Lemma length_concat_repeat (b : bytes) n :
  length (List.concat (repeat b n)) = (n * length b)%nat.
Proof.
  induction n as [|n IH]; [reflexivity|].
  cbn [repeat List.concat]. rewrite length_app, IH. cbn. lia.
Qed.

Section CommandDetails.

Variable AUTO_GAIN_VALUE : Z.
Variable bytes_object_overhead : nat.
Variable utf8_decodable : bytes -> bool.

Local Abbreviation set_if_agc := (set_if_agc AUTO_GAIN_VALUE bytes_object_overhead).
Local Abbreviation set_if_gain := (set_if_gain AUTO_GAIN_VALUE bytes_object_overhead).
Local Abbreviation ctr_iface_communication := (ctr_iface_communication utf8_decodable).

(** X1.  Without the connection flag the four command methods return at
    once: the object and the world are as before, so the cache is not
    updated and no thread is started. *)
Theorem commands_dropped_when_disconnected (s : State) (center_freq : Q) (gain : Z) :
  receiver_connection_status (self s) = false ->
  ctr_iface_init s = (Normal tt, s)
  /\ set_center_freq center_freq s = (Normal tt, s)
  /\ set_if_agc s = (Normal tt, s)
  /\ set_if_gain gain s = (Normal tt, s).
Proof.
  intros H.
  destruct (commands_idle_when_disconnected AUTO_GAIN_VALUE bytes_object_overhead s H)
    as (H1 & H2 & H3 & H4).
  auto.
Qed.

(** What [set_center_freq] does on a connected client, whatever the
    frequency. *)
Lemma set_center_freq_connected f s :
  receiver_connection_status (self s) = true ->
  set_center_freq f s
  = (freq_bytes <- lift (pack_Q (py_int f)) ;;
     spawn_command (encode "FREQ" ++ freq_bytes ++ repeat x00 116))
      {| self := set_daq_center_freq (py_int f) (self s); world := world s |}.
Proof.
  intros H. unfold set_center_freq. unfold bind at 1. unfold reads at 1. rewrite H.
  unfold bind at 1. unfold modify at 1.
  unfold bind at 1. symmetry. unfold bind at 1. symmetry.
  destruct (pack_Q (py_int f)) as [fb|e]; reflexivity.
Qed.

(** X2.  On a connected client a frequency that fits 64 unsigned bits is
    cached and one thread is started with a 128-byte frame: the tag
    [FREQ], the frequency on 8 bytes, 116 zero bytes.  The 8 bytes read
    back as the cached frequency. *)
Theorem set_center_freq_frame (s : State) (center_freq : Q) :
  receiver_connection_status (self s) = true ->
  0 <= py_int center_freq < 2 ^ 64 ->
  fault_plan (env (world s)) (n_calls (world s)) = None ->
  let s' := snd (set_center_freq center_freq s) in
  let frame := encode "FREQ" ++ le_bytes 8 (py_int center_freq) ++ repeat x00 116 in
  fst (set_center_freq center_freq s) = Normal tt
  /\ threads (world s') = threads (world s) ++ [frame]
  /\ length frame = 128%nat
  /\ le_value (firstn 8 (skipn 4 frame)) = daq_center_freq (self s')
  /\ daq_center_freq (self s') = py_int center_freq.
Proof.
  intros Hc Hr Hf. cbv zeta.
  rewrite (set_center_freq_connected _ _ Hc).
  unfold pack_Q.
  replace ((0 <=? py_int center_freq) && (py_int center_freq <? 2 ^ 64)) with true
    by (symmetry; apply andb_true_iff; split;
        [apply Z.leb_le | apply Z.ltb_lt]; lia).
  unfold lift, bind, ret.
  rewrite spawn_command_normal, spawn_command_threads, spawn_command_self
    by exact Hf.
  split; [reflexivity|]. split; [reflexivity|]. split; [reflexivity|].
  split; [|reflexivity].
  change (firstn 8 (skipn 4 (encode "FREQ" ++ le_bytes 8 (py_int center_freq)
                               ++ repeat x00 116)))
    with (le_bytes 8 (py_int center_freq)).
  rewrite le_value_le_bytes. cbn [self daq_center_freq set_daq_center_freq].
  apply Z.mod_small. exact Hr.
Qed.

(** X3.  On a connected client a frequency whose integer part
    [int(center_freq)] lies outside 0 .. 2^64 - 1 makes [set_center_freq]
    raise [struct.error]; that integer part is cached all the same, and
    nothing else has happened: no thread, no change of the world.  (A
    frequency such as -0.5, whose integer part is 0, is in range.) *)
Theorem set_center_freq_out_of_range (s : State) (center_freq : Q) :
  receiver_connection_status (self s) = true ->
  ~ 0 <= py_int center_freq < 2 ^ 64 ->
  set_center_freq center_freq s
  = (Raised StructError,
     {| self := set_daq_center_freq (py_int center_freq) (self s);
        world := world s |}).
Proof.
  intros Hc Hr. rewrite (set_center_freq_connected _ _ Hc).
  unfold pack_Q.
  replace ((0 <=? py_int center_freq) && (py_int center_freq <? 2 ^ 64)) with false;
    [reflexivity|].
  symmetry. apply andb_false_iff.
  destruct (Z.leb_spec 0 (py_int center_freq));
    [right; apply Z.ltb_ge; lia | left; reflexivity].
Qed.

(** What [set_if_gain] does on a connected client for a gain other than
    [AUTO_GAIN_VALUE]. *)
Lemma set_if_gain_connected g s :
  receiver_connection_status (self s) = true ->
  g <> AUTO_GAIN_VALUE ->
  set_if_gain g s
  = (gain_bytes <- lift (pack_I (repeat (g * 10) (N.to_nat (M (self s))))) ;;
     pad <- lift (bytearray (128 - (Z.of_N (M (self s)) + 1) * 4)) ;;
     spawn_command (encode "GAIN" ++ gain_bytes ++ pad))
      {| self := set_daq_agc false (set_daq_rx_gain g (self s));
         world := world s |}.
Proof.
  intros H Hg. open_set_if_gain.
  apply Z.eqb_neq in Hg. rewrite Hg.
  unfold bind at 1. unfold reads at 1. rewrite H.
  unfold bind at 1. unfold modify at 1. unfold bind at 1. unfold modify at 1.
  unfold bind at 1. unfold reads at 1.
  cbn [self M set_daq_agc set_daq_rx_gain]. reflexivity.
Qed.

(** X4.  On a connected client that knows at most 31 channels, a gain whose
    tenfold fits 32 unsigned bits is cached, [daq_agc] is cleared, and one
    thread is started with a 128-byte frame: the tag [GAIN], the tenfold
    gain on 4 bytes once per channel, zero bytes up to 128. *)
Theorem set_if_gain_frame (s : State) (gain : Z) :
  receiver_connection_status (self s) = true ->
  gain <> AUTO_GAIN_VALUE ->
  (M (self s) <= 31)%N ->
  0 <= gain * 10 < 2 ^ 32 ->
  fault_plan (env (world s)) (n_calls (world s)) = None ->
  let s' := snd (set_if_gain gain s) in
  let m := N.to_nat (M (self s)) in
  let frame := encode "GAIN" ++ List.concat (repeat (le_bytes 4 (gain * 10)) m)
               ++ repeat x00 (124 - 4 * m) in
  fst (set_if_gain gain s) = Normal tt
  /\ threads (world s') = threads (world s) ++ [frame]
  /\ length frame = 128%nat
  /\ le_value (le_bytes 4 (gain * 10)) = gain * 10
  /\ daq_rx_gain (self s') = gain
  /\ daq_agc (self s') = false.
Proof.
  intros Hc Hg HM Hr Hf. cbv zeta.
  rewrite (set_if_gain_connected _ _ Hc Hg).
  rewrite (pack_I_repeat _ _ Hr).
  unfold bytearray.
  replace (128 - (Z.of_N (M (self s)) + 1) * 4 <? 0) with false
    by (symmetry; apply Z.ltb_ge; lia).
  replace (Z.to_nat (128 - (Z.of_N (M (self s)) + 1) * 4))
    with (124 - 4 * N.to_nat (M (self s)))%nat by lia.
  unfold lift, bind, ret.
  rewrite spawn_command_normal, spawn_command_threads, spawn_command_self
    by exact Hf.
  split; [reflexivity|]. split; [reflexivity|]. split.
  { rewrite !length_app, length_concat_repeat, repeat_length, length_le_bytes.
    change (length (encode "GAIN")) with 4%nat. lia. }
  split; [rewrite le_value_le_bytes; apply Z.mod_small; exact Hr|].
  split; reflexivity.
Qed.

(** X5.  With more than 31 channels [set_if_gain] cannot assemble a
    [GAIN] frame.  For a gain other than [AUTO_GAIN_VALUE] it raises after
    it has cached the gain and cleared [daq_agc], and no thread is started:
    [struct.error] when the tenfold gain does not fit 32 unsigned bits
    ([pack] comes first), [ValueError] otherwise (the padding would have a
    negative length).  For [AUTO_GAIN_VALUE] it is [set_if_agc], which does
    not look at the channel count. *)
Theorem set_if_gain_too_many_channels (s : State) (gain : Z) :
  receiver_connection_status (self s) = true ->
  (31 < M (self s))%N ->
  set_if_gain gain s
  = if gain =? AUTO_GAIN_VALUE then set_if_agc s
    else
      (Raised (if (0 <=? gain * 10) && (gain * 10 <? 2 ^ 32)
               then ValueError else StructError),
       {| self := set_daq_agc false (set_daq_rx_gain gain (self s));
          world := world s |}).
Proof.
  intros Hc HM.
  destruct (Z.eqb_spec gain AUTO_GAIN_VALUE) as [Hg|Hg].
  - open_set_if_gain. rewrite Hg, Z.eqb_refl. reflexivity.
  - rewrite (set_if_gain_connected _ _ Hc Hg).
    destruct ((0 <=? gain * 10) && (gain * 10 <? 2 ^ 32)) eqn:Hr.
    + apply andb_true_iff in Hr. destruct Hr as [Hr1 Hr2].
      apply Z.leb_le in Hr1. apply Z.ltb_lt in Hr2.
      rewrite (pack_I_repeat _ _ (conj Hr1 Hr2)).
      unfold bytearray.
      replace (128 - (Z.of_N (M (self s)) + 1) * 4 <? 0) with true
        by (symmetry; apply Z.ltb_lt; lia).
      reflexivity.
    + destruct (N.to_nat (M (self s))) as [|m] eqn:Em; [lia|].
      cbn [repeat pack_I]. rewrite Hr. reflexivity.
Qed.

(** X6.  With at least one channel known, a gain whose tenfold does not
    fit 32 unsigned bits (a negative gain, for one) makes [set_if_gain]
    raise [struct.error] after it has cached the gain and cleared
    [daq_agc]; no thread is started. *)
Theorem set_if_gain_out_of_range (s : State) (gain : Z) :
  receiver_connection_status (self s) = true ->
  gain <> AUTO_GAIN_VALUE ->
  (0 < M (self s))%N ->
  ~ 0 <= gain * 10 < 2 ^ 32 ->
  set_if_gain gain s
  = (Raised StructError,
     {| self := set_daq_agc false (set_daq_rx_gain gain (self s));
        world := world s |}).
Proof.
  intros Hc Hg HM Hr.
  rewrite (set_if_gain_connected _ _ Hc Hg).
  destruct (N.to_nat (M (self s))) as [|m] eqn:Em; [lia|].
  rewrite (pack_I_out_of_range _ _ Hr). reflexivity.
Qed.

End CommandDetails.

(** ** The acknowledgement handler *)

Section Acknowledgement.

Variable utf8_decodable : bytes -> bool.

Local Abbreviation ctr_iface_communication := (ctr_iface_communication utf8_decodable).

Lemma bytes_eqb_eq a b : bytes_eqb a b = true <-> a = b.
Proof.
  unfold bytes_eqb. destruct (list_eq_dec byte_eq_dec a b); split;
    intros H; try reflexivity; try assumption; try discriminate; contradiction.
Qed.

(** X7.  With the lock free and a control socket that works, one command
    thread takes the lock, sends its message, reads at most 128 bytes,
    releases the lock, and then puts [config-ok] on the queue exactly when
    the first four bytes of the reply are [FNSD]; any other reply (a short
    or empty one included) is only logged as an error.  The object is not
    touched. *)
Theorem ctr_iface_communication_round_trip (msg_bytes : bytes) (s : State) :
  lock_held (world s) = false ->
  fault_plan (env (world s)) (n_calls (world s)) = None ->
  fault_plan (env (world s)) (S (n_calls (world s))) = None ->
  let reply := firstn 128 (ctr_reply (env (world s)) (n_cmds (world s))) in
  let status := firstn 4 reply in
  utf8_decodable status = true ->
  let s' := snd (ctr_iface_communication msg_bytes s) in
  let c := ctr_iface_socket (self s) in
  let ok := bytes_eqb status (encode "FNSD") in
  fst (ctr_iface_communication msg_bytes s) = Normal tt
  /\ self s' = self s
  /\ lock_held (world s') = false
  /\ trace (world s')
     = trace (world s)
       ++ [LockAcquire; Log Debug; SockSend c msg_bytes; SockRecv c reply;
           Log Debug; LockRelease; Log (if ok then Info else Error)]
  /\ que (world s')
     = (if ok then que (world s) ++ [[["config-ok"%string]]] else que (world s))
  /\ (ok = true <-> status = encode "FNSD").
Proof.
  intros Hl Hf1 Hf2. cbv zeta. intros Hu.
  open_ctr_iface_communication; unfold sock_recv. unfold_eff.
  rewrite Hl. cbn -[firstn]. rewrite Hf1. cbn -[firstn]. rewrite Hf2.
  cbn -[firstn]. rewrite Hu.
  destruct (bytes_eqb _ _) eqn:E; cbn -[firstn]; rewrite <- ?app_assoc;
    cbn -[firstn]; (repeat split; try reflexivity; try discriminate).
  - intros _. apply bytes_eqb_eq. exact E.
  - intros H. apply bytes_eqb_eq in H. congruence.
Qed.

(** X8.  When the send or the read on the control socket raises, the
    exception leaves the thread with the lock still held: nothing is put on
    the queue, and every later command thread blocks on the lock without
    sending anything. *)
Theorem ctr_iface_communication_failure_keeps_lock (msg_bytes later : bytes)
    (s : State) (e : exn) :
  lock_held (world s) = false ->
  fault_plan (env (world s)) (n_calls (world s)) = Some e
  \/ (fault_plan (env (world s)) (n_calls (world s)) = None
      /\ fault_plan (env (world s)) (S (n_calls (world s))) = Some e) ->
  let s' := snd (ctr_iface_communication msg_bytes s) in
  fst (ctr_iface_communication msg_bytes s) = Raised e
  /\ lock_held (world s') = true
  /\ que (world s') = que (world s)
  /\ ctr_iface_communication later s' = (Blocked, s').
Proof.
  intros Hl Hf. cbv zeta.
  assert (H : fst (ctr_iface_communication msg_bytes s) = Raised e
              /\ lock_held (world (snd (ctr_iface_communication msg_bytes s))) = true
              /\ que (world (snd (ctr_iface_communication msg_bytes s)))
                 = que (world s)).
  { open_ctr_iface_communication; unfold sock_recv. unfold_eff.
    rewrite Hl. cbn -[firstn]. destruct Hf as [Hf|[Hf1 Hf2]].
    - rewrite Hf. cbn. auto.
    - rewrite Hf1. cbn -[firstn]. rewrite Hf2. cbn. auto. }
  destruct H as (H1 & H2 & H3). repeat split; try assumption.
  revert H2. generalize (snd (ctr_iface_communication msg_bytes s)). intros s1 H2.
  open_ctr_iface_communication. unfold_eff. rewrite H2. reflexivity.
Qed.

End Acknowledgement.

(** ** Closing, in detail *)

(** X9.  Closing a client that is not connected touches no socket: it
    only puts [disconn-ok] on the queue and returns 0; with the
    shared-memory interface the shared memory is destroyed as well. *)
Theorem eth_close_when_disconnected (s : State) :
  receiver_connection_status (self s) = false ->
  (data_interface (self s) = "shmem"%string ->
   fault_plan (env (world s)) (n_calls (world s)) = None) ->
  let s' := snd (eth_close s) in
  fst (eth_close s) = Normal (PyInt 0)
  /\ receiver_connection_status (self s') = false
  /\ socket_inst (self s') = socket_inst (self s)
  /\ ctr_iface_socket (self s') = ctr_iface_socket (self s)
  /\ que (world s') = que (world s) ++ [[["disconn-ok"%string]]]
  /\ trace (world s')
     = trace (world s)
       ++ (if String.eqb (data_interface (self s)) "shmem" then [ShmDestroy]
           else []).
Proof.
  intros Hc Hf. cbv zeta.
  unfold eth_close, eth_close_try. unfold_eff. rewrite Hc. cbn.
  destruct (String.eqb_spec (data_interface (self s)) "shmem") as [E|E].
  - cbn. rewrite (Hf E). cbn. repeat split.
  - cbn. rewrite app_nil_r. repeat split.
Qed.

(** X10.  Closing a connected Ethernet client whose socket calls succeed:
    the exit token [q] goes out on the data socket, which is then closed
    and replaced; a 128-byte [EXIT] frame goes out on the control socket
    before it is closed and replaced; the flag is cleared, [disconn-ok] is
    queued and 0 is returned. *)
Theorem eth_close_ethernet (s : State) :
  receiver_connection_status (self s) = true ->
  data_interface (self s) = "eth"%string ->
  (forall k, (k < 4)%nat ->
     fault_plan (env (world s)) (n_calls (world s) + k) = None) ->
  let s' := snd (eth_close s) in
  let d := socket_inst (self s) in
  let c := ctr_iface_socket (self s) in
  let n := next_obj (world s) in
  let exit_message_bytes := encode "EXIT" ++ repeat x00 124 in
  fst (eth_close s) = Normal (PyInt 0)
  /\ receiver_connection_status (self s') = false
  /\ socket_inst (self s') = n
  /\ ctr_iface_socket (self s') = S n
  /\ que (world s') = que (world s) ++ [[["disconn-ok"%string]]]
  /\ trace (world s')
     = trace (world s)
       ++ [SockSendAll d (encode "q"); SockClose d; SockNew n;
           SockSend c exit_message_bytes; SockClose c; SockNew (S n)]
  /\ length exit_message_bytes = 128%nat.
Proof.
  intros Hc Hi Hf. cbv zeta.
  pose proof (Hf 0%nat ltac:(lia)) as H0. rewrite Nat.add_0_r in H0.
  pose proof (Hf 1%nat ltac:(lia)) as H1. rewrite Nat.add_1_r in H1.
  pose proof (Hf 2%nat ltac:(lia)) as H2.
  replace (n_calls (world s) + 2)%nat with (S (S (n_calls (world s)))) in H2 by lia.
  pose proof (Hf 3%nat ltac:(lia)) as H3.
  replace (n_calls (world s) + 3)%nat with (S (S (S (n_calls (world s))))) in H3
    by lia.
  unfold eth_close, eth_close_try. unfold_eff. rewrite Hc. cbn -[repeat].
  rewrite Hi. cbn -[repeat]. rewrite H0. cbn -[repeat]. rewrite H1. cbn -[repeat].
  rewrite H2. cbn -[repeat]. rewrite H3. cbn -[repeat].
  rewrite Hi. cbn -[repeat].
  rewrite <- !app_assoc. repeat split.
Qed.

(** X11.  Closing a connected shared-memory client whose calls succeed
    leaves the data socket alone: only the control socket sends [EXIT], is
    closed and replaced; then the shared memory is destroyed and 0 is
    returned. *)
Theorem eth_close_shared_memory (s : State) :
  receiver_connection_status (self s) = true ->
  data_interface (self s) = "shmem"%string ->
  (forall k, (k < 3)%nat ->
     fault_plan (env (world s)) (n_calls (world s) + k) = None) ->
  let s' := snd (eth_close s) in
  let c := ctr_iface_socket (self s) in
  let n := next_obj (world s) in
  fst (eth_close s) = Normal (PyInt 0)
  /\ receiver_connection_status (self s') = false
  /\ socket_inst (self s') = socket_inst (self s)
  /\ ctr_iface_socket (self s') = n
  /\ que (world s') = que (world s) ++ [[["disconn-ok"%string]]]
  /\ trace (world s')
     = trace (world s)
       ++ [SockSend c (encode "EXIT" ++ repeat x00 124); SockClose c; SockNew n;
           ShmDestroy].
Proof.
  intros Hc Hi Hf. cbv zeta.
  pose proof (Hf 0%nat ltac:(lia)) as H0. rewrite Nat.add_0_r in H0.
  pose proof (Hf 1%nat ltac:(lia)) as H1. rewrite Nat.add_1_r in H1.
  pose proof (Hf 2%nat ltac:(lia)) as H2.
  replace (n_calls (world s) + 2)%nat with (S (S (n_calls (world s)))) in H2 by lia.
  unfold eth_close, eth_close_try. unfold_eff. rewrite Hc. cbn -[repeat].
  rewrite Hi. cbn -[repeat]. rewrite H0. cbn -[repeat]. rewrite H1. cbn -[repeat].
  rewrite ?Hi. cbn -[repeat]. rewrite H2. cbn -[repeat].
  rewrite <- !app_assoc. repeat split.
Qed.

(** [close] hides the result of [eth_close]: it returns [None] both
    when the connection was closed and when [eth_close] gave up with -1,
    and it leaves the state [eth_close] left. *)
Theorem close_hides_the_result (s : State) (v : pyval) :
  fst (eth_close s) = Normal v ->
  close s = (Normal PyNone, snd (eth_close s)).
Proof.
  intros H. unfold close, bind. destruct (eth_close s) as [o s1].
  cbn in H. subst o. reflexivity.
Qed.

(** ** The two sockets *)

Lemma sockets_kept_refl s : sockets_kept s s.
Proof. repeat split; auto. Qed.

Lemma sockets_kept_trans s1 s2 s3 :
  sockets_kept s1 s2 -> sockets_kept s2 s3 -> sockets_kept s1 s3.
Proof. intros (A & B & C) (D & E & F). repeat split; try congruence. lia. Qed.

Lemma sockets_kept_new_object : Keeps sockets_kept new_object.
Proof. intros s. repeat split; cbn; auto. Qed.

Lemma sockets_kept_emit ev : Keeps sockets_kept (emit ev).
Proof. intros s. repeat split; cbn; auto. Qed.

Lemma sockets_kept_external ev : Keeps sockets_kept (external ev).
Proof.
  pose proof sockets_kept_emit.
  unfold external. keeps sockets_kept_refl sockets_kept_trans.
Qed.

Lemma sockets_kept_start_new_thread msg : Keeps sockets_kept (start_new_thread msg).
Proof. unfold start_new_thread. keeps sockets_kept_refl sockets_kept_trans. Qed.

Lemma sockets_kept_recv_into v n : Keeps sockets_kept (recv_into v n).
Proof. unfold recv_into. keeps sockets_kept_refl sockets_kept_trans. Qed.

Lemma sockets_kept_recv_loop fuel : forall request need buf off total,
  Keeps sockets_kept (recv_loop fuel request need buf off total).
Proof.
  pose proof sockets_kept_recv_into.
  induction fuel as [|fuel IH]; intros; cbn [recv_loop];
    destruct (total <? need)%nat; keeps sockets_kept_refl sockets_kept_trans.
Qed.

Lemma keeps_sockets_distinct_refl s : keeps_sockets_distinct s s.
Proof. intros H. exact H. Qed.

Lemma keeps_sockets_distinct_trans s1 s2 s3 :
  keeps_sockets_distinct s1 s2 -> keeps_sockets_distinct s2 s3 ->
  keeps_sockets_distinct s1 s3.
Proof. intros A B H. apply B, A, H. Qed.

Lemma sockets_kept_distinct s s' :
  sockets_kept s s' -> keeps_sockets_distinct s s'.
Proof.
  intros (A & B & C) (D & E & F). unfold sockets_distinct.
  rewrite A, B. repeat split; try assumption; lia.
Qed.

Lemma Keeps_sockets_kept_distinct {A} (m : Eff A) :
  Keeps sockets_kept m -> Keeps keeps_sockets_distinct m.
Proof. intros H s. apply sockets_kept_distinct, H. Qed.

Section Sockets.

Variable AUTO_GAIN_VALUE : Z.
Variable decode_header : IQHeader -> bytes -> result IQHeader.
Variable bytes_object_overhead : nat.

Local Abbreviation receive_iq_frame := (receive_iq_frame decode_header).
Local Abbreviation read_shm_frame := (read_shm_frame decode_header).
Local Abbreviation set_if_agc := (set_if_agc AUTO_GAIN_VALUE bytes_object_overhead).
Local Abbreviation set_if_gain := (set_if_gain AUTO_GAIN_VALUE bytes_object_overhead).
Local Abbreviation eth_connect_replay :=
  (eth_connect_replay AUTO_GAIN_VALUE bytes_object_overhead).
Local Abbreviation eth_connect_try :=
  (eth_connect_try AUTO_GAIN_VALUE decode_header bytes_object_overhead).
Local Abbreviation eth_connect :=
  (eth_connect AUTO_GAIN_VALUE decode_header bytes_object_overhead).
Local Abbreviation get_iq_online :=
  (get_iq_online AUTO_GAIN_VALUE decode_header bytes_object_overhead).

Lemma sockets_kept_receive_iq_frame fuel : Keeps sockets_kept (receive_iq_frame fuel).
Proof.
  pose proof sockets_kept_new_object. pose proof sockets_kept_emit.
  pose proof sockets_kept_external. pose proof sockets_kept_recv_loop.
  open_receive_iq_frame;
    unfold receive_iq_payload, store_iq_frame, np_frombuffer, np_reshape,
      save_iq_samples_to_text, log.
  keeps sockets_kept_refl sockets_kept_trans.
Qed.

Lemma sockets_kept_commands :
  Keeps sockets_kept ctr_iface_init
  /\ (forall f, Keeps sockets_kept (set_center_freq f))
  /\ Keeps sockets_kept set_if_agc
  /\ (forall g, Keeps sockets_kept (set_if_gain g))
  /\ Keeps sockets_kept eth_connect_replay.
Proof.
  pose proof sockets_kept_emit. pose proof sockets_kept_start_new_thread.
  assert (H1 : Keeps sockets_kept ctr_iface_init).
  { unfold ctr_iface_init, spawn_command, log.
    keeps sockets_kept_refl sockets_kept_trans. }
  assert (H2 : forall f, Keeps sockets_kept (set_center_freq f)).
  { intros f. unfold set_center_freq, spawn_command, log.
    keeps sockets_kept_refl sockets_kept_trans. }
  assert (H3 : Keeps sockets_kept set_if_agc).
  { open_set_if_agc; unfold spawn_command, log.
    keeps sockets_kept_refl sockets_kept_trans. }
  assert (H4 : forall g, Keeps sockets_kept (set_if_gain g)).
  { intros g. open_set_if_gain. destruct (g =? AUTO_GAIN_VALUE); [exact H3|].
    unfold spawn_command, log. keeps sockets_kept_refl sockets_kept_trans. }
  split; [exact H1|]. split; [exact H2|]. split; [exact H3|]. split; [exact H4|].
  open_eth_connect_replay; unfold log.
  keeps sockets_kept_refl sockets_kept_trans.
Qed.

Lemma sockets_kept_eth_connect_try fuel : Keeps sockets_kept (eth_connect_try fuel).
Proof.
  pose proof sockets_kept_external.
  pose proof (sockets_kept_receive_iq_frame fuel).
  destruct sockets_kept_commands as (_ & _ & _ & _ & Hr).
  open_eth_connect_try;
    unfold eth_connect_open, sock_connect, sock_sendall.
  keeps sockets_kept_refl sockets_kept_trans.
Qed.

Lemma sockets_kept_read_shm_frame i : Keeps sockets_kept (read_shm_frame i).
Proof.
  pose proof sockets_kept_new_object. pose proof sockets_kept_emit.
  pose proof sockets_kept_external.
  open_read_shm_frame;
    unfold shm_buffer, shm_payload_view, np_reshape, np_empty,
      send_ctr_buff_ready.
  keeps sockets_kept_refl sockets_kept_trans.
Qed.

Lemma sockets_distinct_eth_connect fuel :
  Keeps keeps_sockets_distinct (eth_connect fuel).
Proof.
  intros s Hs.
  pose proof (sockets_kept_distinct _ _ (sockets_kept_eth_connect_try fuel s) Hs)
    as H1.
  destruct (eth_connect_try fuel s) as [[[]|e| |] s1] eqn:E.
  - rewrite (eth_connect_on_success AUTO_GAIN_VALUE decode_header
               bytes_object_overhead fuel s) by (rewrite E; reflexivity).
    rewrite E. exact H1.
  - rewrite (eth_connect_on_exception AUTO_GAIN_VALUE decode_header
               bytes_object_overhead fuel s e) by (rewrite E; reflexivity).
    unfold sockets_distinct. cbn. repeat split; lia.
  - open_eth_connect. unfold bind at 1. unfold try_except. unfold bind at 1.
    rewrite E. exact H1.
  - open_eth_connect. unfold bind at 1. unfold try_except. unfold bind at 1.
    rewrite E. exact H1.
Qed.

Lemma sockets_distinct_eth_close : Keeps keeps_sockets_distinct eth_close.
Proof.
  intros s (A & B & C). unfold eth_close, eth_close_try. unfold_eff.
  destruct (receiver_connection_status (self s)); cbn -[repeat String.eqb];
    repeat match goal with
      | |- context [fault_plan ?e ?k] =>
          destruct (fault_plan e k); cbn -[repeat String.eqb]
      | |- context [String.eqb ?a ?b] =>
          destruct (String.eqb a b); cbn -[repeat String.eqb]
      end;
    unfold sockets_distinct; cbn; repeat split; lia.
Qed.

(** X12.  Every public method leaves the data socket and the control
    socket two different, existing objects if they were so before, however
    the method ends: connecting (with its roll-back), closing (even half
    way), acquiring a frame on either interface, and the commands. *)
Theorem sockets_stay_distinct (fuel : nat) (s : State) (f : Q) (g : Z) :
  sockets_distinct s ->
  sockets_distinct (snd (eth_connect fuel s))
  /\ sockets_distinct (snd (eth_close s))
  /\ sockets_distinct (snd (close s))
  /\ sockets_distinct (snd (get_iq_online fuel s))
  /\ sockets_distinct (snd (receive_iq_frame fuel s))
  /\ sockets_distinct (snd (ctr_iface_init s))
  /\ sockets_distinct (snd (set_center_freq f s))
  /\ sockets_distinct (snd (set_if_agc s))
  /\ sockets_distinct (snd (set_if_gain g s)).
Proof.
  intros Hs.
  destruct sockets_kept_commands as (C1 & C2 & C3 & C4 & _).
  pose proof sockets_distinct_eth_connect as HC.
  pose proof sockets_distinct_eth_close as HD.
  split; [apply HC, Hs|]. split; [apply HD, Hs|].
  split.
  { unfold close, bind. specialize (HD s Hs).
    destruct (eth_close s) as [[]s1]; exact HD. }
  split.
  { revert s Hs. change (Keeps keeps_sockets_distinct (get_iq_online fuel)).
    pose proof (sockets_kept_receive_iq_frame fuel) as HR.
    pose proof sockets_kept_read_shm_frame as HS.
    pose proof sockets_kept_external as HE.
    pose proof sockets_kept_emit as HM.
    open_get_iq_online.
    apply (Keeps_bind _ keeps_sockets_distinct_trans);
      [apply (Keeps_reads _ keeps_sockets_distinct_refl) | intros st].
    apply (Keeps_bind _ keeps_sockets_distinct_trans).
    - destruct st; cbn [negb];
        [apply (Keeps_ret _ keeps_sockets_distinct_refl) | apply HC].
    - intros fail. apply Keeps_sockets_kept_distinct.
      unfold wait_buff_free, sock_sendall, log.
      keeps sockets_kept_refl sockets_kept_trans. }
  split; [apply (sockets_kept_distinct _ _ (sockets_kept_receive_iq_frame fuel s) Hs)|].
  split; [apply (sockets_kept_distinct _ _ (C1 s) Hs)|].
  split; [apply (sockets_kept_distinct _ _ (C2 f s) Hs)|].
  split; [apply (sockets_kept_distinct _ _ (C3 s) Hs)|].
  apply (sockets_kept_distinct _ _ (C4 g s) Hs).
Qed.

End Sockets.

(** ** Construction and connection, in detail *)

(** X13.  The constructor returns a disconnected object with no channel
    count, two distinct new sockets and an empty sample array, also when
    the shared memory could not be opened: the failure is logged, the
    shared memory is destroyed, and the -1 of [init_data_iface] is
    dropped. *)
Theorem constructor_result (header0 : IQHeader) (iface : string) (w : World) :
  (iface = "shmem"%string -> shm_init_ok (env w) = false ->
   fault_plan (env w) (n_calls w) = None) ->
  let r := ReceiverRTLSDR_init header0 iface w in
  let n := next_obj w in
  fst r = Normal tt
  /\ sockets_distinct (snd r)
  /\ receiver_connection_status (self (snd r)) = false
  /\ M (self (snd r)) = 0%N
  /\ socket_inst (self (snd r)) = n
  /\ ctr_iface_socket (self (snd r)) = S n
  /\ iq_samples (self (snd r))
     = PyArr {| arr_id := S (S n); arr_dtype := float64; arr_shape := [0%N];
                arr_data := [] |}
  /\ trace (world (snd r))
     = trace w ++ [SockNew n]
       ++ (if String.eqb iface "shmem" && negb (shm_init_ok (env w))
           then [Log Critical; ShmDestroy] else [])
       ++ [SockNew (S n)].
Proof.
  intros Hf. cbv zeta.
  unfold ReceiverRTLSDR_init, init_data_iface. unfold_eff.
  destruct (String.eqb_spec iface "shmem") as [E|E]; cbn -[String.eqb].
  - destruct (shm_init_ok (env w)) eqn:Ei; cbn -[String.eqb].
    + unfold sockets_distinct. cbn. rewrite <- !app_assoc.
      repeat split; try lia.
    + rewrite (Hf E eq_refl). unfold sockets_distinct. cbn.
      rewrite <- !app_assoc. repeat split; try lia.
  - unfold sockets_distinct. cbn. rewrite <- !app_assoc. repeat split; try lia.
Qed.

Section ConnectionDetails.

Variable AUTO_GAIN_VALUE : Z.
Variable decode_header : IQHeader -> bytes -> result IQHeader.
Variable bytes_object_overhead : nat.

Local Abbreviation receive_iq_frame := (receive_iq_frame decode_header).
Local Abbreviation set_if_agc := (set_if_agc AUTO_GAIN_VALUE bytes_object_overhead).
Local Abbreviation set_if_gain := (set_if_gain AUTO_GAIN_VALUE bytes_object_overhead).
Local Abbreviation eth_connect_replay :=
  (eth_connect_replay AUTO_GAIN_VALUE bytes_object_overhead).
Local Abbreviation eth_connect_try :=
  (eth_connect_try AUTO_GAIN_VALUE decode_header bytes_object_overhead).
Local Abbreviation eth_connect :=
  (eth_connect AUTO_GAIN_VALUE decode_header bytes_object_overhead).
Local Abbreviation get_iq_online :=
  (get_iq_online AUTO_GAIN_VALUE decode_header bytes_object_overhead).

(** X14.  [eth_connect] on a client that is already connected makes no
    socket call and sends no command; it logs, puts one more [conn-ok] on
    the queue and returns [None]. *)
Theorem eth_connect_when_connected (fuel : nat) (s : State) :
  receiver_connection_status (self s) = true ->
  eth_connect fuel s
  = (Normal PyNone,
     {| self := self s;
        world := set_que (que (world s) ++ [[["conn-ok"%string]]])
                   (set_trace (trace (world s) ++ [Log Info]) (world s)) |}).
Proof.
  intros Hc.
  assert (E : eth_connect_try fuel s = (Normal tt, s)).
  { open_eth_connect_try. unfold bind at 1. unfold reads at 1. rewrite Hc.
    reflexivity. }
  rewrite (eth_connect_on_success AUTO_GAIN_VALUE decode_header
             bytes_object_overhead fuel s) by (rewrite E; reflexivity).
  rewrite E. reflexivity.
Qed.

Lemma py_int_inject_Z z : py_int (inject_Z z) = z.
Proof.
  unfold py_int. destruct (Qle_bool 0 (inject_Z z));
    [apply Qfloor_Z | apply Qceiling_Z].
Qed.

Lemma set_if_gain_auto g s :
  g = AUTO_GAIN_VALUE -> set_if_gain g s = set_if_agc s.
Proof. intros ->. open_set_if_gain. rewrite Z.eqb_refl. reflexivity. Qed.

(** After the replay the object is what it was, up to [daq_agc]. *)
Lemma eth_connect_replay_self s :
  receiver_connection_status (self s) = true ->
  forall b,
    set_daq_agc b (self (snd (eth_connect_replay s))) = set_daq_agc b (self s).
Proof.
  intros Hc b.
  rewrite (eth_connect_replays_cache AUTO_GAIN_VALUE bytes_object_overhead s).
  unfold bind at 1.
  pose proof (ctr_iface_init_self s) as Hi.
  destruct (ctr_iface_init s) as [[[]| | |] s1]; cbn [snd] in Hi;
    try (cbn [snd]; rewrite Hi; reflexivity).
  unfold bind at 1. unfold log, emit, modify_world.
  set (s2 := {| self := self s1;
                world := set_trace (trace (world s1) ++ [Log Info]) (world s1) |}).
  assert (H2 : receiver_connection_status (self s2) = true)
    by (cbn; rewrite Hi; exact Hc).
  unfold bind at 1.
  pose proof (set_center_freq_cache
                (inject_Z (daq_center_freq (self s))) s2 H2) as Hf.
  rewrite py_int_inject_Z in Hf.
  destruct (set_center_freq (inject_Z (daq_center_freq (self s))) s2)
    as [[[]| | |] s3]; cbn [snd] in Hf;
    try (cbn [snd]; rewrite Hf; cbn [self s2]; rewrite Hi; reflexivity).
  assert (H3 : receiver_connection_status (self s3) = true)
    by (rewrite Hf; cbn; rewrite Hi; exact Hc).
  destruct (Z.eq_dec (daq_rx_gain (self s)) AUTO_GAIN_VALUE) as [Eg|Eg].
  - rewrite (set_if_gain_auto _ s3 Eg).
    rewrite (set_if_agc_cache AUTO_GAIN_VALUE bytes_object_overhead s3 H3).
    rewrite Hf. cbn [self s2]. rewrite Hi, <- Eg. reflexivity.
  - rewrite (set_if_gain_cache AUTO_GAIN_VALUE bytes_object_overhead _ s3 H3 Eg).
    rewrite Hf. cbn [self s2]. rewrite Hi. reflexivity.
Qed.

(** X15.  The replay at the end of [eth_connect] leaves the cached
    frequency and gain as they were (they are sent, not changed), and
    touches nothing else in the object but [daq_agc]; when it completes,
    [daq_agc] tells whether the cached gain is [AUTO_GAIN_VALUE]. *)
Theorem eth_connect_replay_keeps_cache (s : State) :
  receiver_connection_status (self s) = true ->
  let s' := snd (eth_connect_replay s) in
  daq_center_freq (self s') = daq_center_freq (self s)
  /\ daq_rx_gain (self s') = daq_rx_gain (self s)
  /\ receiver_connection_status (self s') = true
  /\ M (self s') = M (self s)
  /\ iq_header (self s') = iq_header (self s)
  /\ iq_samples (self s') = iq_samples (self s)
  /\ (fst (eth_connect_replay s) = Normal tt ->
      daq_agc (self s') = (daq_rx_gain (self s) =? AUTO_GAIN_VALUE)).
Proof.
  intros Hc. cbv zeta.
  pose proof (eth_connect_replay_self s Hc true) as H.
  split; [exact (f_equal daq_center_freq H)|].
  split; [exact (f_equal daq_rx_gain H)|].
  split; [rewrite <- Hc; exact (f_equal receiver_connection_status H)|].
  split; [exact (f_equal M H)|].
  split; [exact (f_equal iq_header H)|].
  split; [exact (f_equal iq_samples H)|].
  clear H.
  rewrite (eth_connect_replays_cache AUTO_GAIN_VALUE bytes_object_overhead s).
  unfold bind at 1. unfold bind at 3.
  pose proof (ctr_iface_init_self s) as Hi.
  destruct (ctr_iface_init s) as [[[]| | |] s1]; cbn [snd] in Hi;
    try (cbn [fst]; discriminate).
  unfold bind at 1. unfold bind at 2. unfold log, emit, modify_world.
  set (s2 := {| self := self s1;
                world := set_trace (trace (world s1) ++ [Log Info]) (world s1) |}).
  assert (H2 : receiver_connection_status (self s2) = true)
    by (cbn; rewrite Hi; exact Hc).
  unfold bind at 1. unfold bind at 1.
  pose proof (set_center_freq_cache
                (inject_Z (daq_center_freq (self s))) s2 H2) as Hf.
  destruct (set_center_freq (inject_Z (daq_center_freq (self s))) s2)
    as [[[]| | |] s3]; cbn [snd] in Hf; try (cbn [fst]; discriminate).
  assert (H3 : receiver_connection_status (self s3) = true)
    by (rewrite Hf; cbn; rewrite Hi; exact Hc).
  intros _.
  destruct (Z.eqb_spec (daq_rx_gain (self s)) AUTO_GAIN_VALUE) as [Eg|Eg].
  - rewrite (set_if_gain_auto _ s3 Eg).
    rewrite (set_if_agc_cache AUTO_GAIN_VALUE bytes_object_overhead s3 H3).
    reflexivity.
  - rewrite (set_if_gain_cache AUTO_GAIN_VALUE bytes_object_overhead _ s3 H3 Eg).
    reflexivity.
Qed.

(** The first half of the connection on the Ethernet interface, with a
    header in flight: when it completes, the header of the object is the
    one decoded from the bytes received, and the channel count is taken
    from it. *)
Lemma eth_connect_open_eth fuel s hb rest h :
  data_interface (self s) = "eth"%string ->
  delivering (recv_plan (env (world s))) ->
  inbox (world s) = hb ++ rest ->
  length hb = N.to_nat (header_size (iq_header (self s))) ->
  decode_header (iq_header (self s)) hb = Ok h ->
  (length hb <= fuel)%nat ->
  fst (eth_connect_open decode_header fuel s) = Normal tt ->
  let s1 := snd (eth_connect_open decode_header fuel s) in
  receiver_connection_status (self s1) = true
  /\ iq_header (self s1) = h
  /\ M (self s1) = active_ant_chs h.
Proof.
  intros Hi Hp Hin Hh Hd Hf. cbv zeta. unfold eth_connect_open.
  pose (receive := receive_iq_frame fuel).
  pose proof (receive_iq_frame_stores_header decode_header fuel) as HR.
  change (receive_iq_frame fuel) with receive in HR |- *. clearbody receive.
  unfold_eff. rewrite Hi. cbn.
  destruct (fault_plan (env (world s)) (n_calls (world s))); cbn;
    [discriminate|].
  destruct (fault_plan (env (world s)) (S (n_calls (world s)))); cbn;
    [discriminate|].
  match goal with
  | |- context [receive ?st] =>
      specialize (HR st hb rest h Hp Hin Hh Hd Hf);
      destruct (receive st) as [[v|e| |] sr]
  end; cbn; try discriminate.
  cbn [snd] in HR.
  destruct (fault_plan (env (world sr)) (n_calls (world sr))); cbn;
    [discriminate|].
  intros _. rewrite HR. repeat split.
Qed.

(** X16.  When [eth_connect] succeeds on a disconnected Ethernet client
    whose data socket delivers the header bytes [hb], decoded as [h], the
    client is connected, the header of the object is [h] and the channel
    count [M] is the one [h] announces; [conn-ok] has been put on the
    queue, and the two sockets are the ones it had. *)
Theorem eth_connect_latches_channel_count (fuel : nat) (s : State)
    (hb rest : bytes) (h : IQHeader) :
  receiver_connection_status (self s) = false ->
  data_interface (self s) = "eth"%string ->
  delivering (recv_plan (env (world s))) ->
  inbox (world s) = hb ++ rest ->
  length hb = N.to_nat (header_size (iq_header (self s))) ->
  decode_header (iq_header (self s)) hb = Ok h ->
  (length hb <= fuel)%nat ->
  fst (eth_connect fuel s) = Normal PyNone ->
  let s' := snd (eth_connect fuel s) in
  receiver_connection_status (self s') = true
  /\ iq_header (self s') = h
  /\ M (self s') = active_ant_chs h
  /\ que (world s') = que (world s) ++ [[["conn-ok"%string]]]
  /\ socket_inst (self s') = socket_inst (self s)
  /\ ctr_iface_socket (self s') = ctr_iface_socket (self s).
Proof.
  intros Hc Hi Hp Hin Hh Hd Hf H. cbv zeta.
  destruct (Steady_eth_connect_try AUTO_GAIN_VALUE decode_header
              bytes_object_overhead fuel s) as [Hq _].
  destruct (sockets_kept_eth_connect_try AUTO_GAIN_VALUE decode_header
              bytes_object_overhead fuel s) as (Hs1 & Hs2 & _).
  destruct (eth_connect_try fuel s) as [[[]|e| |] st] eqn:E.
  - rewrite (eth_connect_on_success AUTO_GAIN_VALUE decode_header
               bytes_object_overhead fuel s) by (rewrite E; reflexivity).
    rewrite E. cbn [snd self world que set_que set_trace] in *.
    rewrite Hq.
    open_eth_connect_try_in E. unfold bind at 1 in E. unfold reads at 1 in E.
    rewrite Hc in E. cbn [negb] in E. unfold bind at 1 in E.
    pose proof (eth_connect_open_eth fuel s hb rest h Hi Hp Hin Hh Hd Hf) as Ho.
    destruct (eth_connect_open decode_header fuel s) as [[[]|e'| |] s1];
      try discriminate E.
    destruct (Ho eq_refl) as (Ho1 & Ho2 & Ho3). cbn [snd] in Ho1, Ho2, Ho3.
    pose proof (eth_connect_replay_self s1 Ho1 true) as Hr.
    rewrite E in Hr. cbn [snd] in Hr.
    split; [rewrite <- Ho1; exact (f_equal receiver_connection_status Hr)|].
    split.
    { rewrite (f_equal iq_header Hr : iq_header (self st) = iq_header (self s1)).
      exact Ho2. }
    split.
    { rewrite (f_equal M Hr : M (self st) = M (self s1)). exact Ho3. }
    auto.
  - rewrite (eth_connect_on_exception AUTO_GAIN_VALUE decode_header
               bytes_object_overhead fuel s e) in H by (rewrite E; reflexivity).
    discriminate H.
  - exfalso. revert H. open_eth_connect. unfold bind at 1. unfold try_except.
    unfold bind at 1. rewrite E. discriminate.
  - exfalso. revert H. open_eth_connect. unfold bind at 1. unfold try_except.
    unfold bind at 1. rewrite E. discriminate.
Qed.

(** X17.  On a connected client whose [data_interface] is neither ["eth"]
    nor ["shmem"], [get_iq_online] does nothing at all and returns
    [None]. *)
Theorem get_iq_online_unknown_interface (fuel : nat) (s : State) :
  receiver_connection_status (self s) = true ->
  data_interface (self s) <> "eth"%string ->
  data_interface (self s) <> "shmem"%string ->
  get_iq_online fuel s = (Normal PyNone, s).
Proof.
  intros Hc H1 H2. open_get_iq_online. unfold_eff. rewrite Hc. cbn.
  apply String.eqb_neq in H1, H2. rewrite H1, H2. reflexivity.
Qed.

End ConnectionDetails.

(** ** Frames over Ethernet, in detail *)

Section FrameDetails.

Variable AUTO_GAIN_VALUE : Z.
Variable decode_header : IQHeader -> bytes -> result IQHeader.
Variable bytes_object_overhead : nat.

Local Abbreviation receive_iq_frame := (receive_iq_frame decode_header).
Local Abbreviation receive_iq_payload := (receive_iq_payload decode_header).
Local Abbreviation get_iq_online :=
  (get_iq_online AUTO_GAIN_VALUE decode_header bytes_object_overhead).

(** A header that announces no payload: [receive_iq_frame] stores the
    header, returns the integer 0 and leaves what follows in flight. *)
Lemma receive_iq_frame_empty_payload fuel s hb rest h :
  delivering (recv_plan (env (world s))) ->
  inbox (world s) = hb ++ rest ->
  length hb = N.to_nat (header_size (iq_header (self s))) ->
  decode_header (iq_header (self s)) hb = Ok h ->
  incoming_payload_size_eth h = 0%N ->
  (length hb <= fuel)%nat ->
  exists r, (r <= length hb)%nat /\
    receive_iq_frame fuel s
    = (Normal (PyInt 0),
       {| self := set_iq_header h (self s);
          world := set_inbox rest
                     (set_n_reads (n_reads (world s) + r)
                        (set_trace (trace (world s) ++ [Log Debug]) (world s))) |}).
Proof.
  intros Hp Hi Hh Hd Hz Hf.
  destruct (receive_iq_frame_header decode_header fuel s hb rest Hp Hi Hh Hf)
    as (r & Hr & E).
  exists r. split; [exact Hr|]. rewrite E.
  open_receive_iq_payload. unfold_eff. cbn [self]. rewrite Hd, Hz. reflexivity.
Qed.

(** X18.  When the DAQ answers [IQDownload] with a header that announces
    an empty payload, [get_iq_online] replaces the sample array by the
    integer 0 (what [receive_iq_frame] returns in that case), stores the
    header and returns [None]; the bytes that follow the header stay in
    flight. *)
Theorem get_iq_online_empty_payload (fuel : nat) (s : State)
    (hb rest : bytes) (h : IQHeader) :
  receiver_connection_status (self s) = true ->
  data_interface (self s) = "eth"%string ->
  fault_plan (env (world s)) (n_calls (world s)) = None ->
  delivering (recv_plan (env (world s))) ->
  inbox (world s) = hb ++ rest ->
  length hb = N.to_nat (header_size (iq_header (self s))) ->
  decode_header (iq_header (self s)) hb = Ok h ->
  incoming_payload_size_eth h = 0%N ->
  (length hb <= fuel)%nat ->
  let s' := snd (get_iq_online fuel s) in
  fst (get_iq_online fuel s) = Normal PyNone
  /\ iq_samples (self s') = PyInt 0
  /\ iq_header (self s') = h
  /\ inbox (world s') = rest
  /\ trace (world s')
     = trace (world s)
       ++ [SockSendAll (socket_inst (self s)) (encode "IQDownload"); Log Debug].
Proof.
  intros Hc Hi Hf Hp Hin Hh Hd Hz Hfu. cbv zeta.
  open_get_iq_online.
  pose (receive := receive_iq_frame fuel).
  pose proof (receive_iq_frame_empty_payload fuel) as HR.
  change (receive_iq_frame fuel) with receive in HR |- *. clearbody receive.
  unfold_eff. rewrite Hc. cbn. rewrite Hi. cbn. rewrite Hf. cbn.
  match goal with
  | |- context [receive ?st] =>
      destruct (HR st hb rest h) as (r & _ & E); try assumption
  end.
  rewrite E. cbn. rewrite <- app_assoc. repeat split.
Qed.

Lemma store_iq_frame_small_samples h hb pb extra s :
  sample_bit_depth h = 8%N \/ sample_bit_depth h = 16%N ->
  (0 < active_ant_chs h * cpi_length h)%N ->
  length pb = N.to_nat (incoming_payload_size_eth h) ->
  fst (store_iq_frame h hb (pb ++ extra) (length pb) s) = Raised ValueError
  /\ self (snd (store_iq_frame h hb (pb ++ extra) (length pb) s)) = self s
  /\ inbox (world (snd (store_iq_frame h hb (pb ++ extra) (length pb) s)))
     = inbox (world s).
Proof.
  intros Hd Hk Hl.
  rewrite payload_size_paths_agree in Hl. unfold incoming_payload_size_shmem in Hl.
  rewrite (N.mul_comm (cpi_length h)) in Hl.
  assert (Hne : (active_ant_chs h * (cpi_length h * 1)
                 =? N.of_nat (length pb / 8) * 1)%N = false).
  { apply N.eqb_neq. rewrite Hl, !N.mul_1_r.
    generalize dependent (active_ant_chs h * cpi_length h)%N. intros k Hk _.
    destruct Hd as [-> | ->].
    - change (8 / 8)%N with 1%N.
      assert (N.to_nat (k * 2 * 1) / 8 < N.to_nat k)%nat
        by (apply Nat.Div0.div_lt_upper_bound; lia).
      lia.
    - change (16 / 8)%N with 2%N.
      assert (N.to_nat (k * 2 * 2) / 8 < N.to_nat k)%nat
        by (apply Nat.Div0.div_lt_upper_bound; lia).
      lia. }
  unfold store_iq_frame, np_frombuffer, np_reshape.
  rewrite firstn_app, Nat.sub_diag, firstn_all. cbn [firstn]. rewrite app_nil_r.
  unfold_eff.
  destruct (length pb mod 8 =? 0)%nat; [|repeat split].
  cbn [arr_shape fold_right]. rewrite Hne. repeat split.
Qed.

(** X19.  Frames whose samples are 8 or 16 bits wide cannot be received
    over Ethernet: the payload is read, but it does not fill an array of
    [complex64] of the announced shape, so [receive_iq_frame] raises
    [ValueError].  The header has been stored; the sample array is the one
    of the previous frame. *)
Theorem receive_iq_frame_small_samples (fuel : nat) (s : State)
    (hb pb : bytes) (h : IQHeader) :
  delivering (recv_plan (env (world s))) ->
  inbox (world s) = hb ++ pb ->
  length hb = N.to_nat (header_size (iq_header (self s))) ->
  decode_header (iq_header (self s)) hb = Ok h ->
  sample_bit_depth h = 8%N \/ sample_bit_depth h = 16%N ->
  (0 < active_ant_chs h * cpi_length h)%N ->
  length pb = N.to_nat (incoming_payload_size_eth h) ->
  (length hb <= fuel)%nat ->
  (length pb <= fuel)%nat ->
  let s' := snd (receive_iq_frame fuel s) in
  fst (receive_iq_frame fuel s) = Raised ValueError
  /\ iq_header (self s') = h
  /\ iq_samples (self s') = iq_samples (self s)
  /\ iq_frame_bytes (self s') = iq_frame_bytes (self s)
  /\ inbox (world s') = [].
Proof.
  intros Hp Hi Hh Hd Hb Hk Hl Hf1 Hf2. cbv zeta.
  destruct (receive_iq_frame_exact decode_header fuel s hb pb h)
    as (r & _ & E); try assumption.
  rewrite E. unfold frame_of_bytes.
  replace (0 <? incoming_payload_size_eth h)%N with true.
  2:{ symmetry. apply N.ltb_lt.
      rewrite payload_size_paths_agree. unfold incoming_payload_size_shmem.
      rewrite (N.mul_comm (cpi_length h)).
      destruct Hb as [-> | ->];
        [change (8 / 8)%N with 1%N | change (16 / 8)%N with 2%N]; lia. }
  match goal with
  | |- context [store_iq_frame h hb (pb ++ ?x) (length pb) ?st] =>
      destruct (store_iq_frame_small_samples h hb pb x st Hb Hk Hl)
        as (R1 & R2 & R3)
  end.
  cbn [fst snd on_world self world inbox set_n_reads].
  rewrite R1, R2, R3. repeat split.
Qed.

(** X20.  A received frame of 32-bit samples is kept three times over:
    the decoded header in [iq_header], the payload as the data of the
    array the call returns and binds to [iq_samples], and the raw bytes in
    [iq_frame_bytes], which is the header, the payload and the whole unused
    tail of the reception buffer, [receiver_buffer_size] zero bytes.  The
    samples are also written to the text file, and nothing is left in
    flight. *)
Theorem receive_iq_frame_stores_frame (fuel : nat) (s : State)
    (hb pb : bytes) (h : IQHeader) :
  delivering (recv_plan (env (world s))) ->
  inbox (world s) = hb ++ pb ->
  length hb = N.to_nat (header_size (iq_header (self s))) ->
  decode_header (iq_header (self s)) hb = Ok h ->
  sample_bit_depth h = 32%N ->
  (0 < active_ant_chs h * cpi_length h)%N ->
  length pb = N.to_nat (incoming_payload_size_eth h) ->
  (length hb <= fuel)%nat ->
  (length pb <= fuel)%nat ->
  fault_plan (env (world s)) (n_calls (world s)) = None ->
  let s' := snd (receive_iq_frame fuel s) in
  let a := {| arr_id := S (next_obj (world s)); arr_dtype := complex64;
              arr_shape := [active_ant_chs h; cpi_length h];
              arr_data := pb |} in
  fst (receive_iq_frame fuel s) = Normal (PyArr a)
  /\ iq_samples (self s') = PyArr a
  /\ iq_header (self s') = h
  /\ iq_frame_bytes (self s')
     = Some (hb ++ pb ++ repeat x00 receiver_buffer_size)
  /\ length (hb ++ pb ++ repeat x00 receiver_buffer_size)
     = (length hb + length pb + receiver_buffer_size)%nat
  /\ inbox (world s') = []
  /\ trace (world s')
     = trace (world s)
       ++ [Log Debug; Log Debug; Log Debug; FileWrite "iq_samples.txt"].
Proof.
  intros Hp Hi Hh Hd H32 Hk Hl Hf1 Hf2 Hf. cbv zeta.
  destruct (receive_iq_frame_exact decode_header fuel s hb pb h)
    as (r & _ & E); try assumption.
  rewrite E. unfold frame_of_bytes.
  replace (0 <? incoming_payload_size_eth h)%N with true
    by (symmetry; apply N.ltb_lt; pose proof (payload_size_32 h H32); lia).
  match goal with
  | |- context [store_iq_frame h hb (pb ++ ?x) (length pb) ?st] =>
      rewrite (store_iq_frame_state h hb pb x st H32 Hl Hf)
  end.
  cbn -[repeat receiver_buffer_size].
  rewrite <- !app_assoc.
  repeat split.
  rewrite !length_app, repeat_length. lia.
Qed.

(** A loop whose first read brings all it waits for, and possibly more,
    ends after that read. *)
Lemma recv_loop_one_read fuel request need buf data c s :
  (1 <= fuel)%nat ->
  inbox (world s) = data ->
  recv_plan (env (world s)) (n_reads (world s)) = Deliver c ->
  (length data <= c)%nat ->
  (length data <= request 0)%nat ->
  (request 0 <= length buf)%nat ->
  (0 < need <= length data)%nat ->
  recv_loop fuel request need buf 0 0 s
  = (Normal (blit buf 0 data),
     {| self := self s;
        world := set_inbox [] (set_n_reads (S (n_reads (world s))) (world s)) |}).
Proof.
  intros Hfu Hi Hp Hc Hr Hb Hn.
  destruct fuel as [|fuel]; [lia|]. cbn [recv_loop].
  replace (0 <? need)%nat with true by (symmetry; apply Nat.ltb_lt; lia).
  unfold bind.
  rewrite (recv_into_deliver s _ _ c Hp) by lia.
  rewrite Hi, firstn_all2 by lia. rewrite skipn_all. cbn [Nat.add].
  destruct fuel; cbn [recv_loop];
    replace (length data <? need)%nat with false
      by (symmetry; apply Nat.ltb_ge; lia);
    reflexivity.
Qed.

(** X21.  The payload loop asks for [receiver_buffer_size] bytes at each
    read, whatever is still owed.  When the bytes that follow the frame are
    already in flight and the transport hands them over with the payload,
    [receive_iq_frame] takes them too: nothing is left in flight, the
    samples are the payload alone, and the bytes that followed end up in
    [iq_frame_bytes] only. *)
Theorem receive_iq_frame_reads_past_the_frame (fuel : nat) (s : State)
    (hb pb rest : bytes) (h : IQHeader) :
  (forall k, exists c,
      recv_plan (env (world s)) k = Deliver c
      /\ (length pb + length rest <= c)%nat /\ (1 <= c)%nat) ->
  inbox (world s) = hb ++ pb ++ rest ->
  length hb = N.to_nat (header_size (iq_header (self s))) ->
  decode_header (iq_header (self s)) hb = Ok h ->
  sample_bit_depth h = 32%N ->
  (0 < active_ant_chs h * cpi_length h)%N ->
  length pb = N.to_nat (incoming_payload_size_eth h) ->
  (length pb + length rest <= receiver_buffer_size)%nat ->
  (length hb <= fuel)%nat ->
  (1 <= fuel)%nat ->
  fault_plan (env (world s)) (n_calls (world s)) = None ->
  let s' := snd (receive_iq_frame fuel s) in
  let a := {| arr_id := S (next_obj (world s)); arr_dtype := complex64;
              arr_shape := [active_ant_chs h; cpi_length h];
              arr_data := pb |} in
  fst (receive_iq_frame fuel s) = Normal (PyArr a)
  /\ iq_samples (self s') = PyArr a
  /\ inbox (world s') = []
  /\ iq_frame_bytes (self s')
     = Some (hb ++ pb ++ rest
             ++ repeat x00 (length pb + receiver_buffer_size
                            - (length pb + length rest))).
Proof.
  intros Hp Hi Hh Hd H32 Hk Hl Hrb Hf1 Hf2 Hf. cbv zeta.
  enough (HE : exists st,
             receive_iq_frame fuel s
             = (Normal (PyArr {| arr_id := S (next_obj (world s));
                                 arr_dtype := complex64;
                                 arr_shape := [active_ant_chs h; cpi_length h];
                                 arr_data := pb |}), st)
             /\ iq_samples (self st)
                = PyArr {| arr_id := S (next_obj (world s));
                           arr_dtype := complex64;
                           arr_shape := [active_ant_chs h; cpi_length h];
                           arr_data := pb |}
             /\ inbox (world st) = []
             /\ iq_frame_bytes (self st)
                = Some (hb ++ pb ++ rest
                        ++ repeat x00 (length pb + receiver_buffer_size
                                       - (length pb + length rest))))
    by (destruct HE as (st & E & E1 & E2 & E3); rewrite E; auto).
  assert (Hdel : delivering (recv_plan (env (world s)))).
  { intros k. destruct (Hp k) as (c & Hc & _ & Hc1). exists c. auto. }
  destruct (receive_iq_frame_header decode_header fuel s hb (pb ++ rest)
              Hdel Hi Hh Hf1)
    as (r & _ & E).
  rewrite E. clear E.
  open_receive_iq_payload.
  unfold bind at 1. unfold reads at 1. cbn [self].
  unfold bind at 1. rewrite Hd. unfold lift at 1. unfold ret at 1.
  unfold bind at 1. unfold modify at 1. cbn [self world].
  assert (Hpos : (0 < length pb)%nat)
    by (rewrite Hl, (payload_size_32 h H32); lia).
  replace (0 <? incoming_payload_size_eth h)%N with true
    by (symmetry; apply N.ltb_lt; lia).
  unfold bind at 1. unfold log, emit, modify_world.
  unfold bind at 1. rewrite <- Hl.
  match goal with
  | |- context [recv_loop fuel ?rq (length pb) ?b 0 0 ?st] =>
      destruct (Hp (n_reads (world st))) as (c & Hc & Hc1 & _);
      rewrite (recv_loop_one_read fuel rq (length pb) b (pb ++ rest) c st)
  end; try assumption; try reflexivity;
    try (rewrite ?length_app, ?repeat_length; lia).
  replace (repeat x00 (length pb + receiver_buffer_size))
    with (repeat x00 (length (pb ++ rest)
                      + (length pb + receiver_buffer_size
                         - (length pb + length rest))))
    by (f_equal; rewrite length_app; lia).
  rewrite (blit_zeros _ _ (pb ++ rest) eq_refl).
  rewrite <- app_assoc.
  match goal with
  | |- context [store_iq_frame h hb (pb ++ ?x) (length pb) ?st] =>
      rewrite (store_iq_frame_state h hb pb x st H32 Hl Hf)
  end.
  eexists. split; [reflexivity|].
  cbn -[repeat receiver_buffer_size]. repeat split.
Qed.

End FrameDetails.

(** ** Frames over shared memory, in detail *)

Section SharedMemoryDetails.

Variable AUTO_GAIN_VALUE : Z.
Variable decode_header : IQHeader -> bytes -> result IQHeader.
Variable bytes_object_overhead : nat.

Local Abbreviation read_shm_frame := (read_shm_frame decode_header).
Local Abbreviation get_iq_online :=
  (get_iq_online AUTO_GAIN_VALUE decode_header bytes_object_overhead).

(** On a connected shared-memory client, [get_iq_online] waits for a slot
    and, when it is granted slot 0 or 1, reads the frame from it. *)
Lemma get_iq_online_granted fuel s i :
  receiver_connection_status (self s) = true ->
  data_interface (self s) = "shmem"%string ->
  shm_signal (env (world s)) (n_waits (world s)) = i ->
  i = 0 \/ i = 1 ->
  get_iq_online fuel s
  = read_shm_frame i
      {| self := self s;
         world := set_trace (trace (world s) ++ [ShmWait i])
                    (set_n_waits (S (n_waits (world s))) (world s)) |}.
Proof.
  intros Hc Hi Hs Hr. open_get_iq_online.
  pose (read := read_shm_frame).
  change read_shm_frame with read. clearbody read.
  unfold wait_buff_free. unfold_eff.
  rewrite Hc. cbn. rewrite Hi. cbn. rewrite Hs.
  replace ((i <? 0) || (1 <? i)) with false
    by (clear Hs; destruct Hr as [-> | ->]; reflexivity).
  reflexivity.
Qed.

(** X22.  A frame of 32-bit samples granted in slot 0 or 1: the header is
    decoded from the first 1024 bytes of the slot, the channel count [M] is
    taken from it only if no channel count was known, the samples of the
    slot are copied into the sample array, and the slot is given back once,
    after the copy, as the last call. *)
Theorem get_iq_online_shared_memory_frame (fuel : nat) (s : State) (i : Z)
    (h : IQHeader) (a0 : ndarray) :
  receiver_connection_status (self s) = true ->
  data_interface (self s) = "shmem"%string ->
  shm_signal (env (world s)) (n_waits (world s)) = i ->
  i = 0 \/ i = 1 ->
  let buffer := shm_slot (env (world s)) (S (n_waits (world s))) i in
  let window :=
    firstn (N.to_nat (incoming_payload_size_shmem h)) (skipn 1024 buffer) in
  decode_header (iq_header (self s)) (firstn 1024 buffer) = Ok h ->
  sample_bit_depth h = 32%N ->
  length window = N.to_nat (incoming_payload_size_shmem h) ->
  iq_samples (self s) = PyArr a0 ->
  fault_plan (env (world s)) (n_calls (world s)) = None ->
  let s' := snd (get_iq_online fuel s) in
  fst (get_iq_online fuel s) = Normal PyNone
  /\ iq_header (self s') = h
  /\ M (self s') = (if (M (self s) =? 0)%N then active_ant_chs h else M (self s))
  /\ (exists a1,
        iq_samples (self s') = PyArr a1
        /\ arr_shape a1 = [active_ant_chs h; cpi_length h]
        /\ arr_data a1 = window)
  /\ trace (world s')
     = trace (world s) ++ [ShmWait i; ShmBuffer i; ShmReady i].
Proof.
  cbv zeta. intros Hc Hi Hs Hr Hd H32 Hl Ha Hf.
  rewrite (get_iq_online_granted fuel s i Hc Hi Hs Hr).
  assert (Hn : N.to_nat (incoming_payload_size_shmem h)
               = (8 * N.to_nat (active_ant_chs h * cpi_length h))%nat).
  { rewrite <- payload_size_paths_agree. apply payload_size_32. exact H32. }
  open_read_shm_frame;
    unfold shm_buffer, shm_payload_view, np_reshape, np_empty.
  unfold_eff. cbn [self world set_trace n_waits env set_n_waits]. rewrite Hd.
  cbn [self world set_iq_header iq_header M].
  set (window := firstn (N.to_nat (incoming_payload_size_shmem h))
                   (skipn 1024
                      (shm_slot (env (world s)) (S (n_waits (world s))) i)))
    in *.
  assert (Hmod : (length window mod 8 =? 0)%nat = true).
  { apply Nat.eqb_eq. rewrite Hl, Hn, Nat.mul_comm. apply Nat.Div0.mod_mul. }
  assert (Hdiv : (length window / 8)%nat
                 = N.to_nat (active_ant_chs h * cpi_length h)).
  { rewrite Hl, Hn, Nat.mul_comm, Nat.div_mul; [reflexivity | discriminate]. }
  assert (Hshape : (active_ant_chs h * (cpi_length h * 1)
                    =? N.of_nat (length window / 8) * 1)%N = true).
  { apply N.eqb_eq. rewrite Hdiv, N2Nat.id. lia. }
  destruct (M (self s) =? 0)%N;
    cbn [self world set_M iq_samples];
    rewrite Hmod; cbn [arr_shape fold_right self world]; rewrite Hshape;
    cbn [self world set_M set_iq_header iq_samples]; rewrite Ha;
    unfold shape_eqb;
    (destruct (list_eq_dec N.eq_dec (arr_shape a0)
                 [active_ant_chs h; cpi_length h]) as [Heq|Hne];
     cbn; rewrite Hf; cbn; rewrite <- !app_assoc;
     (split; [reflexivity|]); (split; [reflexivity|]); (split; [reflexivity|]);
     (split; [|reflexivity]);
     eexists; (split; [reflexivity|]); cbn; auto).
Qed.

(** X23.  When the header of a granted slot cannot be decoded, the
    exception of the decoder leaves [get_iq_online] with the slot still
    held: the buffer was read, [send_ctr_buff_ready] is not called, and the
    object is unchanged. *)
Theorem get_iq_online_undecodable_header (fuel : nat) (s : State) (i : Z)
    (e : exn) :
  receiver_connection_status (self s) = true ->
  data_interface (self s) = "shmem"%string ->
  shm_signal (env (world s)) (n_waits (world s)) = i ->
  i = 0 \/ i = 1 ->
  decode_header (iq_header (self s))
    (firstn 1024 (shm_slot (env (world s)) (S (n_waits (world s))) i)) = Err e ->
  get_iq_online fuel s
  = (Raised e,
     {| self := self s;
        world := set_trace (trace (world s) ++ [ShmWait i; ShmBuffer i])
                   (set_n_waits (S (n_waits (world s))) (world s)) |}).
Proof.
  intros Hc Hi Hs Hr Hd.
  rewrite (get_iq_online_granted fuel s i Hc Hi Hs Hr).
  open_read_shm_frame; unfold shm_buffer. unfold_eff.
  cbn [self world set_trace n_waits env set_n_waits]. rewrite Hd.
  cbn. rewrite <- app_assoc. reflexivity.
Qed.

End SharedMemoryDetails.

(** ** Worked examples of the further properties *)

Lemma commands_dropped_when_disconnected_witness :
  set_if_gain Sample.AUTO_GAIN_VALUE cpython64_bytes_overhead 14
    (Sample.created "eth" Sample.quiet [])
  = (Normal tt, Sample.created "eth" Sample.quiet []).
Proof.
  exact (proj2 (proj2 (proj2
           (commands_dropped_when_disconnected Sample.AUTO_GAIN_VALUE
              cpython64_bytes_overhead (Sample.created "eth" Sample.quiet [])
              (433500000 # 1) 14 eq_refl)))).
Defined.

Lemma set_center_freq_frame_witness :
  threads (world (snd (set_center_freq (867000001 # 2)
                         (Sample.connected "shmem" Sample.quiet [] 5))))
  = [] ++ [encode "FREQ" ++ le_bytes 8 (py_int (867000001 # 2)) ++ repeat x00 116].
Proof.
  assert (H : 0 <= py_int (867000001 # 2) < 2 ^ 64)
    by (vm_compute; split; [discriminate | reflexivity]).
  exact (proj1 (proj2
           (set_center_freq_frame (Sample.connected "shmem" Sample.quiet [] 5)
              (867000001 # 2) eq_refl H eq_refl))).
Defined.

Lemma set_center_freq_out_of_range_witness :
  fst (set_center_freq (-1 # 1) (Sample.connected "shmem" Sample.quiet [] 5))
  = Raised StructError.
Proof.
  assert (H : ~ 0 <= py_int (-1 # 1) < 2 ^ 64)
    by (vm_compute; intros [H _]; apply H; reflexivity).
  exact (f_equal fst
           (set_center_freq_out_of_range
              (Sample.connected "shmem" Sample.quiet [] 5) (-1 # 1) eq_refl H)).
Defined.

Lemma set_if_gain_frame_witness :
  daq_rx_gain
    (self (snd (set_if_gain Sample.AUTO_GAIN_VALUE cpython64_bytes_overhead 14
                  (Sample.connected "shmem" Sample.quiet [] 5)))) = 14.
Proof.
  assert (H1 : 14 <> Sample.AUTO_GAIN_VALUE) by discriminate.
  assert (H2 : (M (self (Sample.connected "shmem" Sample.quiet [] 5)) <= 31)%N)
    by (vm_compute; discriminate).
  assert (H3 : 0 <= 14 * 10 < 2 ^ 32) by lia.
  pose proof (set_if_gain_frame Sample.AUTO_GAIN_VALUE cpython64_bytes_overhead
                (Sample.connected "shmem" Sample.quiet [] 5) 14
                eq_refl H1 H2 H3 eq_refl) as H.
  cbv zeta in H. exact (proj1 (proj2 (proj2 (proj2 (proj2 H))))).
Defined.

Lemma set_if_gain_too_many_channels_witness :
  fst (set_if_gain Sample.AUTO_GAIN_VALUE cpython64_bytes_overhead 14
         (Sample.connected "shmem" Sample.quiet [] 40))
  = Raised ValueError
  /\ fst (set_if_gain Sample.AUTO_GAIN_VALUE cpython64_bytes_overhead (-5)
            (Sample.connected "shmem" Sample.quiet [] 40))
     = Raised StructError.
Proof.
  assert (H : (31 < M (self (Sample.connected "shmem" Sample.quiet [] 40)))%N)
    by (vm_compute; reflexivity).
  exact (conj
           (f_equal fst
              (set_if_gain_too_many_channels Sample.AUTO_GAIN_VALUE
                 cpython64_bytes_overhead
                 (Sample.connected "shmem" Sample.quiet [] 40) 14 eq_refl H))
           (f_equal fst
              (set_if_gain_too_many_channels Sample.AUTO_GAIN_VALUE
                 cpython64_bytes_overhead
                 (Sample.connected "shmem" Sample.quiet [] 40) (-5) eq_refl H))).
Defined.

Lemma set_if_gain_out_of_range_witness :
  fst (set_if_gain Sample.AUTO_GAIN_VALUE cpython64_bytes_overhead (-5)
         (Sample.connected "shmem" Sample.quiet [] 5))
  = Raised StructError.
Proof.
  assert (H1 : -5 <> Sample.AUTO_GAIN_VALUE) by discriminate.
  assert (H2 : (0 < M (self (Sample.connected "shmem" Sample.quiet [] 5)))%N)
    by (vm_compute; reflexivity).
  assert (H3 : ~ 0 <= -5 * 10 < 2 ^ 32) by lia.
  exact (f_equal fst
           (set_if_gain_out_of_range Sample.AUTO_GAIN_VALUE
              cpython64_bytes_overhead
              (Sample.connected "shmem" Sample.quiet [] 5) (-5) eq_refl H1 H2 H3)).
Defined.

Lemma ctr_iface_communication_round_trip_witness :
  que (world (snd (ctr_iface_communication Sample.utf8_decodable
                     (encode "INIT" ++ repeat x00 124)
                     (Sample.connected "shmem" Sample.quiet [] 5))))
  = (if bytes_eqb (firstn 4 (firstn 128 (encode "FNSD"))) (encode "FNSD")
     then [] ++ [[["config-ok"%string]]] else []).
Proof.
  pose proof (ctr_iface_communication_round_trip Sample.utf8_decodable
                (encode "INIT" ++ repeat x00 124)
                (Sample.connected "shmem" Sample.quiet [] 5)
                eq_refl eq_refl eq_refl eq_refl) as H.
  cbv zeta in H. exact (proj1 (proj2 (proj2 (proj2 (proj2 H))))).
Defined.

Lemma ctr_iface_communication_failure_keeps_lock_witness :
  fst (ctr_iface_communication Sample.utf8_decodable
         (encode "INIT" ++ repeat x00 124)
         (Sample.connected "shmem" (Sample.failing_at 0 Sample.quiet) [] 5))
  = Raised OSError.
Proof.
  pose proof (ctr_iface_communication_failure_keeps_lock Sample.utf8_decodable
                (encode "INIT" ++ repeat x00 124) []
                (Sample.connected "shmem" (Sample.failing_at 0 Sample.quiet) [] 5)
                OSError eq_refl (or_introl eq_refl)) as H.
  cbv zeta in H. exact (proj1 H).
Defined.

Lemma eth_close_when_disconnected_witness :
  fst (eth_close (Sample.created "eth" Sample.quiet [])) = Normal (PyInt 0).
Proof.
  pose proof (eth_close_when_disconnected (Sample.created "eth" Sample.quiet [])
                eq_refl (fun _ => eq_refl)) as H.
  cbv zeta in H. exact (proj1 H).
Defined.

Lemma eth_close_ethernet_witness :
  fst (eth_close (Sample.connected "eth" Sample.quiet [] 5)) = Normal (PyInt 0).
Proof.
  pose proof (eth_close_ethernet (Sample.connected "eth" Sample.quiet [] 5)
                eq_refl eq_refl (fun _ _ => eq_refl)) as H.
  cbv zeta in H. exact (proj1 H).
Defined.

Lemma eth_close_shared_memory_witness :
  fst (eth_close (Sample.connected "shmem" Sample.quiet [] 5)) = Normal (PyInt 0).
Proof.
  pose proof (eth_close_shared_memory (Sample.connected "shmem" Sample.quiet [] 5)
                eq_refl eq_refl (fun _ _ => eq_refl)) as H.
  cbv zeta in H. exact (proj1 H).
Defined.

Lemma sockets_stay_distinct_witness :
  sockets_distinct
    (snd (eth_connect Sample.AUTO_GAIN_VALUE Sample.decode_header
            cpython64_bytes_overhead 20
            (Sample.created "eth" (Sample.failing_at 0 Sample.quiet) [])))
  /\ sockets_distinct
       (snd (eth_close
               (Sample.created "eth" (Sample.failing_at 0 Sample.quiet) []))).
Proof.
  assert (H : sockets_distinct
                (Sample.created "eth" (Sample.failing_at 0 Sample.quiet) []))
    by (vm_compute; repeat split; try lia; discriminate).
  pose proof (sockets_stay_distinct Sample.AUTO_GAIN_VALUE Sample.decode_header
                cpython64_bytes_overhead 20 _ (1 # 1) 0 H) as (H1 & H2 & _).
  exact (conj H1 H2).
Defined.

Lemma constructor_result_witness :
  trace (world (snd (ReceiverRTLSDR_init Sample.header0 "shmem"
                       (Sample.world0 Sample2.no_shared_memory []))))
  = [] ++ [SockNew 0]
    ++ (if String.eqb "shmem" "shmem" && negb false
        then [Log Critical; ShmDestroy] else [])
    ++ [SockNew 1].
Proof.
  pose proof (constructor_result Sample.header0 "shmem"
                (Sample.world0 Sample2.no_shared_memory [])
                (fun _ _ => eq_refl)) as H.
  cbv zeta in H.
  exact (proj2 (proj2 (proj2 (proj2 (proj2 (proj2 (proj2 H))))))).
Defined.

Lemma eth_connect_when_connected_witness :
  fst (eth_connect Sample.AUTO_GAIN_VALUE Sample.decode_header
         cpython64_bytes_overhead 20
         (Sample.connected "eth" Sample.quiet [] 5)) = Normal PyNone.
Proof.
  exact (f_equal fst
           (eth_connect_when_connected Sample.AUTO_GAIN_VALUE Sample.decode_header
              cpython64_bytes_overhead 20
              (Sample.connected "eth" Sample.quiet [] 5) eq_refl)).
Defined.

Lemma eth_connect_replay_keeps_cache_witness :
  daq_center_freq
    (self (snd (eth_connect_replay Sample.AUTO_GAIN_VALUE cpython64_bytes_overhead
                  (Sample.connected "shmem" Sample.quiet [] 5))))
  = daq_center_freq (self (Sample.connected "shmem" Sample.quiet [] 5)).
Proof.
  pose proof (eth_connect_replay_keeps_cache Sample.AUTO_GAIN_VALUE
                cpython64_bytes_overhead
                (Sample.connected "shmem" Sample.quiet [] 5) eq_refl) as H.
  cbv zeta in H. exact (proj1 H).
Defined.

Lemma eth_connect_latches_channel_count_witness :
  let s' := snd (eth_connect Sample.AUTO_GAIN_VALUE Sample.decode_header
                   cpython64_bytes_overhead 20
                   (Sample.created "eth" Sample.quiet Sample.frame1)) in
  iq_header (self s')
  = {| header_size := 4; active_ant_chs := 1; cpi_length := 1;
       sample_bit_depth := 32 |}
  /\ M (self s') = 1%N.
Proof.
  cbv zeta.
  assert (H0 : fst (eth_connect Sample.AUTO_GAIN_VALUE Sample.decode_header
                      cpython64_bytes_overhead 20
                      (Sample.created "eth" Sample.quiet Sample.frame1))
               = Normal PyNone) by (vm_compute; reflexivity).
  assert (Hp : delivering
                 (recv_plan
                    (env (world (Sample.created "eth" Sample.quiet Sample.frame1)))))
    by (intros k; exists 1%nat; split; [reflexivity | lia]).
  assert (Hf : (length [x01; x01; x20; x00] <= 20)%nat) by (cbn; lia).
  pose proof (eth_connect_latches_channel_count Sample.AUTO_GAIN_VALUE
                Sample.decode_header cpython64_bytes_overhead 20
                (Sample.created "eth" Sample.quiet Sample.frame1)
                [x01; x01; x20; x00] [x0a; x0b; x0c; x0d; x01; x02; x03; x04]
                {| header_size := 4; active_ant_chs := 1; cpi_length := 1;
                   sample_bit_depth := 32 |}
                eq_refl eq_refl Hp eq_refl eq_refl eq_refl Hf H0) as H.
  cbv zeta in H. exact (conj (proj1 (proj2 H)) (proj1 (proj2 (proj2 H)))).
Defined.

Lemma get_iq_online_unknown_interface_witness :
  fst (get_iq_online Sample.AUTO_GAIN_VALUE Sample.decode_header
         cpython64_bytes_overhead 20
         (Sample.connected "file" Sample.quiet [] 5)) = Normal PyNone.
Proof.
  assert (H1 : data_interface (self (Sample.connected "file" Sample.quiet [] 5))
               <> "eth"%string) by (vm_compute; discriminate).
  assert (H2 : data_interface (self (Sample.connected "file" Sample.quiet [] 5))
               <> "shmem"%string) by (vm_compute; discriminate).
  exact (f_equal fst
           (get_iq_online_unknown_interface Sample.AUTO_GAIN_VALUE
              Sample.decode_header cpython64_bytes_overhead 20
              (Sample.connected "file" Sample.quiet [] 5) eq_refl H1 H2)).
Defined.

Lemma sample_quiet_delivering iface data m :
  delivering (recv_plan (env (world (Sample.connected iface Sample.quiet data m)))).
Proof.
  intros k. exists 1%nat. split.
  - unfold Sample.connected, Sample.created, ReceiverRTLSDR_init, init_data_iface.
    unfold_eff. destruct (String.eqb iface "shmem"); reflexivity.
  - lia.
Qed.

Lemma get_iq_online_empty_payload_witness :
  iq_samples
    (self (snd (get_iq_online Sample.AUTO_GAIN_VALUE Sample.decode_header
                  cpython64_bytes_overhead 20
                  (Sample.connected "eth" Sample.quiet
                     (Sample2.empty_header ++ [x07]) 1))))
  = PyInt 0.
Proof.
  pose proof (get_iq_online_empty_payload Sample.AUTO_GAIN_VALUE
                Sample.decode_header cpython64_bytes_overhead 20
                (Sample.connected "eth" Sample.quiet
                   (Sample2.empty_header ++ [x07]) 1)
                Sample2.empty_header [x07]
                {| header_size := 4; active_ant_chs := 1; cpi_length := 0;
                   sample_bit_depth := 32 |}
                eq_refl eq_refl eq_refl (sample_quiet_delivering _ _ _)
                eq_refl eq_refl eq_refl eq_refl) as H.
  cbv zeta in H.
  assert (Hf : (length Sample2.empty_header <= 20)%nat) by (cbn; lia).
  exact (proj1 (proj2 (H Hf))).
Defined.

Lemma sample_created_delivering iface data :
  delivering (recv_plan (env (world (Sample.created iface Sample.quiet data)))).
Proof.
  intros k. exists 1%nat. split.
  - unfold Sample.created, ReceiverRTLSDR_init, init_data_iface.
    unfold_eff. destruct (String.eqb iface "shmem"); reflexivity.
  - lia.
Qed.

Lemma receive_iq_frame_small_samples_witness :
  fst (receive_iq_frame Sample.decode_header 20
         (Sample.created "eth" Sample.quiet
            (Sample2.header16 ++ [x01; x02; x03; x04])))
  = Raised ValueError.
Proof.
  pose proof (receive_iq_frame_small_samples Sample.decode_header 20
                (Sample.created "eth" Sample.quiet
                   (Sample2.header16 ++ [x01; x02; x03; x04]))
                Sample2.header16 [x01; x02; x03; x04]
                {| header_size := 4; active_ant_chs := 1; cpi_length := 1;
                   sample_bit_depth := 16 |}
                (sample_created_delivering _ _)
                eq_refl eq_refl eq_refl (or_intror eq_refl) eq_refl eq_refl) as H.
  cbv zeta in H.
  assert (H1 : (length Sample2.header16 <= 20)%nat) by (cbn; lia).
  assert (H2 : (length [x01; x02; x03; x04] <= 20)%nat) by (cbn; lia).
  exact (proj1 (H H1 H2)).
Defined.

Lemma receive_iq_frame_stores_frame_witness :
  iq_frame_bytes
    (self (snd (receive_iq_frame Sample.decode_header 20
                  (Sample.created "eth" Sample.quiet Sample.frame1))))
  = Some ([x01; x01; x20; x00] ++ [x0a; x0b; x0c; x0d; x01; x02; x03; x04]
          ++ repeat x00 receiver_buffer_size).
Proof.
  pose proof (receive_iq_frame_stores_frame Sample.decode_header 20
                (Sample.created "eth" Sample.quiet Sample.frame1)
                [x01; x01; x20; x00] [x0a; x0b; x0c; x0d; x01; x02; x03; x04]
                {| header_size := 4; active_ant_chs := 1; cpi_length := 1;
                   sample_bit_depth := 32 |}
                (sample_created_delivering _ _)
                eq_refl eq_refl eq_refl eq_refl eq_refl eq_refl) as H.
  cbv zeta in H.
  assert (H1 : (length [x01; x01; x20; x00] <= 20)%nat) by (cbn; lia).
  assert (H2 : (length [x0a; x0b; x0c; x0d; x01; x02; x03; x04] <= 20)%nat)
    by (cbn; lia).
  exact (proj1 (proj2 (proj2 (proj2 (H H1 H2 eq_refl))))).
Defined.

Lemma receive_iq_frame_reads_past_the_frame_witness :
  inbox
    (world (snd (receive_iq_frame Sample.decode_header 20
                   (with_transport (chunked 12) 0
                      (Sample.created "eth" Sample.quiet
                         (Sample.frame1 ++ [x09]))))))
  = [].
Proof.
  pose proof (receive_iq_frame_reads_past_the_frame Sample.decode_header 20
                (with_transport (chunked 12) 0
                   (Sample.created "eth" Sample.quiet (Sample.frame1 ++ [x09])))
                [x01; x01; x20; x00] [x0a; x0b; x0c; x0d; x01; x02; x03; x04]
                [x09]
                {| header_size := 4; active_ant_chs := 1; cpi_length := 1;
                   sample_bit_depth := 32 |}) as H.
  cbv zeta in H.
  assert (H0 : forall k : nat, exists c : nat,
             recv_plan
               (env (world (with_transport (chunked 12) 0
                              (Sample.created "eth" Sample.quiet
                                 (Sample.frame1 ++ [x09]))))) k = Deliver c
             /\ (length [x0a; x0b; x0c; x0d; x01; x02; x03; x04]
                 + length [x09] <= c)%nat /\ (1 <= c)%nat).
  { intros k. exists 12%nat. split; [reflexivity|]. cbn. lia. }
  assert (H1 : (length [x0a; x0b; x0c; x0d; x01; x02; x03; x04]
                + length [x09] <= receiver_buffer_size)%nat)
    by (cbn [length Nat.add]; unfold receiver_buffer_size; lia).
  assert (H2 : (length [x01; x01; x20; x00] <= 20)%nat) by (cbn; lia).
  assert (H3 : (1 <= 20)%nat) by lia.
  exact (proj1 (proj2 (proj2
           (H H0 eq_refl eq_refl eq_refl eq_refl eq_refl eq_refl H1 H2 H3
              eq_refl)))).
Defined.

Lemma get_iq_online_shared_memory_frame_witness :
  M (self (snd (get_iq_online Sample.AUTO_GAIN_VALUE Sample2.decode_header
                  cpython64_bytes_overhead 20
                  (Sample.connected "shmem" Sample2.granting [] 0))))
  = (if (0 =? 0)%N then 1%N else 0%N).
Proof.
  pose proof (get_iq_online_shared_memory_frame Sample.AUTO_GAIN_VALUE
                Sample2.decode_header cpython64_bytes_overhead 20
                (Sample.connected "shmem" Sample2.granting [] 0) 0
                {| header_size := 4; active_ant_chs := 1; cpi_length := 1;
                   sample_bit_depth := 32 |}
                {| arr_id := 2; arr_dtype := float64; arr_shape := [0%N];
                   arr_data := [] |}
                eq_refl eq_refl eq_refl (or_introl eq_refl)) as H.
  cbv zeta in H.
  exact (proj1 (proj2 (proj2
           (H eq_refl eq_refl eq_refl eq_refl eq_refl)))).
Defined.

Lemma get_iq_online_undecodable_header_witness :
  fst (get_iq_online Sample.AUTO_GAIN_VALUE Sample.decode_header
         cpython64_bytes_overhead 20
         (Sample.connected "shmem" Sample.quiet [] 5))
  = Raised StructError.
Proof.
  exact (f_equal fst
           (get_iq_online_undecodable_header Sample.AUTO_GAIN_VALUE
              Sample.decode_header cpython64_bytes_overhead 20
              (Sample.connected "shmem" Sample.quiet [] 5) 0 StructError
              eq_refl eq_refl eq_refl (or_introl eq_refl) eq_refl)).
Defined.
